(** * socdaemon: the hint coordinator and its monitors

    A shallow embedding of the parts of the daemon that decide what is sent
    to the power HAL: [SocDaemon] (the coordinator: dispatch of change
    alerts, the two debounce timers, the hint gate), the sysfs loops of
    [WltMonitor] and [GpuRc6Monitor], and the irregular-interval EMA of
    [SysLoadMonitor].

    Conventions.
    - A C++ [int] is a [Z]; where the source narrows or can overflow, the
      wrap-around is written out ([CLib.wrap32], [CLib.wrapU64]).
    - A finite C++ [double] is a rational.  In the coordinator the loads
      are [Q], comparisons are exact, and the one arithmetic operation, the
      subtraction that gives the slope, is rounded to the nearest double
      ([CLib.fsub]).  The GPU loop and the raw utilisation compute in [Q]
      and the EMA, which needs [std::exp], in [R]: there the arithmetic is
      taken exactly, and rounding is not modelled.
    - Each member function becomes a function on the record of the fields
      it touches.  Calls made on collaborators are recorded in the state:
      [sink] lists the calls of [HintManager::sendHint], [log] the lines
      written by the two gate functions.
    - Values that a handler obtains from outside (the load returned by the
      CPU monitor, the result of [pthread_create]) are passed in as an
      [Env]; threads and real time are not modelled: a handler, or the tail
      of a debounce wait, is one atomic step. *)

From Stdlib Require Import ZArith QArith Bool List String Ascii Lia.
From Stdlib Require Import Reals Lra.
From Stdlib Require Import Qreals.
From Stdlib Require DecimalString DecimalZ DecimalPos.
Import ListNotations.

Local Open Scope string_scope.
Local Open Scope Z_scope.
Local Open Scope list_scope.

(* ================================================================== *)
(** * The pieces of the C library the monitors use *)

Module CLib.

(** Conversion to [int] (32 bits, two's complement). *)
Definition wrap32 (z : Z) : Z := (z + 2 ^ 31) mod 2 ^ 32 - 2 ^ 31.

(** Conversion to [unsigned long long]. *)
Definition wrapU64 (z : Z) : Z := z mod 2 ^ 64.

Definition LONG_MAX : Z := 2 ^ 63 - 1.
Definition LONG_MIN : Z := - 2 ^ 63.

Definition isspace (c : ascii) : bool :=
  let n := Z.of_nat (nat_of_ascii c) in
  (n =? 32) || ((9 <=? n) && (n <=? 13)).

Definition isdigit (c : ascii) : bool :=
  let n := Z.of_nat (nat_of_ascii c) in
  (48 <=? n) && (n <=? 57).

Definition digitValue (c : ascii) : Z := Z.of_nat (nat_of_ascii c) - 48.

(** Leading white space: how many characters, and what follows. *)
Fixpoint dropSpaces (s : string) : nat * string :=
  match s with
  | String c s' =>
      if isspace c
      then let (n, r) := dropSpaces s' in (S n, r)
      else (O, s)
  | EmptyString => (O, s)
  end.

(** An optional sign: negative?, characters taken, what follows. *)
Definition takeSign (s : string) : bool * nat * string :=
  match s with
  | String "-"%char r => (true, 1%nat, r)
  | String "+"%char r => (false, 1%nat, r)
  | _ => (false, O, s)
  end.

(** A run of decimal digits: its value on top of [acc], and its length. *)
Fixpoint readDigits (s : string) (acc : Z) : Z * nat :=
  match s with
  | String c s' =>
      if isdigit c
      then let (v, n) := readDigits s' (10 * acc + digitValue c) in (v, S n)
      else (acc, O)
  | EmptyString => (acc, O)
  end.

(** [strtol(s, &endptr, 10)] on a 64-bit [long]: the value returned and the
    offset of [endptr] from [s]; without digits no conversion is performed,
    the value is 0 and [endptr] is [s]; out of range the value saturates. *)
Definition strtol (s : string) : Z * nat :=
  let (nsp, s1) := dropSpaces s in
  let '(neg, nsg, s2) := takeSign s1 in
  let (v, nd) := readDigits s2 0 in
  match nd with
  | O => (0, O)
  | _ =>
      let v := if neg then - v else v in
      (Z.max LONG_MIN (Z.min LONG_MAX v), (nsp + nsg + nd)%nat)
  end.

(** The test both loops apply after [strtol]:
    [endptr == s.c_str() || *endptr != '\0']. *)
Definition conversionFailed (s : string) : bool :=
  let e := snd (strtol s) in
  Nat.eqb e O || negb (Nat.eqb e (String.length s)).

(** [int v = std::strtol(s.c_str(), &endptr, 10);] *)
Definition strtolInt (s : string) : Z := wrap32 (fst (strtol s)).

(** [buffer[bytes_read] = '\0'; buffer[strcspn(buffer, "\n")] = '\0';
    value_out = buffer;]: the bytes up to the first NUL or newline. *)
Fixpoint upToNewline (s : string) : string :=
  match s with
  | String c s' =>
      if (Ascii.eqb c "010"%char || Ascii.eqb c "000"%char)%bool
      then EmptyString
      else String c (upToNewline s')
  | EmptyString => EmptyString
  end.

(** [static_cast<int>(q)] for a double within the range of [int]:
    truncation towards zero. *)
Definition truncToInt (q : Q) : Z := Z.quot (Qnum q) (Z.pos (Qden q)).

(** A line feed, as sysfs ends a value. *)
Definition lf : string := String "010"%char EmptyString.

(** ** Arithmetic on [double] (IEEE 754 binary64)

    A finite double is a rational; an operation gives the exact result
    rounded to the nearest double, ties to the one with an even
    significand.  Results beyond the largest double (the infinities) are
    not modelled: the values subtracted here are percentages. *)

(** The integer nearest to [n / d], ties to the even one. *)
Definition roundHalfEven (n : Z) (d : positive) : Z :=
  let q := n / Z.pos d in
  let r := n mod Z.pos d in
  match 2 * r ?= Z.pos d with
  | Lt => q
  | Gt => q + 1
  | Eq => if Z.even q then q else q + 1
  end.

(** [n / d] divided by [2 ^ e], as a numerator and a denominator. *)
Definition scale2 (n d : positive) (e : Z) : Z * positive :=
  match e with
  | Z0 => (Z.pos n, d)
  | Z.pos p => (Z.pos n, (d * 2 ^ p)%positive)
  | Z.neg p => (Z.pos (n * 2 ^ p), d)
  end.

(** The exponent of [n / d]: the greatest [k] with [2 ^ k <= n / d]. *)
Definition floorLog2 (n d : positive) : Z :=
  let k := Z.log2 (Z.pos n) - Z.log2 (Z.pos d) in
  let (sn, sd) := scale2 n d k in
  if Z.pos sd <=? sn then k else k - 1.

(** The double nearest to [n / d]: 53 significant bits, the exponent of
    the last one not below -1074 (the subnormal range). *)
Definition roundDoublePos (n d : positive) : Q :=
  let e := Z.max (floorLog2 n d - 52) (-1074) in
  let (sn, sd) := scale2 n d e in
  let m := roundHalfEven sn sd in
  match e with
  | Z0 => inject_Z m
  | Z.pos p => inject_Z (m * Z.pos (2 ^ p))
  | Z.neg p => Qmake m (2 ^ p)
  end.

Definition roundDouble (q : Q) : Q :=
  match Qnum q with
  | Z0 => 0%Q
  | Z.pos n => roundDoublePos n (Qden q)
  | Z.neg n => Qopp (roundDoublePos n (Qden q))
  end.

(** [a - b] on doubles. *)
Definition fsub (a b : Q) : Q := roundDouble (a - b)%Q.

End CLib.

(* ================================================================== *)
(** * SocDaemon.cpp / SocDaemon.h *)

Module SocDaemon.

(** [enum class CCGlobalState : int { Open = 0, CoreContainment = 1 }] *)
Inductive CCGlobalState : Set := Open | CoreContainment.

(** [enum class WltType : int { Idle, Btl, Sustain, Bursty }] *)
Inductive WltType : Set := Idle | Btl | Sustain | Bursty.

Definition CCGlobalState_eqb (a b : CCGlobalState) : bool :=
  match a, b with
  | Open, Open | CoreContainment, CoreContainment => true
  | _, _ => false
  end.

(** [static_cast<WltType>(v & 0x3)] *)
Definition wltOfInt (v : Z) : WltType :=
  match Z.land v 3 with
  | 0 => Idle
  | 1 => Btl
  | 2 => Sustain
  | _ => Bursty
  end.

Definition isIdleOrBtl (w : WltType) : bool :=
  match w with Idle | Btl => true | _ => false end.

Definition isSustainOrBursty (w : WltType) : bool :=
  match w with Sustain | Bursty => true | _ => false end.

(** The part of a [SysLoadMonitor] object the coordinator acts on.
    [sampleCount] is a ghost counter of the calls of
    [SysLoadMonitor::getSysCpuLoad] made through the coordinator. *)
Record SysLoadMonitor : Set := mkSysLoadMonitor {
  samplerPaused_ : bool;
  sampleCount : nat
}.

(** The part of a [GpuRc6Monitor] object the coordinator acts on. *)
Record GpuRc6Monitor : Set := mkGpuRc6Monitor {
  paused_ : bool
}.

(** Which of its three messages a gate function writes to the Android
    log: "Send ...", "... but not sending due to sendHint=false", or "Hint
    value unchanged ...". *)
Inductive GateOutcome : Set := Sent | NotSending | Unchanged.

(** A line written by a gate function: the hint it is about, the value and
    the reason the gate was called with, and the message chosen. *)
Record LogLine : Set := mkLogLine {
  hintKey : string;
  hintValue : Z;
  hintReason : string;
  outcome : GateOutcome
}.

(** Values returned by the outside world during one handler run. *)
Record Env : Set := mkEnv {
  sampledLoad : Q;       (* result of sysLoadMonitorPtr_->getSysCpuLoad() *)
  latestLoad : Q;        (* result of sysLoadMonitorPtr_->getLatestSysCpuLoad() *)
  pthreadCreateOk : bool (* pthread_create(...) == 0 *)
}.

(** The data members of [SocDaemon] (a null pointer is [None]).
    [ccEntryDebounceStartTime_] is written and never read; it is left out. *)
Record State : Type := mkState {
  sendHint_ : bool;
  sendGfxHint_ : bool;
  socHint_ : string;
  efficientMode_ : bool;
  gfxMode_ : bool;
  CCGlobalState_ : CCGlobalState;
  debounceThreadStarted_ : bool;
  ccEntryDebounceActive_ : bool;
  ccEntryDebounceCancelled_ : bool;
  ccExitDebounceActive_ : bool;
  ccExitDebounceCancelled_ : bool;
  ccExitDebounceMs_ : Z;
  latestSysCpuLoadCC_ : Q;
  gpuMonitorThreadRunning_ : bool;
  sysLoadMonitorPtr_ : option SysLoadMonitor;
  gpuRc6MonitorPtr_ : option GpuRc6Monitor;
  sink : list (string * bool);
  log : list LogLine
}.

(** ** Field updates *)

Definition set_efficientMode_ (v : bool) (d : State) : State :=
  mkState (sendHint_ d) (sendGfxHint_ d) (socHint_ d) v (gfxMode_ d)
    (CCGlobalState_ d) (debounceThreadStarted_ d) (ccEntryDebounceActive_ d)
    (ccEntryDebounceCancelled_ d) (ccExitDebounceActive_ d)
    (ccExitDebounceCancelled_ d) (ccExitDebounceMs_ d) (latestSysCpuLoadCC_ d)
    (gpuMonitorThreadRunning_ d) (sysLoadMonitorPtr_ d) (gpuRc6MonitorPtr_ d)
    (sink d) (log d).

Definition set_gfxMode_ (v : bool) (d : State) : State :=
  mkState (sendHint_ d) (sendGfxHint_ d) (socHint_ d) (efficientMode_ d) v
    (CCGlobalState_ d) (debounceThreadStarted_ d) (ccEntryDebounceActive_ d)
    (ccEntryDebounceCancelled_ d) (ccExitDebounceActive_ d)
    (ccExitDebounceCancelled_ d) (ccExitDebounceMs_ d) (latestSysCpuLoadCC_ d)
    (gpuMonitorThreadRunning_ d) (sysLoadMonitorPtr_ d) (gpuRc6MonitorPtr_ d)
    (sink d) (log d).

Definition set_CCGlobalState_ (v : CCGlobalState) (d : State) : State :=
  mkState (sendHint_ d) (sendGfxHint_ d) (socHint_ d) (efficientMode_ d)
    (gfxMode_ d) v (debounceThreadStarted_ d) (ccEntryDebounceActive_ d)
    (ccEntryDebounceCancelled_ d) (ccExitDebounceActive_ d)
    (ccExitDebounceCancelled_ d) (ccExitDebounceMs_ d) (latestSysCpuLoadCC_ d)
    (gpuMonitorThreadRunning_ d) (sysLoadMonitorPtr_ d) (gpuRc6MonitorPtr_ d)
    (sink d) (log d).

Definition set_debounceThreadStarted_ (v : bool) (d : State) : State :=
  mkState (sendHint_ d) (sendGfxHint_ d) (socHint_ d) (efficientMode_ d)
    (gfxMode_ d) (CCGlobalState_ d) v (ccEntryDebounceActive_ d)
    (ccEntryDebounceCancelled_ d) (ccExitDebounceActive_ d)
    (ccExitDebounceCancelled_ d) (ccExitDebounceMs_ d) (latestSysCpuLoadCC_ d)
    (gpuMonitorThreadRunning_ d) (sysLoadMonitorPtr_ d) (gpuRc6MonitorPtr_ d)
    (sink d) (log d).

Definition set_ccEntryDebounceActive_ (v : bool) (d : State) : State :=
  mkState (sendHint_ d) (sendGfxHint_ d) (socHint_ d) (efficientMode_ d)
    (gfxMode_ d) (CCGlobalState_ d) (debounceThreadStarted_ d) v
    (ccEntryDebounceCancelled_ d) (ccExitDebounceActive_ d)
    (ccExitDebounceCancelled_ d) (ccExitDebounceMs_ d) (latestSysCpuLoadCC_ d)
    (gpuMonitorThreadRunning_ d) (sysLoadMonitorPtr_ d) (gpuRc6MonitorPtr_ d)
    (sink d) (log d).

Definition set_ccEntryDebounceCancelled_ (v : bool) (d : State) : State :=
  mkState (sendHint_ d) (sendGfxHint_ d) (socHint_ d) (efficientMode_ d)
    (gfxMode_ d) (CCGlobalState_ d) (debounceThreadStarted_ d)
    (ccEntryDebounceActive_ d) v (ccExitDebounceActive_ d)
    (ccExitDebounceCancelled_ d) (ccExitDebounceMs_ d) (latestSysCpuLoadCC_ d)
    (gpuMonitorThreadRunning_ d) (sysLoadMonitorPtr_ d) (gpuRc6MonitorPtr_ d)
    (sink d) (log d).

Definition set_ccExitDebounceActive_ (v : bool) (d : State) : State :=
  mkState (sendHint_ d) (sendGfxHint_ d) (socHint_ d) (efficientMode_ d)
    (gfxMode_ d) (CCGlobalState_ d) (debounceThreadStarted_ d)
    (ccEntryDebounceActive_ d) (ccEntryDebounceCancelled_ d) v
    (ccExitDebounceCancelled_ d) (ccExitDebounceMs_ d) (latestSysCpuLoadCC_ d)
    (gpuMonitorThreadRunning_ d) (sysLoadMonitorPtr_ d) (gpuRc6MonitorPtr_ d)
    (sink d) (log d).

Definition set_ccExitDebounceCancelled_ (v : bool) (d : State) : State :=
  mkState (sendHint_ d) (sendGfxHint_ d) (socHint_ d) (efficientMode_ d)
    (gfxMode_ d) (CCGlobalState_ d) (debounceThreadStarted_ d)
    (ccEntryDebounceActive_ d) (ccEntryDebounceCancelled_ d)
    (ccExitDebounceActive_ d) v (ccExitDebounceMs_ d) (latestSysCpuLoadCC_ d)
    (gpuMonitorThreadRunning_ d) (sysLoadMonitorPtr_ d) (gpuRc6MonitorPtr_ d)
    (sink d) (log d).

Definition set_ccExitDebounceMs_ (v : Z) (d : State) : State :=
  mkState (sendHint_ d) (sendGfxHint_ d) (socHint_ d) (efficientMode_ d)
    (gfxMode_ d) (CCGlobalState_ d) (debounceThreadStarted_ d)
    (ccEntryDebounceActive_ d) (ccEntryDebounceCancelled_ d)
    (ccExitDebounceActive_ d) (ccExitDebounceCancelled_ d) v
    (latestSysCpuLoadCC_ d) (gpuMonitorThreadRunning_ d)
    (sysLoadMonitorPtr_ d) (gpuRc6MonitorPtr_ d) (sink d) (log d).

Definition set_latestSysCpuLoadCC_ (v : Q) (d : State) : State :=
  mkState (sendHint_ d) (sendGfxHint_ d) (socHint_ d) (efficientMode_ d)
    (gfxMode_ d) (CCGlobalState_ d) (debounceThreadStarted_ d)
    (ccEntryDebounceActive_ d) (ccEntryDebounceCancelled_ d)
    (ccExitDebounceActive_ d) (ccExitDebounceCancelled_ d)
    (ccExitDebounceMs_ d) v (gpuMonitorThreadRunning_ d)
    (sysLoadMonitorPtr_ d) (gpuRc6MonitorPtr_ d) (sink d) (log d).

Definition set_gpuMonitorThreadRunning_ (v : bool) (d : State) : State :=
  mkState (sendHint_ d) (sendGfxHint_ d) (socHint_ d) (efficientMode_ d)
    (gfxMode_ d) (CCGlobalState_ d) (debounceThreadStarted_ d)
    (ccEntryDebounceActive_ d) (ccEntryDebounceCancelled_ d)
    (ccExitDebounceActive_ d) (ccExitDebounceCancelled_ d)
    (ccExitDebounceMs_ d) (latestSysCpuLoadCC_ d) v
    (sysLoadMonitorPtr_ d) (gpuRc6MonitorPtr_ d) (sink d) (log d).

Definition set_sysLoadMonitor (v : option SysLoadMonitor) (d : State) : State :=
  mkState (sendHint_ d) (sendGfxHint_ d) (socHint_ d) (efficientMode_ d)
    (gfxMode_ d) (CCGlobalState_ d) (debounceThreadStarted_ d)
    (ccEntryDebounceActive_ d) (ccEntryDebounceCancelled_ d)
    (ccExitDebounceActive_ d) (ccExitDebounceCancelled_ d)
    (ccExitDebounceMs_ d) (latestSysCpuLoadCC_ d) (gpuMonitorThreadRunning_ d)
    v (gpuRc6MonitorPtr_ d) (sink d) (log d).

Definition set_gpuRc6Monitor (v : option GpuRc6Monitor) (d : State) : State :=
  mkState (sendHint_ d) (sendGfxHint_ d) (socHint_ d) (efficientMode_ d)
    (gfxMode_ d) (CCGlobalState_ d) (debounceThreadStarted_ d)
    (ccEntryDebounceActive_ d) (ccEntryDebounceCancelled_ d)
    (ccExitDebounceActive_ d) (ccExitDebounceCancelled_ d)
    (ccExitDebounceMs_ d) (latestSysCpuLoadCC_ d) (gpuMonitorThreadRunning_ d)
    (sysLoadMonitorPtr_ d) v (sink d) (log d).

Definition set_sink (v : list (string * bool)) (d : State) : State :=
  mkState (sendHint_ d) (sendGfxHint_ d) (socHint_ d) (efficientMode_ d)
    (gfxMode_ d) (CCGlobalState_ d) (debounceThreadStarted_ d)
    (ccEntryDebounceActive_ d) (ccEntryDebounceCancelled_ d)
    (ccExitDebounceActive_ d) (ccExitDebounceCancelled_ d)
    (ccExitDebounceMs_ d) (latestSysCpuLoadCC_ d) (gpuMonitorThreadRunning_ d)
    (sysLoadMonitorPtr_ d) (gpuRc6MonitorPtr_ d) v (log d).

Definition set_log (v : list LogLine) (d : State) : State :=
  mkState (sendHint_ d) (sendGfxHint_ d) (socHint_ d) (efficientMode_ d)
    (gfxMode_ d) (CCGlobalState_ d) (debounceThreadStarted_ d)
    (ccEntryDebounceActive_ d) (ccEntryDebounceCancelled_ d)
    (ccExitDebounceActive_ d) (ccExitDebounceCancelled_ d)
    (ccExitDebounceMs_ d) (latestSysCpuLoadCC_ d) (gpuMonitorThreadRunning_ d)
    (sysLoadMonitorPtr_ d) (gpuRc6MonitorPtr_ d) (sink d) v.

(** ** Conversions and constants *)

(** [bool] promoted to [int] (in [value != efficientMode_]). *)
Definition b2i (b : bool) : Z := if b then 1 else 0.

(** [int] converted to [bool] (argument of [sendHint], [efficientMode_ = value]). *)
Definition i2b (v : Z) : bool := negb (v =? 0).

(** [a < b] on doubles. *)
Definition Qltb (a b : Q) : bool := negb (Qle_bool b a).

Definition kCCEntryDebounceMs : Z := 10000.
Definition kSysloadSlopeThreshold : Q := 5.
Definition kEfficientPower : string := "EFFICIENT_POWER".
Definition kGfxMode : string := "GFX_MODE".

(** ** Collaborators *)

(** [hintManager.sendHint(type, enable)]: the call is appended to [sink]. *)
Definition hintManager_sendHint (type : string) (enable : bool) (d : State) : State :=
  set_sink (sink d ++ [(type, enable)]) d.

Definition ALOG (l : LogLine) (d : State) : State :=
  set_log (log d ++ [l]) d.

(** [if (sysLoadMonitorPtr_) sysLoadMonitorPtr_->restart();] *)
Definition sysLoadMonitor_restart (d : State) : State :=
  match sysLoadMonitorPtr_ d with
  | Some m => set_sysLoadMonitor (Some (mkSysLoadMonitor false (sampleCount m))) d
  | None => d
  end.

(** [if (sysLoadMonitorPtr_) sysLoadMonitorPtr_->pause();] *)
Definition sysLoadMonitor_pause (d : State) : State :=
  match sysLoadMonitorPtr_ d with
  | Some m => set_sysLoadMonitor (Some (mkSysLoadMonitor true (sampleCount m))) d
  | None => d
  end.

(** [gpuRc6MonitorPtr_->pause()] and [->resume()], on a non-null pointer. *)
Definition gpuRc6Monitor_pause (d : State) : State :=
  match gpuRc6MonitorPtr_ d with
  | Some _ => set_gpuRc6Monitor (Some (mkGpuRc6Monitor true)) d
  | None => d
  end.

Definition gpuRc6Monitor_resume (d : State) : State :=
  match gpuRc6MonitorPtr_ d with
  | Some _ => set_gpuRc6Monitor (Some (mkGpuRc6Monitor false)) d
  | None => d
  end.

Definition isSome {A : Type} (o : option A) : bool :=
  match o with Some _ => true | None => false end.

(** [SocDaemon::getSysCpuLoad]: one sample through the monitor, or [-1.0]. *)
Definition getSysCpuLoad (env : Env) (d : State) : Q * State :=
  match sysLoadMonitorPtr_ d with
  | Some m =>
      (sampledLoad env,
       set_sysLoadMonitor (Some (mkSysLoadMonitor (samplerPaused_ m) (S (sampleCount m)))) d)
  | None => ((-1)%Q, d)
  end.

(** [SocDaemon::getLatestSysCpuLoad]: the EMA without sampling, or [-1.0]. *)
Definition getLatestSysCpuLoad (env : Env) (d : State) : Q :=
  match sysLoadMonitorPtr_ d with
  | Some _ => latestLoad env
  | None => (-1)%Q
  end.

(** ** The hint gate *)

Definition sendHintIfAllowed (value : Z) (reason : string) (d : State) : State :=
  if negb (value =? b2i (efficientMode_ d)) then
    let d1 :=
      if sendHint_ d
      then ALOG (mkLogLine kEfficientPower value reason Sent)
                (hintManager_sendHint kEfficientPower (i2b value) d)
      else ALOG (mkLogLine kEfficientPower value reason NotSending) d in
    let d2 := set_efficientMode_ (i2b value) d1 in
    if efficientMode_ d2 then sysLoadMonitor_restart d2 else sysLoadMonitor_pause d2
  else ALOG (mkLogLine kEfficientPower value reason Unchanged) d.

Definition sendGfxHintIfAllowed (value : Z) (reason : string) (d : State) : State :=
  if negb (value =? b2i (gfxMode_ d)) then
    let d1 :=
      if sendGfxHint_ d
      then ALOG (mkLogLine kGfxMode value reason Sent)
                (hintManager_sendHint kGfxMode (i2b value) d)
      else ALOG (mkLogLine kGfxMode value reason NotSending) d in
    set_gfxMode_ (i2b value) d1
  else ALOG (mkLogLine kGfxMode value reason Unchanged) d.

(** ** Debounce control helpers *)

Definition startCCEntryDebounceTimer (d : State) : State :=
  set_debounceThreadStarted_ true
    (set_ccEntryDebounceCancelled_ false
       (set_ccEntryDebounceActive_ true d)).

Definition stopCCEntryDebounceTimer (d : State) : State :=
  set_ccEntryDebounceCancelled_ true (set_ccEntryDebounceActive_ false d).

Definition isCCEntryDebounceTimerRunning (d : State) : bool :=
  ccEntryDebounceActive_ d.

(** The default argument of the declaration is [milliseconds(1000)]. *)
Definition startCCExitDebounceTimer (timeout : Z) (d : State) : State :=
  set_ccExitDebounceMs_ timeout
    (set_debounceThreadStarted_ true
       (set_ccExitDebounceCancelled_ false
          (set_ccExitDebounceActive_ true d))).

Definition stopCCExitDebounceTimer (d : State) : State :=
  set_ccExitDebounceCancelled_ true (set_ccExitDebounceActive_ false d).

Definition isCCExitDebounceTimerRunning (d : State) : bool :=
  ccExitDebounceActive_ d.

(** ** Monitor callbacks *)

(** [gpuMonitorThreadRunning_ && gpuRc6MonitorPtr_] *)
Definition gpuThreadUp (d : State) : bool :=
  gpuMonitorThreadRunning_ d && isSome (gpuRc6MonitorPtr_ d).

(** In containment, on a change from Idle/Btl to Sustain/Bursty: take the
    load snapshot, and start the GPU thread or resume the GPU monitor. *)
Definition snapshotAndResumeGpu (env : Env) (d : State) : State :=
  let d := set_latestSysCpuLoadCC_ (getLatestSysCpuLoad env d) d in
  if negb (gpuMonitorThreadRunning_ d) && isSome (gpuRc6MonitorPtr_ d) then
    if pthreadCreateOk env
    then gpuRc6Monitor_resume (set_gpuMonitorThreadRunning_ true d)
    else d
  else if gpuThreadUp d then gpuRc6Monitor_resume d
  else d.

(** In containment: [switch (newWLT)]. *)
Definition containmentSwitch (newWLT : WltType) (d : State) : State :=
  match newWLT with
  | Idle | Btl =>
      let d1 := if gpuThreadUp d then gpuRc6Monitor_pause d else d in
      if isCCExitDebounceTimerRunning d1 then stopCCExitDebounceTimer d1 else d1
  | Sustain | Bursty =>
      let d1 :=
        if negb (isCCExitDebounceTimerRunning d)
        then startCCExitDebounceTimer 1000 d else d in
      if gpuThreadUp d1 then gpuRc6Monitor_resume d1 else d1
  end.

(** The branch [socHint_ == "wlt"] while [CCGlobalState_] is
    [CoreContainment]. *)
Definition wltInContainment (oldWLT newWLT : WltType) (env : Env) (d : State) : State :=
  let d1 :=
    if isIdleOrBtl oldWLT && isSustainOrBursty newWLT
    then snapshotAndResumeGpu env d else d in
  (* Update the sysLoad value. *)
  let d2 := snd (getSysCpuLoad env d1) in
  containmentSwitch newWLT d2.

(** The branch [socHint_ == "wlt"] while not in [CoreContainment]. *)
Definition wltOutsideContainment (newWLT : WltType) (d : State) : State :=
  match newWLT with
  | Idle | Btl =>
      let d1 :=
        if CCGlobalState_eqb (CCGlobalState_ d) Open
           && negb (isCCEntryDebounceTimerRunning d)
        then startCCEntryDebounceTimer d else d in
      if gpuThreadUp d1 then gpuRc6Monitor_pause d1 else d1
  | Sustain =>
      let d1 :=
        if isCCEntryDebounceTimerRunning d
        then stopCCEntryDebounceTimer d else d in
      if gpuThreadUp d1 then gpuRc6Monitor_resume d1 else d1
  | Bursty => d
  end.

Definition onWltMonitor (oldValue newValue : Z) (env : Env) (d : State) : State :=
  if (socHint_ d =? "wlt")%string then
    let newWLT := wltOfInt newValue in
    let oldWLT := wltOfInt oldValue in
    if CCGlobalState_eqb (CCGlobalState_ d) CoreContainment
    then wltInContainment oldWLT newWLT env d
    else wltOutsideContainment newWLT d
  else if (socHint_ d =? "swlt")%string then
    if Z.land newValue (Z.shiftl 1 4) =? 0
    then sendHintIfAllowed 0 "SWLT is Performance" d
    else sendHintIfAllowed 1 "SWLT is Power" d
  else d.

Definition onHfiMonitor (newValue : Z) (d : State) : State :=
  if newValue =? 255
  then sendHintIfAllowed 1 "HFI Efficient Power Mode is 255" d
  else sendHintIfAllowed 0 "HFI Efficient Power Mode is not 255" d.

(** [prev = CCGlobalState_.exchange(Open); if (prev != CoreContainment) ...] *)
Definition onSysLoadMonitor (d : State) : State :=
  let prev := CCGlobalState_ d in
  let d1 := set_CCGlobalState_ Open d in
  if negb (CCGlobalState_eqb prev CoreContainment)
  then sendHintIfAllowed 0 "HighSysLoadInCC" d1
  else d1.

Definition onGpuRc6Monitor (newValue : Z) (d : State) : State :=
  if newValue =? 1
  then sendGfxHintIfAllowed 1 "High GPU load detected" d
  else sendGfxHintIfAllowed 0 "Low GPU load detected" d.

(** [SocDaemon::handleChangeAlert]: four [if (name == ...)] statements in
    a row. *)
Definition handleChangeAlert (name : string) (oldValue newValue : Z)
    (env : Env) (d : State) : State :=
  let d1 := if (name =? "WltMonitor")%string
            then onWltMonitor oldValue newValue env d else d in
  let d2 := if (name =? "HfiMonitor")%string then onHfiMonitor newValue d1 else d1 in
  let d3 := if (name =? "SysLoadMonitor")%string then onSysLoadMonitor d2 else d2 in
  if (name =? "GpuRc6Monitor")%string then onGpuRc6Monitor newValue d3 else d3.

(** ** The debounce thread

    [debounceThreadFunc] waits on the condition variable; what it does when
    a wait is over (by time-out, or because the timer was stopped) is the
    code that follows the inner [while]: these two functions. *)

(** [debounceThreadStarted_ = false;] after the outer wait. *)
Definition debounceThreadWake (d : State) : State :=
  set_debounceThreadStarted_ false d.

(** Lines following the entry wait: [ccEntryDebounceActive_ = false; if
    (!ccEntryDebounceCancelled_) { ... } else ccEntryDebounceCancelled_ =
    false;] *)
Definition entryDebounceOver (env : Env) (d : State) : State :=
  let d := set_ccEntryDebounceActive_ false d in
  if negb (ccEntryDebounceCancelled_ d) then
    let (currentSysCpuLoad, d) := getSysCpuLoad env d in
    if Qltb currentSysCpuLoad 25 then
      let prev := CCGlobalState_ d in
      let d := set_CCGlobalState_ CoreContainment d in
      if negb (CCGlobalState_eqb prev CoreContainment)
      then sendHintIfAllowed 1 "EntryDebounceTimerExpired" d
      else d
    else d
  else set_ccEntryDebounceCancelled_ false d.

(** Lines following the exit wait; [double slope = currentSysCpuLoad -
    latestSysCpuLoadCC_;] is a subtraction of doubles. *)
Definition exitDebounceOver (env : Env) (d : State) : State :=
  let d := set_ccExitDebounceActive_ false d in
  if negb (ccExitDebounceCancelled_ d) then
    if CCGlobalState_eqb (CCGlobalState_ d) CoreContainment then
      let (currentSysCpuLoad, d) := getSysCpuLoad env d in
      let slope := CLib.fsub currentSysCpuLoad (latestSysCpuLoadCC_ d) in
      if Qltb kSysloadSlopeThreshold slope then
        let prev := CCGlobalState_ d in
        let d := set_CCGlobalState_ Open d in
        if negb (CCGlobalState_eqb prev Open)
        then sendHintIfAllowed 0 "ExitDebounceTimerExpired" d
        else d
      else startCCExitDebounceTimer 5000 d
    else d
  else set_ccExitDebounceCancelled_ false d.

(** ** Construction and start *)

(** The constructor: the member initialisers of SocDaemon.h.  [gfxMode_]
    is used by SocDaemon.cpp but its declaration is not in the header at
    hand; its initial value is the parameter [gfxMode0]. *)
Definition construct (sendHint sendGfxHint : bool) (socHint : string)
    (gfxMode0 : bool) : State :=
  mkState sendHint sendGfxHint socHint false gfxMode0 Open false
    false false false false 1000 0%Q false None None [] [].

(** [SocDaemon::start] up to the creation of the threads, as far as the
    coordinator's own fields go.  [gpuInitOk] is [gpuMonitorPtr->init() >=
    0]; [SysLoadMonitor::init] always returns 0 and leaves the sampler
    paused; the GPU monitor is paused before it is registered. *)
Definition start (gpuInitOk : bool) (d : State) : State :=
  let d1 :=
    if gpuInitOk then set_gpuRc6Monitor (Some (mkGpuRc6Monitor true)) d else d in
  set_sysLoadMonitor (Some (mkSysLoadMonitor true 0)) d1.

(** ** Traces *)

(** What can happen to the coordinator: a monitor calls back, or one of the
    two debounce waits is over. *)
Inductive Event : Set :=
| ChangeAlert (name : string) (oldValue newValue : Z) (env : Env)
| DebounceThreadWake
| EntryDebounceOver (env : Env)
| ExitDebounceOver (env : Env).

Definition step (d : State) (e : Event) : State :=
  match e with
  | ChangeAlert name oldValue newValue env =>
      handleChangeAlert name oldValue newValue env d
  | DebounceThreadWake => debounceThreadWake d
  | EntryDebounceOver env => entryDebounceOver env d
  | ExitDebounceOver env => exitDebounceOver env d
  end.

Definition run (d : State) (es : list Event) : State := fold_left step es d.

(** The values sent to the sink under one hint name, oldest first. *)
Definition sentFor (key : string) (calls : list (string * bool)) : list bool :=
  map snd (filter (fun c => (fst c =? key)%string) calls).

(** Every element differs from the one before it, [b] standing before the
    first. *)
Fixpoint alternatesFrom (b : bool) (l : list bool) : Prop :=
  match l with
  | [] => True
  | x :: l' => x <> b /\ alternatesFrom x l'
  end.

(** ** What the properties below observe *)

(** The pause flag of the CPU-load monitor, when there is one. *)
Definition samplerPaused (d : State) : option bool :=
  option_map samplerPaused_ (sysLoadMonitorPtr_ d).

(** The pause flag of the GPU monitor, when there is one. *)
Definition gpuPaused (d : State) : option bool :=
  option_map paused_ (gpuRc6MonitorPtr_ d).

(** What the two debounce timers consist of. *)
Definition timers (d : State) : bool * bool * bool * bool * Z :=
  (ccEntryDebounceActive_ d, ccEntryDebounceCancelled_ d,
   ccExitDebounceActive_ d, ccExitDebounceCancelled_ d, ccExitDebounceMs_ d).

(** The load the coordinator obtains from [getSysCpuLoad]. *)
Definition loadSeen (env : Env) (d : State) : Q := fst (getSysCpuLoad env d).

(** The number of samples the CPU-load monitor has been asked for. *)
Definition samplesTaken (d : State) : option nat :=
  option_map sampleCount (sysLoadMonitorPtr_ d).

(** Does this WLT alert make the coordinator start the GPU thread?  In
    containment, on a change from Idle/Btl to Sustain/Bursty, when
    [pthread_create] succeeds. *)
Definition startsGpuThread (oldValue newValue : Z) (env : Env) (d : State) : bool :=
  CCGlobalState_eqb (CCGlobalState_ d) CoreContainment
  && isIdleOrBtl (wltOfInt oldValue)
  && isSustainOrBursty (wltOfInt newValue)
  && pthreadCreateOk env.

(** The WLT integers 0x02, 0x12, 0x02 as the WLT monitor reports them (its
    first alert carries 0 as the old value). *)
Definition swltSequence (e1 e2 e3 : Env) : list Event :=
  [ChangeAlert "WltMonitor" 0 2 e1;
   ChangeAlert "WltMonitor" 2 18 e2;
   ChangeAlert "WltMonitor" 18 2 e3].

(** A hint request made directly at one of the two gates, with the value
    0 or 1 every call site passes. *)
Inductive Request : Set :=
| RequestEfficient (value : bool) (reason : string)
| RequestGfx (value : bool) (reason : string).

Definition request (d : State) (r : Request) : State :=
  match r with
  | RequestEfficient v reason => sendHintIfAllowed (b2i v) reason d
  | RequestGfx v reason => sendGfxHintIfAllowed (b2i v) reason d
  end.

(** What the gates read and write. *)
Definition gateView (d : State) : bool * bool * bool * bool * list (string * bool) :=
  (sendHint_ d, sendGfxHint_ d, efficientMode_ d, gfxMode_ d, sink d).

(** The three things one step of the coordinator can do to the gates:
    nothing; flip the cached EFFICIENT_POWER value, telling the sink if
    [sendHint_]; flip the cached GFX_MODE value, telling the sink if
    [sendGfxHint_]. *)
Inductive gateStep (d d' : State) : Prop :=
| gate_idle :
    gateView d' = gateView d -> gateStep d d'
| gate_efficient :
    gateView d'
    = (sendHint_ d, sendGfxHint_ d, negb (efficientMode_ d), gfxMode_ d,
       sink d ++ if sendHint_ d
                 then [(kEfficientPower, negb (efficientMode_ d))] else []) ->
    gateStep d d'
| gate_gfx :
    gateView d'
    = (sendHint_ d, sendGfxHint_ d, efficientMode_ d, negb (gfxMode_ d),
       sink d ++ if sendGfxHint_ d
                 then [(kGfxMode, negb (gfxMode_ d))] else []) ->
    gateStep d d'.

End SocDaemon.

(* ================================================================== *)
(** * WltMonitor.cpp *)

Module WltMonitor.

Inductive LogLine : Set :=
| LogReadError
| LogConvertPrevious (s : string)  (* "Failed to convert previous_value '%s' to int" *)
| LogConvertCurrent (s : string).  (* "Failed to convert current_value '%s' to int" *)

(** The locals of [monitorLoop] that live across iterations. *)
Record Loop : Set := mkLoop {
  current_value : string;
  previous_value : string
}.

(** One pass through the body of the polling loop, up to [poll]. *)
Record Pass : Set := mkPass {
  loop : Loop;
  logged : list LogLine;
  alert : option (Z * Z)   (* onValueChanged(prev_val, curr_val) *)
}.

(** [readValue(fd, value_out)]: [bytes] is what [read] returned, [None]
    when it failed; then [value_out] keeps its content. *)
Definition readValue (bytes : option string) (value_out : string)
  : string * list LogLine :=
  match bytes with
  | Some b => (CLib.upToNewline b, [])
  | None => (value_out, [LogReadError])
  end.

Definition iteration (bytes : option string) (l : Loop) : Pass :=
  let (current, rdlog) := readValue bytes (current_value l) in
  if negb (current =? previous_value l)%string then
    let prev_val := CLib.strtolInt (previous_value l) in
    let log1 := if CLib.conversionFailed (previous_value l)
                then [LogConvertPrevious (previous_value l)] else [] in
    let curr_val := CLib.strtolInt current in
    let log2 := if CLib.conversionFailed current
                then [LogConvertCurrent current] else [] in
    mkPass (mkLoop current current) (rdlog ++ log1 ++ log2)
           (Some (prev_val, curr_val))
  else mkPass (mkLoop current (previous_value l)) rdlog None.

End WltMonitor.

(* ================================================================== *)
(** * GpuRc6Monitor.cpp *)

Module GpuRc6Monitor.

Inductive LogLine : Set :=
| LogReadError
| LogConvertPrevious (s : string)
| LogConvertCurrent (s : string)
| LogHighLoad (idle_percent : Q).  (* "High GPU load detected, GPU is %f%% idle" *)

Definition kGpuHighLoadPercent : Z := 40.

Record Loop : Set := mkLoop {
  current_value : string;
  previous_value : string
}.

Record Pass : Set := mkPass {
  loop : Loop;
  logged : list LogLine;
  alert : option (Z * Z)   (* onValueChanged((int)idle_percent, gfxMode) *)
}.

Definition readValue (bytes : option string) (value_out : string)
  : string * list LogLine :=
  match bytes with
  | Some b => (CLib.upToNewline b, [])
  | None => (value_out, [LogReadError])
  end.

(** [delta_idle]: [curr_val - prev_val] is computed in [int] and converted
    to [unsigned long long]; a difference above [INT_MAX] is undefined in
    C++ and taken here as the wrapped value. *)
Definition deltaIdle (prev_val curr_val : Z) : Z :=
  if curr_val >=? prev_val
  then CLib.wrapU64 (CLib.wrap32 (curr_val - prev_val))
  else 0.

(** [(double)delta_idle * 100.0 / 1000.0] *)
Definition percentOf (delta_idle : Z) : Q :=
  (inject_Z delta_idle * 100 / 1000)%Q.

(** [percent > 100.0 ? 100.0 : percent] *)
Definition idlePercent (percent : Q) : Q :=
  if SocDaemon.Qltb 100 percent then 100%Q else percent.

(** The body of the polling loop from [readValue] up to [poll]. *)
Definition iteration (bytes : option string) (l : Loop) : Pass :=
  let (current, rdlog) := readValue bytes (current_value l) in
  if negb (current =? previous_value l)%string then
    let prev_val := CLib.strtolInt (previous_value l) in
    let log1 := if CLib.conversionFailed (previous_value l)
                then [LogConvertPrevious (previous_value l)] else [] in
    let curr_val := CLib.strtolInt current in
    let log2 := if CLib.conversionFailed current
                then [LogConvertCurrent current] else [] in
    let delta_idle := deltaIdle prev_val curr_val in
    let percent := percentOf delta_idle in
    let idle_percent := idlePercent percent in
    if Qle_bool idle_percent (inject_Z kGpuHighLoadPercent) then
      mkPass (mkLoop current current)
             (rdlog ++ log1 ++ log2 ++ [LogHighLoad idle_percent])
             (Some (CLib.truncToInt idle_percent, 1))
    else
      mkPass (mkLoop current current) (rdlog ++ log1 ++ log2)
             (Some (CLib.truncToInt idle_percent, 0))
  else mkPass (mkLoop current (previous_value l)) rdlog None.

(** The idle percentage the GPU loop derives from two converted values. *)
Definition gpuIdlePercent (prev_val curr_val : Z) : Q :=
  idlePercent
    (percentOf (deltaIdle prev_val curr_val)).

(** What the GPU loop passes to [onValueChanged]. *)
Definition gpuAlert (prev_val curr_val : Z) : Z * Z :=
  (CLib.truncToInt (gpuIdlePercent prev_val curr_val),
   if Qle_bool (gpuIdlePercent prev_val curr_val)
               (inject_Z kGpuHighLoadPercent)
   then 1 else 0).

End GpuRc6Monitor.

(* ================================================================== *)
(** * SysLoadMonitor.cpp: the EMA *)

Module SysLoadMonitor.

Local Open Scope R_scope.

(** The file-level statics [g_cpuEmaValue], [g_cpuEmaValuePrev] and
    [g_cpuEmaLastTs]; a [steady_clock::time_point] is a count of
    nanoseconds. *)
Record Ema : Type := mkEma {
  g_cpuEmaValue : R;
  g_cpuEmaValuePrev : R;
  g_cpuEmaLastTs : Z
}.

(** [-1.0]: negative means not yet initialised. *)
Definition emaAtStart (t0 : Z) : Ema := mkEma (-1) (-1) t0.

Definition kCpuEmaTimeConstantSec : R := 15 / 10.

(** [duration_cast<duration<double>>(d).count()]: nanoseconds as seconds. *)
Definition secondsOf (ns : Z) : R := IZR ns / 1000000000.

(** [applyEmaIrregularSample(rawPercent)], the clock read being [now]:
    the value returned and the statics afterwards. *)
Definition applyEmaIrregularSample (now : Z) (rawPercent : R) (g : Ema) : R * Ema :=
  let dt := secondsOf (now - g_cpuEmaLastTs g) in
  let dt := if Rlt_dec dt 0 then 0 else dt in
  if Rlt_dec rawPercent 0 then
    ((if Rge_dec (g_cpuEmaValue g) 0 then g_cpuEmaValue g else -1),
     mkEma (g_cpuEmaValue g) (g_cpuEmaValuePrev g) now)
  else if Rlt_dec (g_cpuEmaValue g) 0 then
    (rawPercent, mkEma rawPercent (g_cpuEmaValuePrev g) now)
  else
    let alpha := 1 - exp (- dt / kCpuEmaTimeConstantSec) in
    let alpha := if Rlt_dec alpha 0 then 0 else alpha in
    let alpha := if Rgt_dec alpha 1 then 1 else alpha in
    let v := g_cpuEmaValue g * (1 - alpha) + rawPercent * alpha in
    (v, mkEma v (g_cpuEmaValue g) now).

(** The interval since the last update, in seconds, never negative. *)
Definition elapsed (now : Z) (g : Ema) : R :=
  Rmax 0 (secondsOf (now - g_cpuEmaLastTs g)).

(** The smoothing weight for an interval of [dt] seconds. *)
Definition weight (dt : R) : R := 1 - exp (- dt / kCpuEmaTimeConstantSec).

(** The statics after a run of samples, each a clock reading and a raw
    percentage. *)
Definition feed (g : Ema) (samples : list (Z * R)) : Ema :=
  fold_left (fun g s => snd (applyEmaIrregularSample (fst s) (snd s) g))
            samples g.

End SysLoadMonitor.

(* ================================================================== *)
(** * Scenarios: concrete states and inputs *)

Module Scenarios.

Import SocDaemon.

(** The daemon started in "wlt" mode with hints enabled and all monitors
    initialised. *)
Definition wltDaemon : State := start true (construct true true "wlt" false).

(** The same in "swlt" mode. *)
Definition swltDaemon : State := start true (construct true true "swlt" false).

(** The daemon started in "wlt" mode with both send flags off. *)
Definition quietDaemon : State := start true (construct false false "wlt" false).

(** An environment whose CPU load is 10%. *)
Definition calm : Env := mkEnv 10 10 true.

(** The idle event arms the entry timer of the freshly started daemon. *)
Definition idlingDaemon : State :=
  handleChangeAlert "WltMonitor" 0 0 calm wltDaemon.

(** In containment with the exit timer armed: WLT went idle, the entry
    timer expired under low load, then WLT went to Sustain. *)
Definition containedDaemon : State :=
  run wltDaemon
    [ChangeAlert "WltMonitor" 0 0 calm;
     EntryDebounceOver calm;
     ChangeAlert "WltMonitor" 0 2 calm].

(** Containment entered under a load of 10% while WLT was Bursty (Bursty
    does not stop the entry timer). *)
Definition enteredAtTen : State :=
  run wltDaemon
    [ChangeAlert "WltMonitor" 0 0 calm;
     ChangeAlert "WltMonitor" 0 3 calm;
     EntryDebounceOver calm].

(** Then WLT goes from Bursty to Sustain: the exit timer is armed. *)
Definition leavingFromBursty : State :=
  handleChangeAlert "WltMonitor" 3 2 calm enteredAtTen.

(** An environment whose CPU load is 12%. *)
Definition atTwelve : Env := mkEnv 12 12 true.

(** An environment whose sampled load is 10% while the EMA, read without
    sampling, holds 90%. *)
Definition lightNow : Env := mkEnv 10 90 true.

(** The doubles nearest to 5.03 and to 0.03. *)
Definition double_5_03 : Q := 5663276531418399 # 1125899906842624.
Definition double_0_03 : Q := 1080863910568919 # 36028797018963968.

(** An environment whose latest EMA is 0.03, and one that samples 5.03. *)
Definition latestAt0_03 : Env := mkEnv 10 double_0_03 true.
Definition sampledAt5_03 : Env := mkEnv double_5_03 90 true.

(** In containment with the snapshot taken at 0.03 and the exit timer
    armed: WLT idle, entry expiry under low load, WLT to Sustain. *)
Definition containedAt0_03 : State :=
  run wltDaemon
    [ChangeAlert "WltMonitor" 0 0 calm;
     EntryDebounceOver calm;
     ChangeAlert "WltMonitor" 0 2 latestAt0_03].

(** Open again after a busy spike, the entry timer armed anew: containment
    entered, WLT to Sustain, the CPU-load monitor alerts, WLT back to
    Idle. *)
Definition reopenedBySpike : State :=
  run wltDaemon
    [ChangeAlert "WltMonitor" 0 0 calm;
     EntryDebounceOver calm;
     ChangeAlert "WltMonitor" 0 2 calm;
     ChangeAlert "SysLoadMonitor" 20 30 calm;
     ChangeAlert "WltMonitor" 2 0 calm].

(** The EMA at 50%, last updated at time 0. *)
Definition emaAtFifty : SysLoadMonitor.Ema := SysLoadMonitor.mkEma 50%R (-1)%R 0.

End Scenarios.

(* ================================================================== *)
(** * SocDaemon: what holds along every trace *)

Module SocDaemonInvariants.

Import SocDaemon.

(** The daemon as [main] leaves it before the first event: constructed and
    started. *)
Definition started (sendHint sendGfxHint : bool) (socHint : string)
    (gfxMode0 gpuInitOk : bool) : State :=
  start gpuInitOk (construct sendHint sendGfxHint socHint gfxMode0).

(** Why one step moved the containment state: the entry wait ended, not
    cancelled, under a load below 25.0, in Open; or the exit wait ended,
    not cancelled, with a slope above the threshold, in containment; or
    the CPU-load monitor alerted in containment. *)
Definition moveCause (d : State) (e : Event) : Prop :=
  (exists env,
      e = EntryDebounceOver env /\
      ccEntryDebounceCancelled_ d = false /\
      (loadSeen env d < 25)%Q /\
      CCGlobalState_ d = Open /\
      CCGlobalState_ (step d e) = CoreContainment) \/
  (exists env,
      e = ExitDebounceOver env /\
      ccExitDebounceCancelled_ d = false /\
      (kSysloadSlopeThreshold < loadSeen env d - latestSysCpuLoadCC_ d)%Q /\
      CCGlobalState_ d = CoreContainment /\
      CCGlobalState_ (step d e) = Open) \/
  (exists oldValue newValue env,
      e = ChangeAlert "SysLoadMonitor" oldValue newValue env /\
      CCGlobalState_ d = CoreContainment /\
      CCGlobalState_ (step d e) = Open).

(** There is a CPU-load monitor, and it is paused exactly when the cached
    EFFICIENT_POWER value is false. *)
Definition samplerFollowsHint (d : State) : Prop :=
  samplerPaused d = Some (negb (efficientMode_ d)).

(** A debounce timer is never both running and cancelled, and the exit
    delay is one of the two the code passes. *)
Definition timersOk (t : bool * bool * bool * bool * Z) : Prop :=
  let '(entryActive, entryCancelled, exitActive, exitCancelled, exitMs) := t in
  entryActive && entryCancelled = false /\
  exitActive && exitCancelled = false /\
  (exitMs = 1000 \/ exitMs = 5000).

Definition timersWellFormed (d : State) : Prop := timersOk (timers d).

(** The timers after [containmentSwitch]: Idle/Btl stops a running exit
    timer; Sustain/Bursty starts it with 1000 ms unless it runs. *)
Definition timersAfterSwitch (newWLT : WltType) (d : State)
  : bool * bool * bool * bool * Z :=
  match newWLT with
  | Idle | Btl =>
      (ccEntryDebounceActive_ d, ccEntryDebounceCancelled_ d, false,
       if ccExitDebounceActive_ d then true else ccExitDebounceCancelled_ d,
       ccExitDebounceMs_ d)
  | Sustain | Bursty =>
      if ccExitDebounceActive_ d then timers d
      else (ccEntryDebounceActive_ d, ccEntryDebounceCancelled_ d,
            true, false, 1000)
  end.

(** The timers after [wltOutsideContainment]: Idle/Btl starts the entry
    timer unless it runs; Sustain stops it if it runs; Bursty does
    nothing. *)
Definition timersAfterOutside (newWLT : WltType) (d : State)
  : bool * bool * bool * bool * Z :=
  match newWLT with
  | Idle | Btl =>
      if CCGlobalState_eqb (CCGlobalState_ d) Open
         && negb (ccEntryDebounceActive_ d)
      then (true, false, ccExitDebounceActive_ d, ccExitDebounceCancelled_ d,
            ccExitDebounceMs_ d)
      else timers d
  | Sustain =>
      if ccEntryDebounceActive_ d
      then (false, true, ccExitDebounceActive_ d, ccExitDebounceCancelled_ d,
            ccExitDebounceMs_ d)
      else timers d
  | Bursty => timers d
  end.

(** The state the expiry code works on once the load has been sampled. *)
Definition sampledAfter (env : Env) (d : State) : State :=
  snd (getSysCpuLoad env d).

(** The cached EFFICIENT_POWER value mirrors the containment state. *)
Definition hintMirrorsState (d : State) : Prop :=
  efficientMode_ d = CCGlobalState_eqb (CCGlobalState_ d) CoreContainment.

(** An event other than an alert of the CPU-load or of the HFI monitor. *)
Definition spikeFree (e : Event) : bool :=
  match e with
  | ChangeAlert name _ _ _ =>
      negb (name =? "SysLoadMonitor")%string && negb (name =? "HfiMonitor")%string
  | _ => true
  end.

(** An event other than an alert of the HFI monitor (which [start] does
    not register in "wlt" mode). *)
Definition notHfi (e : Event) : bool :=
  match e with
  | ChangeAlert name _ _ _ => negb (name =? "HfiMonitor")%string
  | _ => true
  end.

(** In containment the cached EFFICIENT_POWER value is true. *)
Definition containedHasHint (d : State) : Prop :=
  CCGlobalState_ d = CoreContainment -> efficientMode_ d = true.

(** Is this call of the sink for one of the two hints the daemon knows? *)
Definition knownHint (c : string * bool) : Prop :=
  fst c = kEfficientPower \/ fst c = kGfxMode.

(** What the sink was told last agrees with the cache. *)
Definition sinkAgrees (gfxMode0 : bool) (d : State) : Prop :=
  (sendHint_ d = true ->
   last (sentFor kEfficientPower (sink d)) false = efficientMode_ d) /\
  (sendGfxHint_ d = true ->
   last (sentFor kGfxMode (sink d)) gfxMode0 = gfxMode_ d).

(** Can the code after a wait of the debounce thread run in this state?
    The thread enters a wait only for a timer it finds running
    ([if (ccEntryDebounceActive_.load())]), and a timer that ran has since
    been stopped at most ([stop...] sets the cancelled flag): so the wait
    that ends belongs to a timer that is running or cancelled. *)
Definition timerLive (d : State) (e : Event) : bool :=
  match e with
  | EntryDebounceOver _ => ccEntryDebounceActive_ d || ccEntryDebounceCancelled_ d
  | ExitDebounceOver _ => ccExitDebounceActive_ d || ccExitDebounceCancelled_ d
  | _ => true
  end.

(** Every timer event of the trace is live when it happens. *)
Fixpoint timersLive (d : State) (es : list Event) : bool :=
  match es with
  | [] => true
  | e :: es' => timerLive d e && timersLive (step d e) es'
  end.

(** Open, with both timers idle. *)
Definition restingOpen (d : State) : Prop :=
  CCGlobalState_ d = Open /\
  ccEntryDebounceActive_ d = false /\ ccEntryDebounceCancelled_ d = false /\
  ccExitDebounceActive_ d = false /\ ccExitDebounceCancelled_ d = false.

(** The fields no WLT alert in "wlt" mode writes. *)
Definition hintSide (d : State)
  : bool * bool * string * bool * bool * CCGlobalState * option bool
    * list (string * bool) * list LogLine :=
  (sendHint_ d, sendGfxHint_ d, socHint_ d, efficientMode_ d, gfxMode_ d,
   CCGlobalState_ d, samplerPaused d, sink d, log d).

(** The configuration: what the constructor receives. *)
Definition config (d : State) : bool * bool * string :=
  (sendHint_ d, sendGfxHint_ d, socHint_ d).

End SocDaemonInvariants.

(* ================================================================== *)
(** * The sysfs loops over several passes *)

Module MonitorLoops.

(** [std::to_string(int)]: the decimal digits, after a minus sign for a
    negative value. *)
Definition to_string (n : Z) : string :=
  DecimalString.NilZero.string_of_int (Z.to_int n).

(** [std::to_string(notificationDelay_) + "\n"], what [WltMonitor::init]
    writes to [notification_delay_ms]. *)
Definition delayStr (notificationDelay_ : Z) : string :=
  String.append (to_string notificationDelay_) CLib.lf.

(** Is the character the newline or the NUL at which a reading is cut? *)
Definition endsValue (c : ascii) : bool :=
  (Ascii.eqb c "010"%char || Ascii.eqb c "000"%char)%bool.

(** Does the text contain none of the two? *)
Fixpoint oneLine (s : string) : bool :=
  match s with
  | EmptyString => true
  | String c s' => negb (endsValue c) && oneLine s'
  end.

(** [WltMonitor::monitorLoop] from the locals [l] on: one pass per element
    of [reads], each what [read] returned in that pass; the alerts
    dispatched, oldest first, and the locals at the end. *)
Fixpoint wltPasses (reads : list (option string)) (l : WltMonitor.Loop)
  : list (Z * Z) * WltMonitor.Loop :=
  match reads with
  | [] => ([], l)
  | bytes :: rest =>
      let p := WltMonitor.iteration bytes l in
      let (alerts, l') := wltPasses rest (WltMonitor.loop p) in
      (match WltMonitor.alert p with
       | Some a => a :: alerts
       | None => alerts
       end, l')
  end.

(** [WltMonitor::monitorLoop]: [std::string current_value; std::string
    previous_value;], the initial [readValueOnce(current_value)], then the
    passes. *)
Definition wltMonitorLoop (initial : option string) (reads : list (option string))
  : list (Z * Z) * WltMonitor.Loop :=
  wltPasses reads
    (WltMonitor.mkLoop (fst (WltMonitor.readValue initial EmptyString)) EmptyString).

(** The same for [GpuRc6Monitor::monitorLoop]. *)
Fixpoint gpuPasses (reads : list (option string)) (l : GpuRc6Monitor.Loop)
  : list (Z * Z) * GpuRc6Monitor.Loop :=
  match reads with
  | [] => ([], l)
  | bytes :: rest =>
      let p := GpuRc6Monitor.iteration bytes l in
      let (alerts, l') := gpuPasses rest (GpuRc6Monitor.loop p) in
      (match GpuRc6Monitor.alert p with
       | Some a => a :: alerts
       | None => alerts
       end, l')
  end.

Definition gpuMonitorLoop (initial : option string) (reads : list (option string))
  : list (Z * Z) * GpuRc6Monitor.Loop :=
  gpuPasses reads
    (GpuRc6Monitor.mkLoop (fst (GpuRc6Monitor.readValue initial EmptyString))
       EmptyString).

(** Each alert carries as its old value the new value of the alert before
    it, [first] standing before the first. *)
Fixpoint chained (first : Z) (alerts : list (Z * Z)) : Prop :=
  match alerts with
  | [] => True
  | (oldValue, newValue) :: rest => oldValue = first /\ chained newValue rest
  end.

(** The value of a run of decimal digits on top of [acc]. *)
Fixpoint uintValue (d : Decimal.uint) (acc : Z) : Z :=
  match d with
  | Decimal.Nil => acc
  | Decimal.D0 l => uintValue l (10 * acc + 0)
  | Decimal.D1 l => uintValue l (10 * acc + 1)
  | Decimal.D2 l => uintValue l (10 * acc + 2)
  | Decimal.D3 l => uintValue l (10 * acc + 3)
  | Decimal.D4 l => uintValue l (10 * acc + 4)
  | Decimal.D5 l => uintValue l (10 * acc + 5)
  | Decimal.D6 l => uintValue l (10 * acc + 6)
  | Decimal.D7 l => uintValue l (10 * acc + 7)
  | Decimal.D8 l => uintValue l (10 * acc + 8)
  | Decimal.D9 l => uintValue l (10 * acc + 9)
  end.

End MonitorLoops.

(* ================================================================== *)
(** * SysLoadMonitor.cpp: sampling /proc/stat *)

Module SysLoadSampler.

(** [struct SystemLoadSample] *)
Record SystemLoadSample : Set := mkSample {
  totalTime : Z;
  idleTime : Z
}.

(** The members [lastSample_] and [currentSample_], and the statics of the
    EMA. *)
Record Sampler : Type := mkSampler {
  lastSample_ : SystemLoadSample;
  currentSample_ : SystemLoadSample;
  ema : SysLoadMonitor.Ema
}.

(** Both samples start at zero; the EMA starts uninitialised. *)
Definition atStart (t0 : Z) : Sampler :=
  mkSampler (mkSample 0 0) (mkSample 0 0) (SysLoadMonitor.emaAtStart t0).

(** [while (iss >> value) { total += value; if (fieldIndex == 3 ||
    fieldIndex == 4) idle += value; ++fieldIndex; }] over the values the
    stream extracts; the sums are [unsigned long long]. *)
Fixpoint sumFields (values : list Z) (fieldIndex total idle : Z) : Z * Z :=
  match values with
  | [] => (total, idle)
  | value :: rest =>
      let total := CLib.wrapU64 (total + value) in
      let idle :=
        if (fieldIndex =? 3) || (fieldIndex =? 4)
        then CLib.wrapU64 (idle + value) else idle in
      sumFields rest (CLib.wrap32 (fieldIndex + 1)) total idle
  end.

(** [deltaTotal]: 0 unless the total did not go back. *)
Definition deltaTotal (last cur : SystemLoadSample) : Z :=
  if totalTime cur >=? totalTime last then totalTime cur - totalTime last else 0.

Definition deltaIdle (last cur : SystemLoadSample) : Z :=
  if idleTime cur >=? idleTime last then idleTime cur - idleTime last else 0.

(** [rawUtil]: [(double)busy * 100.0 / (double)deltaTotal], or [-1.0]
    when the total did not advance. *)
Definition rawUtil (last cur : SystemLoadSample) : Q :=
  let deltaTotal := deltaTotal last cur in
  let deltaIdle := deltaIdle last cur in
  if deltaTotal >? 0 then
    let busy := if deltaTotal >? deltaIdle then deltaTotal - deltaIdle else 0 in
    (inject_Z busy * 100 / inject_Z deltaTotal)%Q
  else (-1)%Q.

(** [SysLoadMonitor::getSysCpuLoad], the clock reading [now].  [stat] is
    the first line of /proc/stat as the stream gives it: [None] when the
    file cannot be opened, no line is read, or the first token is not
    "cpu"; otherwise the values extracted after the label. *)
Definition getSysCpuLoad (now : Z) (stat : option (list Z)) (s : Sampler)
  : R * Sampler :=
  match stat with
  | None =>
      let (v, g) := SysLoadMonitor.applyEmaIrregularSample now (-1)%R (ema s) in
      (v, mkSampler (lastSample_ s) (currentSample_ s) g)
  | Some values =>
      let (total, idle) := sumFields values 0 0 0 in
      let last := currentSample_ s in
      let cur := mkSample total idle in
      let (v, g) :=
        SysLoadMonitor.applyEmaIrregularSample now (Q2R (rawUtil last cur)) (ema s) in
      (v, mkSampler last cur g)
  end.

(** The values [getSysCpuLoad] returns over a run of calls. *)
Fixpoint loads (calls : list (Z * option (list Z))) (s : Sampler) : list R :=
  match calls with
  | [] => []
  | (now, stat) :: rest =>
      let (v, s') := getSysCpuLoad now stat s in v :: loads rest s'
  end.

(** A percentage, or the [-1.0] that stands for no value. *)
Definition percentOrNone (v : R) : Prop := (v = -1 \/ 0 <= v <= 100)%R.

(** The EMA value is [-1.0] or lies between 0 and [B]. *)
Definition emaWithin (B : R) (g : SysLoadMonitor.Ema) : Prop :=
  (SysLoadMonitor.g_cpuEmaValue g = -1
   \/ 0 <= SysLoadMonitor.g_cpuEmaValue g <= B)%R.

End SysLoadSampler.

(* ================================================================== *)
(** * HfiMonitor.cpp *)

Module HfiMonitor.

(** [glh->cmd]: the capability-change event, or another command. *)
Inductive Cmd : Set :=
| THERMAL_GENL_EVENT_CPU_CAPABILITY_CHANGE
| OtherCmd (cmd : Z).

(** A message: its command and the values [nla_get_u32] gives for the
    nested attributes of [THERMAL_GENL_ATTR_CPU_CAPABILITY], in order. *)
Record Message : Set := mkMessage {
  cmd : Cmd;
  capability : list Z
}.

(** The locals [cpu], [perf] and [eff]. *)
Record Caps : Set := mkCaps {
  cpu : Z;
  perf : Z;
  eff : Z
}.

(** [nla_get_u32] *)
Definition u32 (v : Z) : Z := v mod 2 ^ 32.

(** The body of [nla_for_each_nested]: [switch (index)], then [++index; if
    (index == 3) index = 0;]. *)
Fixpoint readCaps (attrs : list Z) (index : Z) (c : Caps) : Caps :=
  match attrs with
  | [] => c
  | a :: rest =>
      let c1 :=
        if index =? 0 then mkCaps (CLib.wrap32 (u32 a)) (perf c) (eff c)
        else if index =? 1 then mkCaps (cpu c) (Z.shiftr (u32 a) 2) (eff c)
        else if index =? 2 then mkCaps (cpu c) (perf c) (Z.shiftr (u32 a) 2)
        else c in
      let index1 := index + 1 in
      readCaps rest (if index1 =? 3 then 0 else index1) c1
  end.

(** [HfiMonitor::process_message]: the alert dispatched, if any, and the
    member [efficient_power] afterwards. *)
Definition process_message (m : Message) (efficient_power : Z)
  : option (Z * Z) * Z :=
  match cmd m with
  | THERMAL_GENL_EVENT_CPU_CAPABILITY_CHANGE =>
      let c := readCaps (capability m) 0 (mkCaps 0 0 0) in
      if negb (efficient_power =? eff c)
      then (Some (efficient_power, eff c), eff c)
      else (None, efficient_power)
  | OtherCmd _ => (None, efficient_power)
  end.

(** [int efficient_power = 0;] *)
Definition efficient_power_at_start : Z := 0.

(** The attributes of a capability message for a list of CPUs, each a
    triple (cpu, performance, efficiency). *)
Fixpoint capabilityOf (cpus : list (Z * Z * Z)) : list Z :=
  match cpus with
  | [] => []
  | (c, p, e) :: rest => c :: p :: e :: capabilityOf rest
  end.

(** The daemon and the HFI monitor together: a message reaches
    [process_message], and the alert, if any, reaches
    [SocDaemon::handleChangeAlert] under the monitor's name. *)
Definition deliver (env : SocDaemon.Env) (st : SocDaemon.State * Z) (m : Message)
  : SocDaemon.State * Z :=
  let (d, efficient_power) := st in
  match process_message m efficient_power with
  | (Some (oldValue, newValue), efficient_power') =>
      (SocDaemon.handleChangeAlert "HfiMonitor" oldValue newValue env d,
       efficient_power')
  | (None, efficient_power') => (d, efficient_power')
  end.

End HfiMonitor.

(* ================================================================== *)
(** * Main.cpp *)

Module Main.

(** How [main] ends: [exit(1)]; [std::stoi] throws [std::out_of_range],
    which nothing catches; or the daemon is constructed with these
    arguments and started. *)
Inductive Outcome : Set :=
| Exit1
| Terminate
| Run (sendHint : bool) (socHint : string) (notificationDelay : Z).

Definition INT_MAX : Z := 2 ^ 31 - 1.

(** [std::all_of(delayStr.begin(), delayStr.end(), ::isdigit)] *)
Fixpoint allDigits (s : string) : bool :=
  match s with
  | EmptyString => true
  | String c s' => CLib.isdigit c && allDigits s'
  end.

(** [std::stoi] on a run of digits: the value, or [None] when it does not
    fit an [int] (the exception). *)
Definition stoi (s : string) : option Z :=
  let v := fst (CLib.readDigits s 0) in
  if v <=? INT_MAX then Some v else None.

(** The lines after the loop: the validation of [--notification-delay],
    then the default of [socHint]. *)
Definition finish (sendHint : bool) (socHint : string) (notificationDelay : Z)
  : Outcome :=
  if (notificationDelay >=? 0)
     && negb ((socHint =? "wlt")%string || (socHint =? "swlt")%string)
  then Exit1
  else Run sendHint (if (socHint =? "")%string then "wlt" else socHint)
           notificationDelay.

(** The [for] loop over [argv[1..]], with the three locals. *)
Fixpoint parseArgs (args : list string) (sendHint : bool) (socHint : string)
    (notificationDelay : Z) : Outcome :=
  match args with
  | [] => finish sendHint socHint notificationDelay
  | arg :: rest =>
      if (arg =? "--sendHint")%string then
        match rest with
        | value :: rest' =>
            if (value =? "true")%string
            then parseArgs rest' true socHint notificationDelay
            else if (value =? "false")%string
            then parseArgs rest' false socHint notificationDelay
            else Exit1
        | [] => Exit1
        end
      else if (arg =? "--socHint")%string then
        match rest with
        | value :: rest' =>
            if (value =? "wlt")%string || (value =? "swlt")%string
               || (value =? "hfi")%string
            then parseArgs rest' sendHint value notificationDelay
            else Exit1
        | [] => Exit1
        end
      else if (arg =? "--notification-delay")%string then
        match rest with
        | delayStr :: rest' =>
            if negb (delayStr =? "")%string && allDigits delayStr then
              match stoi delayStr with
              | Some v =>
                  if v <? 0 then Exit1
                  else parseArgs rest' sendHint socHint v
              | None => Terminate
              end
            else Exit1
        | [] => Exit1
        end
      else Exit1
  end.

(** [main], [args] being [argv[1]] to [argv[argc - 1]]. *)
Definition main (args : list string) : Outcome :=
  parseArgs args false "" (-1).

(** The mode is one of the three the daemon knows. *)
Definition knownMode (socHint : string) : Prop :=
  socHint = "wlt" \/ socHint = "swlt" \/ socHint = "hfi".

(** What the loop keeps true of its locals. *)
Definition localsOk (socHint : string) (notificationDelay : Z) : Prop :=
  (socHint = "" \/ knownMode socHint) /\
  (notificationDelay = -1 \/ 0 <= notificationDelay <= INT_MAX).

End Main.

(* ================================================================== *)
(** * GpuLoadMonitor.cpp *)

Module GpuLoadMonitor.

(** The members [lastSample_] and [currentSample_], each a
    [GpuLoadSample] with the one field [idle_residency_ms]. *)
Record Sampler : Set := mkSampler {
  lastSample_ : Z;
  currentSample_ : Z
}.

Definition kGpuLoadHighThreshold : Q := 65.

(** [GpuLoadMonitor::getGpuLoad].  [residency] is what [fscanf] read,
    [None] when the file cannot be opened or holds no number.  The
    variable [delta_idle_residency] is assigned in both branches before it
    is read (it has no declaration in the header at hand). *)
Definition getGpuLoad (residency : option Z) (s : Sampler) : Q * Sampler :=
  let s1 := mkSampler (currentSample_ s) (currentSample_ s) in
  match residency with
  | None => ((-1)%Q, s1)
  | Some idleResidencyMs =>
      let delta_idle_residency :=
        if currentSample_ s1 >? lastSample_ s1
        then currentSample_ s1 - lastSample_ s1 else 0 in
      let gpu_idle_percent := (inject_Z delta_idle_residency * 100 / 1000)%Q in
      let gpu_busy_percent :=
        (100 - (if SocDaemon.Qltb 100 gpu_idle_percent
                then 100 else gpu_idle_percent))%Q in
      (gpu_busy_percent,
       mkSampler (lastSample_ s1) (CLib.wrapU64 idleResidencyMs))
  end.

(** One pass of [GpuLoadMonitor::monitorLoop] while not paused: is
    [onValueChanged] called?  And the sampler afterwards. *)
Definition monitorPass (residency : option Z) (s : Sampler) : bool * Sampler :=
  let (load, s') := getGpuLoad residency s in
  (SocDaemon.Qltb kGpuLoadHighThreshold load, s').

End GpuLoadMonitor.

(* ================================================================== *)
(** * Tactics *)

(** Split a conjunction into its parts. *)
Ltac conjuncts := repeat match goal with |- _ /\ _ => split end.

(** Settle a closed statement by evaluation. *)
Ltac by_evaluation := conjuncts; vm_compute; reflexivity.

(* ================================================================== *)
(** * Properties of the coordinator *)

Section Coordinator.

Import SocDaemon.
Import Scenarios.

(** ** Dispatch by monitor name *)

Lemma handleChangeAlert_WltMonitor :
  forall oldValue newValue env d,
    handleChangeAlert "WltMonitor" oldValue newValue env d
    = onWltMonitor oldValue newValue env d.
Proof. reflexivity. Qed.

Lemma handleChangeAlert_HfiMonitor :
  forall oldValue newValue env d,
    handleChangeAlert "HfiMonitor" oldValue newValue env d
    = onHfiMonitor newValue d.
Proof. reflexivity. Qed.

Lemma handleChangeAlert_SysLoadMonitor :
  forall oldValue newValue env d,
    handleChangeAlert "SysLoadMonitor" oldValue newValue env d
    = onSysLoadMonitor d.
Proof. reflexivity. Qed.

Lemma handleChangeAlert_GpuRc6Monitor :
  forall oldValue newValue env d,
    handleChangeAlert "GpuRc6Monitor" oldValue newValue env d
    = onGpuRc6Monitor newValue d.
Proof. reflexivity. Qed.

(** ** The gate and the CPU-load monitor (C2) *)

(** C2, as stated, fails: a hint of value 1 that changes the cached value
    leaves the CPU-load monitor running, not paused, and a hint of value 0
    that changes the cached value leaves it paused, not running. *)
Lemma C2_counterexample :
  efficientMode_ wltDaemon = false /\
  samplerPaused (sendHintIfAllowed 1 "EntryDebounceTimerExpired" wltDaemon)
    = Some false /\
  efficientMode_ containedDaemon = true /\
  samplerPaused (sendHintIfAllowed 0 "ExitDebounceTimerExpired" containedDaemon)
    = Some true.
Proof. by_evaluation. Qed.

(** C2 (amended): whenever a hint changes the cached EFFICIENT_POWER value
    and the coordinator holds a CPU-load monitor, a new value of 1 restarts
    (resumes) the monitor and a new value of 0 pauses it; the cached value
    becomes the new value either way. *)
Theorem C2_gate_restarts_on_one_pauses_on_zero :
  forall (d : State) (value : Z) (reason : string) (m : SysLoadMonitor),
    value <> b2i (efficientMode_ d) ->
    sysLoadMonitorPtr_ d = Some m ->
    efficientMode_ (sendHintIfAllowed value reason d) = i2b value /\
    (value = 1 -> samplerPaused (sendHintIfAllowed value reason d) = Some false) /\
    (value = 0 -> samplerPaused (sendHintIfAllowed value reason d) = Some true).
Proof.
  intros d value reason m Hne Hm.
  unfold sendHintIfAllowed.
  apply Z.eqb_neq in Hne. rewrite Hne. cbn [negb].
  destruct d; cbn in Hm |- *; subst.
  unfold samplerPaused.
  destruct sendHint_0; cbn;
    (split; [ destruct (i2b value); reflexivity | ]);
    split; intros ->; reflexivity.
Qed.

Lemma C2_gate_restarts_on_one_pauses_on_zero_witness :
  1 <> b2i (efficientMode_ wltDaemon) /\
  sysLoadMonitorPtr_ wltDaemon = Some (mkSysLoadMonitor true 0) /\
  samplerPaused (sendHintIfAllowed 1 "EntryDebounceTimerExpired" wltDaemon)
    = Some false.
Proof.
  assert (H1 : 1 <> b2i (efficientMode_ wltDaemon)) by (cbn; lia).
  assert (H2 : sysLoadMonitorPtr_ wltDaemon = Some (mkSysLoadMonitor true 0))
    by reflexivity.
  split; [exact H1 | split; [exact H2 | ]].
  exact (proj1 (proj2 (C2_gate_restarts_on_one_pauses_on_zero
                         wltDaemon 1 "EntryDebounceTimerExpired" _ H1 H2))
               eq_refl).
Defined.

(** ** The busy-spike callback (C1) *)

(** C1, as stated, fails.  In containment with the exit timer running, the
    "SysLoadMonitor" callback moves the state to [Open], but the sink gets
    no EFFICIENT_POWER=0 (no hint is even passed to the gate: the log does
    not grow) and the exit timer is still running and not cancelled. *)
Lemma C1_counterexample :
  CCGlobalState_ containedDaemon = CoreContainment /\
  sendHint_ containedDaemon = true /\
  ccExitDebounceActive_ containedDaemon = true /\
  CCGlobalState_ (handleChangeAlert "SysLoadMonitor" 10 30 calm containedDaemon)
    = Open /\
  sink (handleChangeAlert "SysLoadMonitor" 10 30 calm containedDaemon)
    = [("EFFICIENT_POWER", true)] /\
  log (handleChangeAlert "SysLoadMonitor" 10 30 calm containedDaemon)
    = log containedDaemon /\
  ccExitDebounceActive_
    (handleChangeAlert "SysLoadMonitor" 10 30 calm containedDaemon) = true /\
  ccExitDebounceCancelled_
    (handleChangeAlert "SysLoadMonitor" 10 30 calm containedDaemon) = false.
Proof. by_evaluation. Qed.

(** An exit timer left running by the busy-spike callback does nothing when
    it expires: outside containment the tail of the exit wait only clears
    the timer's own flags. *)
Lemma exitDebounceOver_outside_containment :
  forall (d : State) (env : Env),
    CCGlobalState_ d = Open ->
    CCGlobalState_ (exitDebounceOver env d) = Open /\
    sink (exitDebounceOver env d) = sink d /\
    log (exitDebounceOver env d) = log d /\
    efficientMode_ (exitDebounceOver env d) = efficientMode_ d /\
    ccExitDebounceActive_ (exitDebounceOver env d) = false.
Proof.
  intros d env Hopen. unfold exitDebounceOver.
  destruct d; cbn in Hopen |- *; subst.
  destruct ccExitDebounceCancelled_0; cbn; conjuncts; reflexivity.
Qed.

(** C1 (amended): for every state of the coordinator, when the change
    callback named "SysLoadMonitor" fires while the containment state is
    CoreContainment, the coordinator transitions CoreContainment -> Open
    and leaves both debounce timers as they are: a running exit timer keeps
    running and is not cancelled; when it later expires in state Open, its
    expiry takes no action (state, sink, log and cached value stay). *)
Theorem C1_busy_spike_opens_and_keeps_timers :
  (forall (d : State) (oldValue newValue : Z) (env : Env),
      CCGlobalState_ d = CoreContainment ->
      CCGlobalState_ (handleChangeAlert "SysLoadMonitor" oldValue newValue env d)
        = Open /\
      timers (handleChangeAlert "SysLoadMonitor" oldValue newValue env d)
        = timers d) /\
  (forall (d : State) (env : Env),
      CCGlobalState_ d = Open ->
      CCGlobalState_ (exitDebounceOver env d) = Open /\
      sink (exitDebounceOver env d) = sink d /\
      log (exitDebounceOver env d) = log d /\
      efficientMode_ (exitDebounceOver env d) = efficientMode_ d /\
      ccExitDebounceActive_ (exitDebounceOver env d) = false).
Proof.
  split.
  - intros d oldValue newValue env Hcc.
    rewrite handleChangeAlert_SysLoadMonitor.
    unfold onSysLoadMonitor. rewrite Hcc. cbn.
    split; reflexivity.
  - exact exitDebounceOver_outside_containment.
Qed.

Lemma C1_busy_spike_opens_and_keeps_timers_witness :
  CCGlobalState_ containedDaemon = CoreContainment /\
  CCGlobalState_ (handleChangeAlert "SysLoadMonitor" 10 30 calm containedDaemon)
    = Open /\
  timers (handleChangeAlert "SysLoadMonitor" 10 30 calm containedDaemon)
    = (false, false, true, false, 1000).
Proof.
  assert (H : CCGlobalState_ containedDaemon = CoreContainment) by reflexivity.
  split; [exact H | ].
  destruct (proj1 C1_busy_spike_opens_and_keeps_timers
              containedDaemon 10 30 calm H) as [Hopen Htimers].
  split; [exact Hopen | ].
  rewrite Htimers. vm_compute. reflexivity.
Defined.

(** ** Comparison of loads *)

Lemma Qltb_lt : forall a b : Q, Qltb a b = true <-> (a < b)%Q.
Proof.
  intros a b. unfold Qltb. rewrite negb_true_iff.
  split; intro H.
  - apply Qnot_le_lt. intro Hle. apply Qle_bool_iff in Hle. congruence.
  - destruct (Qle_bool b a) eqn:E; [ | reflexivity].
    apply Qle_bool_iff in E. exfalso. exact (Qlt_not_le _ _ H E).
Qed.

Lemma Qltb_nlt : forall a b : Q, Qltb a b = false <-> ~ (a < b)%Q.
Proof.
  intros a b. rewrite <- Qltb_lt. destruct (Qltb a b); split; congruence.
Qed.

Lemma Qltb_cases :
  forall a b : Q,
    (Qltb a b = true /\ (a < b)%Q) \/ (Qltb a b = false /\ ~ (a < b)%Q).
Proof.
  intros a b. destruct (Qltb a b) eqn:E.
  - left. split; [reflexivity | now apply Qltb_lt].
  - right. split; [reflexivity | now apply Qltb_nlt].
Qed.

(** ** The load snapshot of the exit debounce (C7) *)

(** Where the snapshot [latestSysCpuLoadCC_] comes from: it is taken, from
    the latest EMA, when WLT changes from Idle/Btl to Sustain/Bursty in
    containment; the expiry of the entry timer leaves it as it is. *)
Lemma latestSysCpuLoadCC_written_on_wlt_change :
  forall (d : State) (oldValue newValue : Z) (env : Env),
    socHint_ d = "wlt" ->
    CCGlobalState_ d = CoreContainment ->
    isIdleOrBtl (wltOfInt oldValue) = true ->
    isSustainOrBursty (wltOfInt newValue) = true ->
    latestSysCpuLoadCC_ (handleChangeAlert "WltMonitor" oldValue newValue env d)
    = getLatestSysCpuLoad env d.
Proof.
  intros d oldValue newValue env Hs Hcc Hold Hnew.
  rewrite handleChangeAlert_WltMonitor. unfold onWltMonitor.
  rewrite Hs, Hcc. cbn [String.eqb Ascii.eqb Bool.eqb andb CCGlobalState_eqb].
  unfold wltInContainment. rewrite Hold, Hnew. cbn [andb].
  destruct d; cbn in Hs, Hcc |- *; subst.
  destruct env as [sampled latest ok].
  destruct (wltOfInt newValue), sysLoadMonitorPtr_0, gpuRc6MonitorPtr_0,
    gpuMonitorThreadRunning_0, ccExitDebounceActive_0, ok;
    try discriminate; lazy; reflexivity.
Qed.

Lemma latestSysCpuLoadCC_kept_by_entry_expiry :
  forall (d : State) (env : Env),
    latestSysCpuLoadCC_ (entryDebounceOver env d) = latestSysCpuLoadCC_ d.
Proof.
  intros d env. unfold entryDebounceOver, getSysCpuLoad, sendHintIfAllowed.
  destruct d; cbn -[Qltb].
  destruct ccEntryDebounceCancelled_0, sysLoadMonitorPtr_0; cbn -[Qltb];
    try reflexivity;
    match goal with |- context [Qltb ?a ?b] => destruct (Qltb a b) end;
    try reflexivity;
    destruct CCGlobalState_0, efficientMode_0, sendHint_0; reflexivity.
Qed.

(** C7, as stated, fails on the snapshot.  Containment is entered under a
    load of 10%; nothing writes the snapshot before the exit timer is
    armed; the timer expires under a load of 12%.  Against the load at
    containment entry the slope is 2, not above 5.0, and yet the
    coordinator leaves containment and sends EFFICIENT_POWER=0: the slope
    it computes is 12 - 0. *)
Lemma C7_counterexample :
  CCGlobalState_ enteredAtTen = CoreContainment /\
  (sampledLoad calm == 10)%Q /\
  CCGlobalState_ leavingFromBursty = CoreContainment /\
  ccExitDebounceActive_ leavingFromBursty = true /\
  ccExitDebounceCancelled_ leavingFromBursty = false /\
  (latestSysCpuLoadCC_ leavingFromBursty == 0)%Q /\
  ~ (kSysloadSlopeThreshold < sampledLoad atTwelve - sampledLoad calm)%Q /\
  CCGlobalState_ (exitDebounceOver atTwelve leavingFromBursty) = Open /\
  sink (exitDebounceOver atTwelve leavingFromBursty)
  = [("EFFICIENT_POWER", true); ("EFFICIENT_POWER", false)].
Proof.
  conjuncts; vm_compute; try reflexivity; discriminate.
Qed.

(** ** The stateless mapping of "swlt" (C8) *)

(** [newValue & (1 << 4)] is zero exactly when bit 4 is clear. *)
Lemma land_bit4 :
  forall n : Z, (Z.land n (Z.shiftl 1 4) =? 0) = negb (Z.testbit n 4).
Proof.
  intro n. change (Z.shiftl 1 4) with (2 ^ 4).
  destruct (Z.testbit n 4) eqn:E; cbn [negb].
  - apply Z.eqb_neq. intro H0.
    assert (Hb : Z.testbit (Z.land n (2 ^ 4)) 4 = true).
    { rewrite Z.land_spec, E. reflexivity. }
    rewrite H0 in Hb. rewrite Z.bits_0 in Hb. discriminate.
  - apply Z.eqb_eq. apply Z.bits_inj'. intros i Hi.
    rewrite Z.land_spec, Z.bits_0, Z.pow2_bits_eqb by lia.
    destruct (Z.eqb_spec 4 i) as [<- | _].
    + rewrite E. reflexivity.
    + apply andb_false_r.
Qed.

(** C8, as stated, fails: from the initial state, with hints enabled, the
    sequence 0x02, 0x12, 0x02 does not put false, true, false into the
    sink. *)
Lemma C8_counterexample :
  sendHint_ swltDaemon = true /\
  sentFor "EFFICIENT_POWER" (sink (run swltDaemon (swltSequence calm calm calm)))
    <> [false; true; false].
Proof. split; vm_compute; [reflexivity | discriminate]. Qed.

(** C8 (amended): in "swlt" mode each WLT callback maps statelessly: bit 4
    of the new integer clear requests EFFICIENT_POWER=0 and bit 4 set
    requests EFFICIENT_POWER=1; for the sequence 0x02, 0x12, 0x02 from the
    daemon's initial state with hint sending enabled, the three requests
    are 0, 1, 0, the first is dropped by the gate as unchanged (the cached
    value starts at false), and the sink receives exactly
    EFFICIENT_POWER=true then EFFICIENT_POWER=false, each once. *)
Theorem C8_swlt_requests_follow_bit4 :
  (forall (d : State) (oldValue newValue : Z) (env : Env),
      socHint_ d = "swlt" ->
      handleChangeAlert "WltMonitor" oldValue newValue env d
      = if Z.testbit newValue 4
        then sendHintIfAllowed 1 "SWLT is Power" d
        else sendHintIfAllowed 0 "SWLT is Performance" d) /\
  (forall (sendGfxHint gfxMode0 gpuInitOk : bool) (e1 e2 e3 : Env),
      sink (run (start gpuInitOk (construct true sendGfxHint "swlt" gfxMode0))
                (swltSequence e1 e2 e3))
      = [("EFFICIENT_POWER", true); ("EFFICIENT_POWER", false)] /\
      map (fun l => (hintKey l, hintValue l, outcome l))
          (log (run (start gpuInitOk (construct true sendGfxHint "swlt" gfxMode0))
                    (swltSequence e1 e2 e3)))
      = [("EFFICIENT_POWER", 0, Unchanged);
         ("EFFICIENT_POWER", 1, Sent);
         ("EFFICIENT_POWER", 0, Sent)]).
Proof.
  split.
  - intros d oldValue newValue env Hs.
    rewrite handleChangeAlert_WltMonitor. unfold onWltMonitor.
    rewrite Hs. cbn [String.eqb Ascii.eqb Bool.eqb andb].
    rewrite land_bit4. destruct (Z.testbit newValue 4); reflexivity.
  - intros sendGfxHint gfxMode0 gpuInitOk e1 e2 e3.
    destruct sendGfxHint, gfxMode0, gpuInitOk; split; vm_compute; reflexivity.
Qed.

Lemma C8_swlt_requests_follow_bit4_witness :
  socHint_ swltDaemon = "swlt" /\
  handleChangeAlert "WltMonitor" 2 18 calm swltDaemon
  = sendHintIfAllowed 1 "SWLT is Power" swltDaemon.
Proof.
  assert (H : socHint_ swltDaemon = "swlt") by reflexivity.
  split; [exact H | ].
  exact (proj1 C8_swlt_requests_follow_bit4 swltDaemon 2 18 calm H).
Defined.

(** ** WLT and the GPU monitor (C4) *)

(** C4, as stated, fails.  After start the GPU monitor is paused; a first
    WLT event with classification Sustain leaves it paused, and so does a
    following event with classification Bursty. *)
Lemma C4_counterexample :
  socHint_ wltDaemon = "wlt" /\
  wltOfInt 2 = Sustain /\
  gpuPaused (handleChangeAlert "WltMonitor" 0 2 calm wltDaemon) = Some true /\
  wltOfInt 3 = Bursty /\
  gpuPaused (run wltDaemon [ChangeAlert "WltMonitor" 0 2 calm;
                            ChangeAlert "WltMonitor" 2 3 calm]) = Some true.
Proof. by_evaluation. Qed.

(** C4 (amended): in "wlt" mode, with a GPU monitor registered, the
    coordinator drives the monitor's pause flag only while
    [gpuMonitorThreadRunning_] is set.  With the flag set, every WLT event
    whose new classification is Idle or Btl pauses the GPU monitor, every
    event with Sustain resumes it, and an event with Bursty resumes it in
    CoreContainment and leaves it as it is in Open.  With the flag clear,
    the pause flag is left as it is, except that in CoreContainment a
    change from Idle/Btl to Sustain/Bursty whose [pthread_create] succeeds
    sets the flag and resumes the monitor. *)
Theorem C4_gpu_pause_follows_wlt_once_thread_runs :
  forall (d : State) (oldValue newValue : Z) (env : Env) (g : GpuRc6Monitor),
    socHint_ d = "wlt" ->
    gpuRc6MonitorPtr_ d = Some g ->
    (gpuMonitorThreadRunning_ d = true ->
       (isIdleOrBtl (wltOfInt newValue) = true ->
          gpuPaused (handleChangeAlert "WltMonitor" oldValue newValue env d)
          = Some true) /\
       (wltOfInt newValue = Sustain ->
          gpuPaused (handleChangeAlert "WltMonitor" oldValue newValue env d)
          = Some false) /\
       (wltOfInt newValue = Bursty ->
          gpuPaused (handleChangeAlert "WltMonitor" oldValue newValue env d)
          = Some match CCGlobalState_ d with
                 | CoreContainment => false
                 | Open => paused_ g
                 end)) /\
    (gpuMonitorThreadRunning_ d = false ->
       gpuMonitorThreadRunning_
         (handleChangeAlert "WltMonitor" oldValue newValue env d)
       = startsGpuThread oldValue newValue env d /\
       gpuPaused (handleChangeAlert "WltMonitor" oldValue newValue env d)
       = Some (if startsGpuThread oldValue newValue env d
               then false else paused_ g)).
Proof.
  intros d oldValue newValue env g Hs Hg.
  rewrite handleChangeAlert_WltMonitor. unfold onWltMonitor, startsGpuThread.
  rewrite Hs. cbn [String.eqb Ascii.eqb Bool.eqb andb].
  destruct d; cbn in Hs, Hg |- *; subst.
  destruct g as [p]. destruct env as [sampled latest ok].
  split; intro Hrun; subst.
  - destruct CCGlobalState_0, (wltOfInt oldValue), (wltOfInt newValue);
      destruct sysLoadMonitorPtr_0, ccEntryDebounceActive_0, ccExitDebounceActive_0;
      conjuncts; intros; try discriminate; lazy; reflexivity.
  - destruct CCGlobalState_0, (wltOfInt oldValue), (wltOfInt newValue);
      destruct sysLoadMonitorPtr_0, ccEntryDebounceActive_0, ccExitDebounceActive_0,
        ok;
      conjuncts; lazy; reflexivity.
Qed.

Lemma C4_gpu_pause_follows_wlt_once_thread_runs_witness :
  socHint_ containedDaemon = "wlt" /\
  gpuRc6MonitorPtr_ containedDaemon = Some (mkGpuRc6Monitor false) /\
  gpuMonitorThreadRunning_ containedDaemon = true /\
  isIdleOrBtl (wltOfInt 1) = true /\
  gpuPaused (handleChangeAlert "WltMonitor" 2 1 calm containedDaemon) = Some true.
Proof.
  assert (H1 : socHint_ containedDaemon = "wlt") by (vm_compute; reflexivity).
  assert (H2 : gpuRc6MonitorPtr_ containedDaemon = Some (mkGpuRc6Monitor false))
    by (vm_compute; reflexivity).
  assert (H3 : gpuMonitorThreadRunning_ containedDaemon = true)
    by (vm_compute; reflexivity).
  assert (H4 : isIdleOrBtl (wltOfInt 1) = true) by reflexivity.
  destruct (C4_gpu_pause_follows_wlt_once_thread_runs
              containedDaemon 2 1 calm _ H1 H2) as [Hrun _].
  destruct (Hrun H3) as [Hidle _].
  conjuncts; try assumption. exact (Hidle H4).
Defined.

(** ** Hint gating (C3) *)

Lemma gateStep_framed :
  forall d0 d1 d2 d3 : State,
    gateView d1 = gateView d0 -> gateStep d1 d2 -> gateView d3 = gateView d2 ->
    gateStep d0 d3.
Proof.
  intros d0 d1 d2 d3 H01 H12 H32.
  unfold gateView in H01. injection H01 as Hs Hg He Hx Hk.
  destruct H12 as [H | H | H]; rewrite H in H32;
    rewrite ?Hs, ?Hg, ?He, ?Hx, ?Hk in H32.
  - apply gate_idle. rewrite H32. unfold gateView. congruence.
  - apply gate_efficient. exact H32.
  - apply gate_gfx. exact H32.
Qed.

Lemma sendHintIfAllowed_gateStep :
  forall (v : bool) (reason : string) (d : State),
    gateStep d (sendHintIfAllowed (b2i v) reason d).
Proof.
  intros v reason d. unfold sendHintIfAllowed.
  destruct d; cbn.
  destruct v, efficientMode_0, sendHint_0, sysLoadMonitorPtr_0;
    cbn;
    first [ apply gate_idle; reflexivity
          | apply gate_efficient; cbn; rewrite ?app_nil_r; reflexivity ].
Qed.

Lemma sendGfxHintIfAllowed_gateStep :
  forall (v : bool) (reason : string) (d : State),
    gateStep d (sendGfxHintIfAllowed (b2i v) reason d).
Proof.
  intros v reason d. unfold sendGfxHintIfAllowed.
  destruct d; cbn.
  destruct v, gfxMode_0, sendGfxHint_0;
    cbn;
    first [ apply gate_idle; reflexivity
          | apply gate_gfx; cbn; rewrite ?app_nil_r; reflexivity ].
Qed.

Lemma getSysCpuLoad_gateView :
  forall env d, gateView (snd (getSysCpuLoad env d)) = gateView d.
Proof.
  intros env d. unfold getSysCpuLoad.
  destruct (sysLoadMonitorPtr_ d); reflexivity.
Qed.

Lemma snapshotAndResumeGpu_gateView :
  forall env d, gateView (snapshotAndResumeGpu env d) = gateView d.
Proof.
  intros env d.
  unfold snapshotAndResumeGpu, gpuThreadUp, gpuRc6Monitor_resume.
  destruct d; cbn.
  destruct gpuMonitorThreadRunning_0, gpuRc6MonitorPtr_0, (pthreadCreateOk env);
    reflexivity.
Qed.

Lemma containmentSwitch_gateView :
  forall newWLT d, gateView (containmentSwitch newWLT d) = gateView d.
Proof.
  intros newWLT d.
  unfold containmentSwitch, gpuThreadUp, gpuRc6Monitor_resume,
    gpuRc6Monitor_pause, isCCExitDebounceTimerRunning.
  destruct d; cbn.
  destruct newWLT, gpuMonitorThreadRunning_0, gpuRc6MonitorPtr_0,
    ccExitDebounceActive_0;
    reflexivity.
Qed.

Lemma wltInContainment_gateView :
  forall oldWLT newWLT env d,
    gateView (wltInContainment oldWLT newWLT env d) = gateView d.
Proof.
  intros oldWLT newWLT env d. unfold wltInContainment.
  rewrite containmentSwitch_gateView, getSysCpuLoad_gateView.
  destruct (isIdleOrBtl oldWLT && isSustainOrBursty newWLT).
  - apply snapshotAndResumeGpu_gateView.
  - reflexivity.
Qed.

Lemma wltOutsideContainment_gateView :
  forall newWLT d, gateView (wltOutsideContainment newWLT d) = gateView d.
Proof.
  intros newWLT d.
  unfold wltOutsideContainment, gpuThreadUp, gpuRc6Monitor_resume,
    gpuRc6Monitor_pause, isCCEntryDebounceTimerRunning.
  destruct d; cbn.
  destruct newWLT, CCGlobalState_0, gpuMonitorThreadRunning_0, gpuRc6MonitorPtr_0,
    ccEntryDebounceActive_0;
    reflexivity.
Qed.

Lemma onWltMonitor_gateStep :
  forall oldValue newValue env d,
    gateStep d (onWltMonitor oldValue newValue env d).
Proof.
  intros oldValue newValue env d. unfold onWltMonitor.
  destruct (socHint_ d =? "wlt")%string.
  - apply gate_idle.
    destruct (CCGlobalState_eqb (CCGlobalState_ d) CoreContainment).
    + apply wltInContainment_gateView.
    + apply wltOutsideContainment_gateView.
  - destruct (socHint_ d =? "swlt")%string; [ | apply gate_idle; reflexivity].
    destruct (Z.land newValue (Z.shiftl 1 4) =? 0).
    + exact (sendHintIfAllowed_gateStep false _ d).
    + exact (sendHintIfAllowed_gateStep true _ d).
Qed.

Lemma onHfiMonitor_gateStep :
  forall newValue d, gateStep d (onHfiMonitor newValue d).
Proof.
  intros newValue d. unfold onHfiMonitor.
  destruct (newValue =? 255).
  - exact (sendHintIfAllowed_gateStep true _ d).
  - exact (sendHintIfAllowed_gateStep false _ d).
Qed.

Lemma onSysLoadMonitor_gateStep :
  forall d, gateStep d (onSysLoadMonitor d).
Proof.
  intro d. unfold onSysLoadMonitor.
  destruct (negb (CCGlobalState_eqb (CCGlobalState_ d) CoreContainment)).
  - apply (gateStep_framed d (set_CCGlobalState_ Open d) _ _ eq_refl
             (sendHintIfAllowed_gateStep false _ _) eq_refl).
  - apply gate_idle. reflexivity.
Qed.

Lemma onGpuRc6Monitor_gateStep :
  forall newValue d, gateStep d (onGpuRc6Monitor newValue d).
Proof.
  intros newValue d. unfold onGpuRc6Monitor.
  destruct (newValue =? 1).
  - exact (sendGfxHintIfAllowed_gateStep true _ d).
  - exact (sendGfxHintIfAllowed_gateStep false _ d).
Qed.

Lemma handleChangeAlert_gateStep :
  forall name oldValue newValue env d,
    gateStep d (handleChangeAlert name oldValue newValue env d).
Proof.
  intros name oldValue newValue env d.
  destruct (String.eqb_spec name "WltMonitor") as [-> | H1].
  { rewrite handleChangeAlert_WltMonitor. apply onWltMonitor_gateStep. }
  destruct (String.eqb_spec name "HfiMonitor") as [-> | H2].
  { rewrite handleChangeAlert_HfiMonitor. apply onHfiMonitor_gateStep. }
  destruct (String.eqb_spec name "SysLoadMonitor") as [-> | H3].
  { rewrite handleChangeAlert_SysLoadMonitor. apply onSysLoadMonitor_gateStep. }
  destruct (String.eqb_spec name "GpuRc6Monitor") as [-> | H4].
  { rewrite handleChangeAlert_GpuRc6Monitor. apply onGpuRc6Monitor_gateStep. }
  unfold handleChangeAlert.
  apply String.eqb_neq in H1, H2, H3, H4. rewrite H1, H2, H3, H4.
  apply gate_idle. reflexivity.
Qed.

Lemma entryDebounceOver_gateStep :
  forall env d, gateStep d (entryDebounceOver env d).
Proof.
  intros env d. unfold entryDebounceOver.
  destruct (negb (ccEntryDebounceCancelled_ (set_ccEntryDebounceActive_ false d)));
    [ | apply gate_idle; reflexivity].
  destruct (getSysCpuLoad env (set_ccEntryDebounceActive_ false d))
    as [load d1] eqn:E.
  assert (Hd1 : gateView d1 = gateView d).
  { change d1 with (snd (load, d1)). rewrite <- E.
    rewrite getSysCpuLoad_gateView. reflexivity. }
  destruct (Qltb load 25); [ | apply gate_idle; exact Hd1].
  destruct (negb (CCGlobalState_eqb (CCGlobalState_ d1) CoreContainment)).
  - apply (gateStep_framed d (set_CCGlobalState_ CoreContainment d1) _ _ Hd1
             (sendHintIfAllowed_gateStep true _ _) eq_refl).
  - apply gate_idle. exact Hd1.
Qed.

Lemma exitDebounceOver_gateStep :
  forall env d, gateStep d (exitDebounceOver env d).
Proof.
  intros env d. unfold exitDebounceOver.
  destruct (negb (ccExitDebounceCancelled_ (set_ccExitDebounceActive_ false d)));
    [ | apply gate_idle; reflexivity].
  destruct (CCGlobalState_eqb
              (CCGlobalState_ (set_ccExitDebounceActive_ false d)) CoreContainment);
    [ | apply gate_idle; reflexivity].
  destruct (getSysCpuLoad env (set_ccExitDebounceActive_ false d))
    as [load d1] eqn:E.
  assert (Hd1 : gateView d1 = gateView d).
  { change d1 with (snd (load, d1)). rewrite <- E.
    rewrite getSysCpuLoad_gateView. reflexivity. }
  destruct (Qltb kSysloadSlopeThreshold (CLib.fsub load (latestSysCpuLoadCC_ d1))).
  - destruct (negb (CCGlobalState_eqb (CCGlobalState_ d1) Open)).
    + apply (gateStep_framed d (set_CCGlobalState_ Open d1) _ _ Hd1
               (sendHintIfAllowed_gateStep false _ _) eq_refl).
    + apply gate_idle. exact Hd1.
  - apply gate_idle. exact Hd1.
Qed.

Lemma step_gateStep : forall d e, gateStep d (step d e).
Proof.
  intros d [name oldValue newValue env | | env | env]; cbn [step].
  - apply handleChangeAlert_gateStep.
  - apply gate_idle. reflexivity.
  - apply entryDebounceOver_gateStep.
  - apply exitDebounceOver_gateStep.
Qed.

Lemma request_gateStep : forall d r, gateStep d (request d r).
Proof.
  intros d [v reason | v reason]; cbn [request].
  - apply sendHintIfAllowed_gateStep.
  - apply sendGfxHintIfAllowed_gateStep.
Qed.

(** A run of steps that all are gate steps: what it adds to the sink
    alternates, per hint name, starting from the cached value; and nothing
    is added under a name whose flag is off. *)
Section GateTraces.

Variable E : Type.
Variable stepE : State -> E -> State.
Hypothesis stepE_gateStep : forall d e, gateStep d (stepE d e).

Lemma gate_trace :
  forall (es : list E) (d : State),
  exists new : list (string * bool),
    sink (fold_left stepE es d) = sink d ++ new /\
    alternatesFrom (efficientMode_ d) (sentFor "EFFICIENT_POWER" new) /\
    alternatesFrom (gfxMode_ d) (sentFor "GFX_MODE" new) /\
    (sendHint_ d = false -> sentFor "EFFICIENT_POWER" new = []) /\
    (sendGfxHint_ d = false -> sentFor "GFX_MODE" new = []).
Proof.
  induction es as [| e es IH]; intro d.
  - exists []. cbn. rewrite app_nil_r. conjuncts; auto.
  - cbn [fold_left].
    destruct (IH (stepE d e)) as (new & Hsink & Heff & Hgfx & Hoff & Hgoff).
    destruct (stepE_gateStep d e) as [Hv | Hv | Hv];
      unfold gateView in Hv; injection Hv as Hs Hg He Hx Hk;
      rewrite Hs in Hoff; rewrite Hg in Hgoff;
      rewrite He in Heff; rewrite Hx in Hgfx;
      rewrite Hk in Hsink.
    + exists new. conjuncts; assumption.
    + destruct (sendHint_ d) eqn:Hflag.
      * exists ((kEfficientPower, negb (efficientMode_ d)) :: new).
        rewrite <- app_assoc in Hsink.
        conjuncts; try assumption.
        -- cbn. split; [ apply Bool.no_fixpoint_negb | exact Heff ].
        -- discriminate.
      * exists new. rewrite app_nil_r in Hsink.
        conjuncts; try assumption.
        rewrite (Hoff eq_refl). exact I.
    + destruct (sendGfxHint_ d) eqn:Hflag.
      * exists ((kGfxMode, negb (gfxMode_ d)) :: new).
        rewrite <- app_assoc in Hsink.
        conjuncts; try assumption.
        -- cbn. split; [ apply Bool.no_fixpoint_negb | exact Hgfx ].
        -- discriminate.
      * exists new. rewrite app_nil_r in Hsink.
        conjuncts; try assumption.
        rewrite (Hgoff eq_refl). exact I.
Qed.

End GateTraces.

(** With its flag off a gate makes no call to the sink and still records
    the value. *)
Lemma sendHintIfAllowed_disabled :
  forall (d : State) (value : Z) (reason : string),
    sendHint_ d = false ->
    sink (sendHintIfAllowed value reason d) = sink d /\
    efficientMode_ (sendHintIfAllowed value reason d) = i2b value.
Proof.
  intros d value reason Hoff. unfold sendHintIfAllowed. rewrite Hoff.
  destruct (Z.eqb_spec value (b2i (efficientMode_ d))) as [Heq | Hne]; cbn [negb].
  - split; [reflexivity | ].
    cbn. rewrite Heq. destruct (efficientMode_ d); reflexivity.
  - destruct d; cbn. destruct (i2b value), sysLoadMonitorPtr_0; split; reflexivity.
Qed.

Lemma sendGfxHintIfAllowed_disabled :
  forall (d : State) (value : Z) (reason : string),
    sendGfxHint_ d = false ->
    sink (sendGfxHintIfAllowed value reason d) = sink d /\
    gfxMode_ (sendGfxHintIfAllowed value reason d) = i2b value.
Proof.
  intros d value reason Hoff. unfold sendGfxHintIfAllowed. rewrite Hoff.
  destruct (Z.eqb_spec value (b2i (gfxMode_ d))) as [Heq | Hne]; cbn [negb].
  - split; [reflexivity | ].
    cbn. rewrite Heq. destruct (gfxMode_ d); reflexivity.
  - destruct d; cbn. split; reflexivity.
Qed.

(** C3: for every trace of hint requests, made directly at the gates or
    by the coordinator while it processes any trace of events, every value
    actually sent to the sink under EFFICIENT_POWER, and under GFX_MODE,
    differs from the value sent before it under that name (the first one
    from the value cached when the trace starts); and when the send flag
    of a gate is false the gate makes no sink call while the cached value
    still becomes the value requested. *)
Theorem C3_hint_gating :
  (forall (d : State) (rs : list Request),
    exists new : list (string * bool),
      sink (fold_left request rs d) = sink d ++ new /\
      alternatesFrom (efficientMode_ d) (sentFor "EFFICIENT_POWER" new) /\
      alternatesFrom (gfxMode_ d) (sentFor "GFX_MODE" new)) /\
  (forall (d : State) (es : list Event),
    exists new : list (string * bool),
      sink (run d es) = sink d ++ new /\
      alternatesFrom (efficientMode_ d) (sentFor "EFFICIENT_POWER" new) /\
      alternatesFrom (gfxMode_ d) (sentFor "GFX_MODE" new)) /\
  (forall (d : State) (value : Z) (reason : string),
      sendHint_ d = false ->
      sink (sendHintIfAllowed value reason d) = sink d /\
      efficientMode_ (sendHintIfAllowed value reason d) = i2b value) /\
  (forall (d : State) (value : Z) (reason : string),
      sendGfxHint_ d = false ->
      sink (sendGfxHintIfAllowed value reason d) = sink d /\
      gfxMode_ (sendGfxHintIfAllowed value reason d) = i2b value).
Proof.
  split; [ | split; [ | split ] ].
  - intros d rs.
    destruct (gate_trace Request request request_gateStep rs d)
      as (new & H1 & H2 & H3 & _).
    exists new. auto.
  - intros d es.
    destruct (gate_trace Event step step_gateStep es d)
      as (new & H1 & H2 & H3 & _).
    exists new. auto.
  - exact sendHintIfAllowed_disabled.
  - exact sendGfxHintIfAllowed_disabled.
Qed.

Lemma C3_hint_gating_witness :
  sendHint_ quietDaemon = false /\
  sink (sendHintIfAllowed 1 "EntryDebounceTimerExpired" quietDaemon) = [] /\
  efficientMode_ (sendHintIfAllowed 1 "EntryDebounceTimerExpired" quietDaemon)
    = true.
Proof.
  assert (H : sendHint_ quietDaemon = false) by reflexivity.
  split; [exact H | ].
  exact (proj1 (proj2 (proj2 C3_hint_gating))
           quietDaemon 1 "EntryDebounceTimerExpired" H).
Defined.

End Coordinator.

(* ================================================================== *)
(** * Properties of the sysfs loops *)

Section SysfsLoops.

Import Scenarios.

(** ** Values that do not parse (C9) *)

(** C9, as stated, fails.  With "2" as the previous value, the reading "x"
    fails the conversion test, and still the WLT loop dispatches the alert
    (2, 0) and takes "x" as its previous value; the GPU loop dispatches an
    alert as well; and the alert changes the coordinator: it arms the
    entry timer. *)
Lemma C9_counterexample :
  CLib.conversionFailed (CLib.upToNewline (String.append "x" CLib.lf)) = true /\
  WltMonitor.alert
    (WltMonitor.iteration (Some (String.append "x" CLib.lf)) (WltMonitor.mkLoop "2" "2"))
    = Some (2, 0) /\
  WltMonitor.loop
    (WltMonitor.iteration (Some (String.append "x" CLib.lf)) (WltMonitor.mkLoop "2" "2"))
    = WltMonitor.mkLoop "x" "x" /\
  GpuRc6Monitor.alert
    (GpuRc6Monitor.iteration (Some (String.append "x" CLib.lf))
       (GpuRc6Monitor.mkLoop "1000" "1000"))
    = Some (0, 1) /\
  SocDaemon.ccEntryDebounceActive_ wltDaemon = false /\
  SocDaemon.ccEntryDebounceActive_
    (SocDaemon.handleChangeAlert "WltMonitor" 2 0 calm wltDaemon) = true.
Proof. by_evaluation. Qed.

Lemma GpuRc6Monitor_iteration_changed :
  forall (bytes : option string) (l : GpuRc6Monitor.Loop),
    fst (GpuRc6Monitor.readValue bytes (GpuRc6Monitor.current_value l))
      <> GpuRc6Monitor.previous_value l ->
    GpuRc6Monitor.alert (GpuRc6Monitor.iteration bytes l)
    = Some (GpuRc6Monitor.gpuAlert
              (CLib.strtolInt (GpuRc6Monitor.previous_value l))
              (CLib.strtolInt
                 (fst (GpuRc6Monitor.readValue bytes
                         (GpuRc6Monitor.current_value l))))) /\
    GpuRc6Monitor.loop (GpuRc6Monitor.iteration bytes l)
    = GpuRc6Monitor.mkLoop
        (fst (GpuRc6Monitor.readValue bytes (GpuRc6Monitor.current_value l)))
        (fst (GpuRc6Monitor.readValue bytes (GpuRc6Monitor.current_value l))).
Proof.
  intros bytes l Hne. unfold GpuRc6Monitor.iteration.
  destruct (GpuRc6Monitor.readValue bytes (GpuRc6Monitor.current_value l))
    as [current rdlog].
  cbn [fst] in Hne |- *.
  apply String.eqb_neq in Hne. rewrite Hne. cbn [negb].
  unfold GpuRc6Monitor.gpuAlert, GpuRc6Monitor.gpuIdlePercent.
  destruct (Qle_bool _ _); split; reflexivity.
Qed.


(** C9 (amended): for every sysfs value read by the WLT and GPU monitors
    that fails integer parsing and differs from the previous value, the
    parse error is logged and the sample is not discarded: the change
    callback is dispatched with what [strtol] returned (the leading
    integer of the text, 0 when there is none), and the monitor takes the
    value as its previous value. *)
Theorem C9_unparsable_value_is_logged_and_dispatched :
  forall (bytes current previous : string),
    CLib.conversionFailed (CLib.upToNewline bytes) = true ->
    CLib.upToNewline bytes <> previous ->
    (In (WltMonitor.LogConvertCurrent (CLib.upToNewline bytes))
        (WltMonitor.logged
           (WltMonitor.iteration (Some bytes) (WltMonitor.mkLoop current previous))) /\
     WltMonitor.alert
       (WltMonitor.iteration (Some bytes) (WltMonitor.mkLoop current previous))
     = Some (CLib.strtolInt previous, CLib.strtolInt (CLib.upToNewline bytes)) /\
     WltMonitor.loop
       (WltMonitor.iteration (Some bytes) (WltMonitor.mkLoop current previous))
     = WltMonitor.mkLoop (CLib.upToNewline bytes) (CLib.upToNewline bytes)) /\
    (In (GpuRc6Monitor.LogConvertCurrent (CLib.upToNewline bytes))
        (GpuRc6Monitor.logged
           (GpuRc6Monitor.iteration (Some bytes)
              (GpuRc6Monitor.mkLoop current previous))) /\
     GpuRc6Monitor.alert
       (GpuRc6Monitor.iteration (Some bytes) (GpuRc6Monitor.mkLoop current previous))
     = Some (GpuRc6Monitor.gpuAlert (CLib.strtolInt previous)
                      (CLib.strtolInt (CLib.upToNewline bytes))) /\
     GpuRc6Monitor.loop
       (GpuRc6Monitor.iteration (Some bytes) (GpuRc6Monitor.mkLoop current previous))
     = GpuRc6Monitor.mkLoop (CLib.upToNewline bytes) (CLib.upToNewline bytes)).
Proof.
  intros bytes current previous Hfail Hne.
  pose proof Hne as Hneb. apply String.eqb_neq in Hneb.
  split.
  - unfold WltMonitor.iteration. cbn [WltMonitor.readValue WltMonitor.previous_value].
    rewrite Hneb, Hfail. cbn [negb WltMonitor.logged WltMonitor.alert WltMonitor.loop].
    conjuncts; try reflexivity.
    cbn [app]. apply in_or_app. right. left. reflexivity.
  - destruct (GpuRc6Monitor_iteration_changed (Some bytes)
                (GpuRc6Monitor.mkLoop current previous) Hne) as [Ha Hl].
    conjuncts; try assumption.
    unfold GpuRc6Monitor.iteration.
    cbn [GpuRc6Monitor.readValue GpuRc6Monitor.previous_value].
    rewrite Hneb, Hfail. cbn [negb].
    destruct (Qle_bool _ _); cbn [GpuRc6Monitor.logged app];
      apply in_or_app; right; left; reflexivity.
Qed.

Lemma C9_unparsable_value_is_logged_and_dispatched_witness :
  CLib.conversionFailed (CLib.upToNewline (String.append "12x" CLib.lf)) = true /\
  CLib.upToNewline (String.append "12x" CLib.lf) <> "2" /\
  WltMonitor.alert
    (WltMonitor.iteration (Some (String.append "12x" CLib.lf)) (WltMonitor.mkLoop "2" "2"))
  = Some (2, 12).
Proof.
  assert (H1 : CLib.conversionFailed (CLib.upToNewline (String.append "12x" CLib.lf))
               = true) by (vm_compute; reflexivity).
  assert (H2 : CLib.upToNewline (String.append "12x" CLib.lf) <> "2")
    by (vm_compute; discriminate).
  destruct (C9_unparsable_value_is_logged_and_dispatched
              (String.append "12x" CLib.lf) "2" "2" H1 H2) as [[_ [Ha _]] _].
  conjuncts; assumption.
Defined.

(** ** Counter resets in the GPU loop (C10) *)







End SysfsLoops.

(* ================================================================== *)
(** * Properties of the CPU-load EMA *)

Section CpuLoadEma.

Import SysLoadMonitor.
Import Scenarios.
Local Open Scope R_scope.

Lemma kCpuEmaTimeConstantSec_value : kCpuEmaTimeConstantSec = 1.5.
Proof. unfold kCpuEmaTimeConstantSec. lra. Qed.

Lemma clamp_is_Rmax :
  forall x : R, (if Rlt_dec x 0 then 0 else x) = Rmax 0 x.
Proof.
  intro x. unfold Rmax.
  destruct (Rlt_dec x 0) as [Hlt | Hge], (Rle_dec 0 x) as [Hle | Hnle]; lra.
Qed.

(** For an interval that is not negative the weight lies in [0, 1), so the
    two clamps on [alpha] leave it as it is. *)
Lemma weight_range : forall dt : R, 0 <= dt -> 0 <= weight dt < 1.
Proof.
  intros dt Hdt. unfold weight, kCpuEmaTimeConstantSec.
  pose proof (exp_pos (- dt / (15 / 10))) as Hpos.
  assert (Hle : exp (- dt / (15 / 10)) <= 1).
  { destruct Hdt as [Hlt | <-].
    - left. rewrite <- exp_0. apply exp_increasing. lra.
    - right. replace (- 0 / (15 / 10)) with 0 by lra. apply exp_0. }
  lra.
Qed.

(** Undefined samples leave the value as it is. *)
Lemma feed_undefined :
  forall (samples : list (Z * R)) (g : Ema),
    Forall (fun s => snd s < 0) samples ->
    g_cpuEmaValue (feed g samples) = g_cpuEmaValue g.
Proof.
  induction samples as [| [now raw] samples IH]; intros g Hall.
  - reflexivity.
  - inversion Hall as [| x l Hraw Hrest]; subst. cbn [snd] in Hraw.
    unfold feed. cbn [fold_left fst snd].
    fold (feed (snd (applyEmaIrregularSample now raw g)) samples).
    rewrite (IH _ Hrest). unfold applyEmaIrregularSample.
    destruct (Rlt_dec raw 0) as [_ | Hge]; [reflexivity | lra].
Qed.

(** C5: for the CPU-load EMA update, a defined raw sample (not negative)
    arriving dt seconds after the previous update, dt being the
    nanoseconds between the two clock readings divided by 10^9, the EMA
    holding v (not negative: initialised), gives the new value
    v * (1 - alpha) + raw * alpha with alpha = 1 - exp (- dt / 1.5), the
    old value becoming the previous one; an undefined raw sample
    (negative: the sentinel) refreshes the timestamp, leaves the value as
    it is and returns it ([-1.0] while it is not initialised); and the
    first defined raw sample (the EMA still negative, as it is at start
    and after any run of undefined samples) sets the value to raw without
    smoothing.  Doubles are taken as real numbers. *)
Theorem C5_ema_irregular_sample :
  (forall (now : Z) (raw : R) (g : Ema),
      0 <= raw -> 0 <= g_cpuEmaValue g -> (g_cpuEmaLastTs g <= now)%Z ->
      let dt := IZR (now - g_cpuEmaLastTs g) / 1000000000 in
      let alpha := 1 - exp (- dt / 1.5) in
      applyEmaIrregularSample now raw g
      = (g_cpuEmaValue g * (1 - alpha) + raw * alpha,
         mkEma (g_cpuEmaValue g * (1 - alpha) + raw * alpha)
               (g_cpuEmaValue g) now)) /\
  (forall (now : Z) (raw : R) (g : Ema),
      raw < 0 ->
      applyEmaIrregularSample now raw g
      = ((if Rge_dec (g_cpuEmaValue g) 0 then g_cpuEmaValue g else -1),
         mkEma (g_cpuEmaValue g) (g_cpuEmaValuePrev g) now)) /\
  (forall (now : Z) (raw : R) (g : Ema),
      0 <= raw -> g_cpuEmaValue g < 0 ->
      applyEmaIrregularSample now raw g
      = (raw, mkEma raw (g_cpuEmaValuePrev g) now)) /\
  (forall (t0 now : Z) (raw : R) (undefined : list (Z * R)),
      Forall (fun s => snd s < 0) undefined ->
      0 <= raw ->
      fst (applyEmaIrregularSample now raw (feed (emaAtStart t0) undefined))
      = raw).
Proof.
  conjuncts.
  - intros now raw g Hraw Hv Hnow dt alpha.
    assert (Hdt : 0 <= dt).
    { unfold dt. apply Rmult_le_pos; [apply IZR_le; lia | lra]. }
    assert (Hw : 0 <= alpha < 1).
    { unfold alpha. rewrite <- kCpuEmaTimeConstantSec_value.
      apply (weight_range dt Hdt). }
    unfold applyEmaIrregularSample, secondsOf. fold dt.
    destruct (Rlt_dec dt 0) as [Hneg | _]; [lra | ].
    destruct (Rlt_dec raw 0) as [Hneg | _]; [lra | ].
    destruct (Rlt_dec (g_cpuEmaValue g) 0) as [Hneg | _]; [lra | ].
    rewrite kCpuEmaTimeConstantSec_value. fold alpha. cbv zeta.
    destruct (Rlt_dec alpha 0) as [Hneg | _]; [lra | ].
    destruct (Rgt_dec alpha 1) as [Hbig | _]; [lra | ].
    reflexivity.
  - intros now raw g Hraw. unfold applyEmaIrregularSample.
    destruct (Rlt_dec raw 0) as [_ | Hge]; [reflexivity | lra].
  - intros now raw g Hraw Hv. unfold applyEmaIrregularSample.
    destruct (Rlt_dec raw 0) as [Hneg | _]; [lra | ].
    destruct (Rlt_dec (g_cpuEmaValue g) 0) as [_ | Hge]; [reflexivity | lra].
  - intros t0 now raw undefined Hall Hraw.
    pose proof (feed_undefined undefined (emaAtStart t0) Hall) as Hv.
    cbn [emaAtStart g_cpuEmaValue] in Hv.
    unfold applyEmaIrregularSample. rewrite Hv.
    destruct (Rlt_dec raw 0) as [Hneg | _]; [lra | ].
    destruct (Rlt_dec (-1) 0) as [_ | Hge]; [reflexivity | lra].
Qed.

(** With the EMA at 50, last updated at time 0, the sample 80 taken 1.5 s
    later gives 50 * exp (-1) + 80 * (1 - exp (-1)), a value strictly
    between the two. *)
Lemma C5_ema_irregular_sample_witness :
  fst (applyEmaIrregularSample 1500000000 80 emaAtFifty)
  = 50 * (1 - (1 - exp (-1))) + 80 * (1 - exp (-1)) /\
  50 < fst (applyEmaIrregularSample 1500000000 80 emaAtFifty) < 80.
Proof.
  assert (H1 : 0 <= 80) by lra.
  assert (H2 : 0 <= g_cpuEmaValue emaAtFifty) by (cbn; lra).
  assert (H3 : (g_cpuEmaLastTs emaAtFifty <= 1500000000)%Z) by (cbn; lia).
  pose proof (proj1 C5_ema_irregular_sample 1500000000%Z 80 emaAtFifty H1 H2 H3)
    as Hv.
  cbv zeta in Hv. cbn [emaAtFifty g_cpuEmaValue g_cpuEmaLastTs] in Hv.
  replace (- (IZR (1500000000 - 0) / 1000000000) / 1.5) with (-1) in Hv
    by (rewrite Z.sub_0_r; lra).
  rewrite Hv. cbn [fst]. split; [reflexivity | ].
  pose proof (exp_pos (-1)) as Hpos.
  assert (Hlt : exp (-1) < 1).
  { rewrite <- exp_0. apply exp_increasing. lra. }
  lra.
Defined.

End CpuLoadEma.

(* ================================================================== *)
(** * Rounding to a double *)

Section DoubleRounding.

Lemma roundHalfEven_le :
  forall (n : Z) (d : positive) (M : Z),
    n <= M * Z.pos d -> CLib.roundHalfEven n d <= M.
Proof.
  intros n d M H. unfold CLib.roundHalfEven.
  pose proof (Z.div_mod n (Z.pos d) ltac:(lia)) as Hdm.
  pose proof (Z.mod_pos_bound n (Z.pos d) ltac:(lia)) as Hr.
  assert (Hq : n / Z.pos d <= M) by (apply Z.div_le_upper_bound; lia).
  destruct (Z.eq_dec (n / Z.pos d) M) as [Heq | Hne].
  - assert (Hr0 : n mod Z.pos d = 0) by nia.
    rewrite Hr0. cbn [Z.mul Z.compare]. lia.
  - destruct (2 * (n mod Z.pos d) ?= Z.pos d); [ | lia | lia].
    destruct (Z.even (n / Z.pos d)); lia.
Qed.

Lemma roundHalfEven_nonneg :
  forall (n : Z) (d : positive), 0 <= n -> 0 <= CLib.roundHalfEven n d.
Proof.
  intros n d H. unfold CLib.roundHalfEven.
  assert (Hq : 0 <= n / Z.pos d) by (apply Z.div_pos; lia).
  destruct (2 * (n mod Z.pos d) ?= Z.pos d); [ | lia | lia].
  destruct (Z.even (n / Z.pos d)); lia.
Qed.

(** A value up to 5 has an exponent up to 2. *)
Lemma floorLog2_small :
  forall n d : positive, Z.pos n <= 5 * Z.pos d -> CLib.floorLog2 n d <= 2.
Proof.
  intros n d H. unfold CLib.floorLog2.
  set (k := Z.log2 (Z.pos n) - Z.log2 (Z.pos d)).
  assert (Hk : k <= 3).
  { destruct (Z.le_gt_cases k 3) as [Hle | Hgt]; [exact Hle | exfalso].
    destruct (Z.log2_spec (Z.pos n) ltac:(lia)) as [Hn1 _].
    destruct (Z.log2_spec (Z.pos d) ltac:(lia)) as [_ Hd2].
    pose proof (Z.log2_nonneg (Z.pos d)) as Hd0.
    assert (Hp : 2 ^ (Z.log2 (Z.pos d) + 4) <= 2 ^ Z.log2 (Z.pos n))
      by (apply Z.pow_le_mono_r; unfold k in Hgt; lia).
    rewrite Z.pow_add_r in Hp by lia.
    rewrite Z.pow_succ_r in Hd2 by lia.
    change (2 ^ 4) with 16 in Hp. lia. }
  destruct (CLib.scale2 n d k) as [sn sd] eqn:E.
  destruct (Z.leb_spec (Z.pos sd) sn) as [Hge | Hlt]; [ | lia].
  destruct (Z.le_gt_cases k 2) as [Hle | Hgt]; [exact Hle | exfalso].
  assert (Hk3 : k = 3) by lia.
  rewrite Hk3 in E.
  cbn [CLib.scale2] in E. injection E as <- <-.
  rewrite Pos2Z.inj_mul in Hge. change (Z.pos (2 ^ 3)) with 8 in Hge. lia.
Qed.

Lemma roundDoublePos_small :
  forall n d : positive,
    Z.pos n <= 5 * Z.pos d -> (CLib.roundDoublePos n d <= 5)%Q.
Proof.
  intros n d H. unfold CLib.roundDoublePos.
  pose proof (floorLog2_small n d H) as Hfl.
  set (e := Z.max (CLib.floorLog2 n d - 52) (-1074)).
  assert (He : e <= -50) by (unfold e; lia).
  destruct e as [| p | p] eqn:Ee; [lia | lia | ].
  cbn [CLib.scale2].
  unfold Qle. cbn [Qnum Qden]. rewrite Z.mul_1_r.
  apply roundHalfEven_le.
  rewrite Pos2Z.inj_mul. nia.
Qed.

Lemma roundDoublePos_nonneg :
  forall n d : positive, (0 <= CLib.roundDoublePos n d)%Q.
Proof.
  intros n d. unfold CLib.roundDoublePos.
  destruct (Z.max (CLib.floorLog2 n d - 52) (-1074)) as [| p | p];
    cbn [CLib.scale2].
  - unfold Qle. cbn. rewrite Z.mul_1_r. apply roundHalfEven_nonneg. lia.
  - unfold Qle. cbn [Qnum Qden inject_Z].
    pose proof (roundHalfEven_nonneg (Z.pos n) (d * 2 ^ p) ltac:(lia)). nia.
  - unfold Qle. cbn [Qnum Qden]. rewrite Z.mul_1_r.
    apply roundHalfEven_nonneg. lia.
Qed.

(** The rounding on known values: 0.1 and 1/3 as doubles; a double is
    left as it is; ties go to the even significand, above 2^53 and in the
    subnormal range. *)
Lemma roundDouble_examples :
  (CLib.roundDouble (1 # 10) == 3602879701896397 # 36028797018963968)%Q /\
  (CLib.roundDouble (1 # 3) == 6004799503160661 # 18014398509481984)%Q /\
  (CLib.roundDouble 5 == 5)%Q /\
  (CLib.roundDouble Scenarios.double_5_03 == Scenarios.double_5_03)%Q /\
  (CLib.roundDouble 9007199254740993 == 9007199254740992)%Q /\
  (CLib.roundDouble 9007199254740995 == 9007199254740996)%Q /\
  (CLib.roundDouble (1 # 2 ^ 1075) == 0)%Q /\
  (CLib.roundDouble (3 # 2 ^ 1075) == 2 # 2 ^ 1074)%Q /\
  (CLib.fsub Scenarios.double_5_03 Scenarios.double_0_03 == 5)%Q.
Proof. conjuncts; vm_compute; reflexivity. Qed.

(** Rounding does not carry a value over 5.0, which is a double. *)
Lemma roundDouble_le_5 :
  forall x : Q, (x <= 5)%Q -> (CLib.roundDouble x <= 5)%Q.
Proof.
  intros [n d] H. unfold CLib.roundDouble. cbn [Qnum Qden].
  destruct n as [| n | n].
  - unfold Qle. cbn. lia.
  - apply roundDoublePos_small. unfold Qle in H. cbn in H. lia.
  - pose proof (roundDoublePos_nonneg n d) as Hnn.
    apply Qle_trans with (y := 0%Q); [ | unfold Qle; cbn; lia].
    apply (Qopp_le_compat 0) in Hnn. exact Hnn.
Qed.

(** A slope that the code finds above the threshold is above it exactly. *)
Lemma fsub_above_threshold :
  forall a b : Q,
    SocDaemon.Qltb SocDaemon.kSysloadSlopeThreshold (CLib.fsub a b) = true ->
    (SocDaemon.kSysloadSlopeThreshold < a - b)%Q.
Proof.
  intros a b H. apply Qltb_lt in H.
  apply Qnot_le_lt. intro Hle.
  apply roundDouble_le_5 in Hle.
  unfold CLib.fsub in H. exact (Qlt_not_le _ _ H Hle).
Qed.

End DoubleRounding.

(* ================================================================== *)
(** * Further properties of the coordinator *)

Section CoordinatorTraces.

Import SocDaemon.
Import SocDaemonInvariants.
Import Scenarios.

(** ** Frames *)

(** An alert goes to one handler, or to none. *)
Lemma handleChangeAlert_cases :
  forall name oldValue newValue env d,
    (name = "WltMonitor" /\
     handleChangeAlert name oldValue newValue env d
     = onWltMonitor oldValue newValue env d) \/
    (name = "HfiMonitor" /\
     handleChangeAlert name oldValue newValue env d = onHfiMonitor newValue d) \/
    (name = "SysLoadMonitor" /\
     handleChangeAlert name oldValue newValue env d = onSysLoadMonitor d) \/
    (name = "GpuRc6Monitor" /\
     handleChangeAlert name oldValue newValue env d = onGpuRc6Monitor newValue d) \/
    (name <> "WltMonitor" /\ name <> "HfiMonitor" /\
     name <> "SysLoadMonitor" /\ name <> "GpuRc6Monitor" /\
     handleChangeAlert name oldValue newValue env d = d).
Proof.
  intros name oldValue newValue env d.
  destruct (String.eqb_spec name "WltMonitor") as [-> | H1];
    [left; split; reflexivity | right].
  destruct (String.eqb_spec name "HfiMonitor") as [-> | H2];
    [left; split; reflexivity | right].
  destruct (String.eqb_spec name "SysLoadMonitor") as [-> | H3];
    [left; split; reflexivity | right].
  destruct (String.eqb_spec name "GpuRc6Monitor") as [-> | H4];
    [left; split; reflexivity | right].
  conjuncts; try assumption.
  unfold handleChangeAlert.
  apply String.eqb_neq in H1, H2, H3, H4. rewrite H1, H2, H3, H4. reflexivity.
Qed.

Lemma getSysCpuLoad_hintSide :
  forall env d, hintSide (snd (getSysCpuLoad env d)) = hintSide d.
Proof.
  intros env d. unfold getSysCpuLoad.
  destruct d; cbn. destruct sysLoadMonitorPtr_0; reflexivity.
Qed.

Lemma snapshotAndResumeGpu_hintSide :
  forall env d, hintSide (snapshotAndResumeGpu env d) = hintSide d.
Proof.
  intros env d.
  unfold snapshotAndResumeGpu, gpuThreadUp, gpuRc6Monitor_resume.
  destruct d; cbn.
  destruct gpuMonitorThreadRunning_0, gpuRc6MonitorPtr_0, (pthreadCreateOk env);
    reflexivity.
Qed.

Lemma containmentSwitch_hintSide :
  forall newWLT d, hintSide (containmentSwitch newWLT d) = hintSide d.
Proof.
  intros newWLT d.
  unfold containmentSwitch, gpuThreadUp, gpuRc6Monitor_resume,
    gpuRc6Monitor_pause, isCCExitDebounceTimerRunning.
  destruct d; cbn.
  destruct newWLT, gpuMonitorThreadRunning_0, gpuRc6MonitorPtr_0,
    ccExitDebounceActive_0;
    reflexivity.
Qed.

Lemma wltOutsideContainment_hintSide :
  forall newWLT d, hintSide (wltOutsideContainment newWLT d) = hintSide d.
Proof.
  intros newWLT d.
  unfold wltOutsideContainment, gpuThreadUp, gpuRc6Monitor_resume,
    gpuRc6Monitor_pause, isCCEntryDebounceTimerRunning.
  destruct d; cbn.
  destruct newWLT, CCGlobalState_0, gpuMonitorThreadRunning_0, gpuRc6MonitorPtr_0,
    ccEntryDebounceActive_0;
    reflexivity.
Qed.

(** In "wlt" mode a WLT alert leaves the hint side of the coordinator
    alone. *)
Lemma onWltMonitor_hintSide :
  forall oldValue newValue env d,
    socHint_ d = "wlt" ->
    hintSide (onWltMonitor oldValue newValue env d) = hintSide d.
Proof.
  intros oldValue newValue env d Hs. unfold onWltMonitor. rewrite Hs.
  cbn [String.eqb Ascii.eqb Bool.eqb andb].
  destruct (CCGlobalState_eqb (CCGlobalState_ d) CoreContainment).
  - unfold wltInContainment.
    rewrite containmentSwitch_hintSide, getSysCpuLoad_hintSide.
    destruct (isIdleOrBtl _ && isSustainOrBursty _);
      [apply snapshotAndResumeGpu_hintSide | reflexivity].
  - apply wltOutsideContainment_hintSide.
Qed.

(** What a pass through the EFFICIENT_POWER gate leaves alone, and what it
    makes of the cached value and of the CPU-load monitor. *)
Lemma sendHintIfAllowed_frame :
  forall value reason d,
    CCGlobalState_ (sendHintIfAllowed value reason d) = CCGlobalState_ d /\
    timers (sendHintIfAllowed value reason d) = timers d /\
    config (sendHintIfAllowed value reason d) = config d /\
    gfxMode_ (sendHintIfAllowed value reason d) = gfxMode_ d /\
    efficientMode_ (sendHintIfAllowed value reason d) = i2b value.
Proof.
  intros value reason d. unfold sendHintIfAllowed.
  destruct (Z.eqb_spec value (b2i (efficientMode_ d))) as [Heq | Hne];
    cbn [negb].
  - conjuncts; try reflexivity.
    cbn. rewrite Heq. destruct (efficientMode_ d); reflexivity.
  - destruct d; cbn.
    destruct sendHint_0, (i2b value), sysLoadMonitorPtr_0;
      conjuncts; reflexivity.
Qed.

Lemma sendHintIfAllowed_sampler :
  forall value reason d,
    samplerFollowsHint d ->
    samplerFollowsHint (sendHintIfAllowed value reason d).
Proof.
  intros value reason d Hinv. unfold sendHintIfAllowed.
  destruct (negb (value =? b2i (efficientMode_ d))); [ | exact Hinv].
  unfold samplerFollowsHint, samplerPaused in *.
  destruct d; cbn in Hinv |- *.
  destruct sysLoadMonitorPtr_0 as [m |]; [ | discriminate].
  destruct sendHint_0, (i2b value); reflexivity.
Qed.

Lemma sendGfxHintIfAllowed_frame :
  forall value reason d,
    CCGlobalState_ (sendGfxHintIfAllowed value reason d) = CCGlobalState_ d /\
    timers (sendGfxHintIfAllowed value reason d) = timers d /\
    config (sendGfxHintIfAllowed value reason d) = config d /\
    efficientMode_ (sendGfxHintIfAllowed value reason d) = efficientMode_ d /\
    sysLoadMonitorPtr_ (sendGfxHintIfAllowed value reason d)
    = sysLoadMonitorPtr_ d /\
    gfxMode_ (sendGfxHintIfAllowed value reason d) = i2b value.
Proof.
  intros value reason d. unfold sendGfxHintIfAllowed.
  destruct (Z.eqb_spec value (b2i (gfxMode_ d))) as [Heq | Hne]; cbn [negb].
  - conjuncts; try reflexivity.
    cbn. rewrite Heq. destruct (gfxMode_ d); reflexivity.
  - destruct d; cbn. destruct sendGfxHint_0; conjuncts; reflexivity.
Qed.

Lemma onWltMonitor_keeps_state :
  forall oldValue newValue env d,
    CCGlobalState_ (onWltMonitor oldValue newValue env d) = CCGlobalState_ d.
Proof.
  intros oldValue newValue env d.
  destruct (String.eqb_spec (socHint_ d) "wlt") as [Hs | Hs].
  - pose proof (onWltMonitor_hintSide oldValue newValue env d Hs) as H.
    unfold hintSide in H. congruence.
  - unfold onWltMonitor. apply String.eqb_neq in Hs. rewrite Hs.
    destruct (socHint_ d =? "swlt")%string; [ | reflexivity].
    destruct (Z.land newValue (Z.shiftl 1 4) =? 0);
      apply sendHintIfAllowed_frame.
Qed.

(** ** What moves the containment state *)

(** X1: the containment state changes in three places only.  A step that
    changes it is the end of the entry wait (not cancelled, load below
    25.0, from Open to CoreContainment), the end of the exit wait (not
    cancelled, slope above 5.0, from CoreContainment to Open), or an alert
    of the CPU-load monitor in containment (to Open).  No alert of the
    WLT, HFI or GPU monitor, and no alert under an unknown name, moves
    it. *)
Theorem containment_moves_only_at_expiry_or_busy_spike :
  forall (d : State) (e : Event),
    CCGlobalState_ (step d e) <> CCGlobalState_ d -> moveCause d e.
Proof.
  intros d e Hmove. unfold moveCause.
  destruct e as [name oldValue newValue env | | env | env]; cbn [step] in *.
  - right. right.
    destruct (handleChangeAlert_cases name oldValue newValue env d)
      as [[-> H] | [[-> H] | [[-> H] | [[-> H] | (_ & _ & _ & _ & H)]]]];
      rewrite H in Hmove |- *.
    + rewrite onWltMonitor_keeps_state in Hmove. congruence.
    + unfold onHfiMonitor in Hmove.
      destruct (newValue =? 255);
        rewrite (proj1 (sendHintIfAllowed_frame _ _ _)) in Hmove; congruence.
    + exists oldValue, newValue, env. split; [reflexivity | ].
      unfold onSysLoadMonitor in Hmove |- *.
      destruct (CCGlobalState_ d) eqn:Hst.
      * cbn in Hmove.
        rewrite (proj1 (sendHintIfAllowed_frame _ _ _)) in Hmove.
        cbn in Hmove. congruence.
      * split; reflexivity.
    + unfold onGpuRc6Monitor in Hmove.
      destruct (newValue =? 1);
        rewrite (proj1 (sendGfxHintIfAllowed_frame _ _ _)) in Hmove;
        congruence.
    + congruence.
  - cbn in Hmove. congruence.
  - left. exists env. split; [reflexivity | ].
    unfold entryDebounceOver, loadSeen in *.
    destruct d; cbn -[Qltb Qlt] in Hmove |- *.
    destruct ccEntryDebounceCancelled_0; cbn -[Qltb Qlt] in Hmove |- *;
      [congruence | ].
    unfold getSysCpuLoad in *; cbn -[Qltb Qlt] in Hmove |- *.
    destruct sysLoadMonitorPtr_0 as [m |]; cbn -[Qltb Qlt] in Hmove |- *.
    all: match goal with
         | |- context [Qltb ?a ?b] =>
             destruct (Qltb_cases a b) as [[E H] | [E H]]; rewrite E in Hmove |- *
         end.
    all: cbn -[Qlt] in Hmove |- *; try congruence.
    all: destruct CCGlobalState_0; cbn -[Qlt] in Hmove |- *; try congruence.
    all: rewrite (proj1 (sendHintIfAllowed_frame _ _ _)) in Hmove |- *.
    all: cbn -[Qlt]; conjuncts; auto.
  - right. left. exists env. split; [reflexivity | ].
    unfold exitDebounceOver, loadSeen in *.
    destruct d; cbn -[Qltb Qlt Qminus CLib.fsub] in Hmove |- *.
    destruct ccExitDebounceCancelled_0;
      cbn -[Qltb Qlt Qminus CLib.fsub] in Hmove |- *; [congruence | ].
    destruct CCGlobalState_0;
      cbn -[Qltb Qlt Qminus CLib.fsub] in Hmove |- *; [congruence | ].
    unfold getSysCpuLoad in *; cbn -[Qltb Qlt Qminus CLib.fsub] in Hmove |- *.
    destruct sysLoadMonitorPtr_0 as [m |];
      cbn -[Qltb Qlt Qminus CLib.fsub] in Hmove |- *.
    all: match goal with
         | |- context [Qltb ?a (CLib.fsub ?x ?y)] =>
             pose proof (fsub_above_threshold x y) as Hexact;
             destruct (Qltb a (CLib.fsub x y))
         end.
    all: cbn -[Qlt Qminus] in Hmove |- *; try congruence.
    all: rewrite (proj1 (sendHintIfAllowed_frame _ _ _)) in Hmove |- *.
    all: cbn -[Qlt Qminus]; conjuncts; auto.
Qed.

Lemma containment_moves_only_at_expiry_or_busy_spike_witness :
  CCGlobalState_ (step idlingDaemon (EntryDebounceOver calm))
    <> CCGlobalState_ idlingDaemon /\
  moveCause idlingDaemon (EntryDebounceOver calm).
Proof.
  assert (H : CCGlobalState_ (step idlingDaemon (EntryDebounceOver calm))
              <> CCGlobalState_ idlingDaemon) by (vm_compute; discriminate).
  split; [exact H | ].
  exact (containment_moves_only_at_expiry_or_busy_spike _ _ H).
Defined.

(** ** The shape of the two expiry steps *)

Lemma entryDebounceOver_shape :
  forall env d,
    entryDebounceOver env d
    = set_ccEntryDebounceCancelled_ false (set_ccEntryDebounceActive_ false d) \/
    entryDebounceOver env d
    = sampledAfter env (set_ccEntryDebounceActive_ false d) \/
    (CCGlobalState_ d = CoreContainment /\
     entryDebounceOver env d
     = set_CCGlobalState_ CoreContainment
         (sampledAfter env (set_ccEntryDebounceActive_ false d))) \/
    (CCGlobalState_ d = Open /\
     entryDebounceOver env d
     = sendHintIfAllowed 1 "EntryDebounceTimerExpired"
         (set_CCGlobalState_ CoreContainment
            (sampledAfter env (set_ccEntryDebounceActive_ false d)))).
Proof.
  intros env d. unfold entryDebounceOver, sampledAfter.
  destruct (ccEntryDebounceCancelled_ (set_ccEntryDebounceActive_ false d));
    cbn [negb]; [left; reflexivity | right].
  destruct (getSysCpuLoad env (set_ccEntryDebounceActive_ false d))
    as [load d1] eqn:E. cbn [snd].
  destruct (Qltb load 25); [right | left; reflexivity].
  assert (Hst : CCGlobalState_ d1 = CCGlobalState_ d).
  { pose proof (getSysCpuLoad_hintSide env (set_ccEntryDebounceActive_ false d)) as H.
    rewrite E in H. cbn [snd] in H. unfold hintSide in H. cbn in H. congruence. }
  rewrite Hst.
  destruct (CCGlobalState_ d); cbn [negb CCGlobalState_eqb];
    [right | left]; split; reflexivity.
Qed.

Lemma exitDebounceOver_shape :
  forall env d,
    exitDebounceOver env d
    = set_ccExitDebounceCancelled_ false (set_ccExitDebounceActive_ false d) \/
    exitDebounceOver env d = set_ccExitDebounceActive_ false d \/
    (CCGlobalState_ d = CoreContainment /\
     exitDebounceOver env d
     = sendHintIfAllowed 0 "ExitDebounceTimerExpired"
         (set_CCGlobalState_ Open
            (sampledAfter env (set_ccExitDebounceActive_ false d)))) \/
    exitDebounceOver env d
    = startCCExitDebounceTimer 5000
        (sampledAfter env (set_ccExitDebounceActive_ false d)).
Proof.
  intros env d. unfold exitDebounceOver, sampledAfter.
  destruct (ccExitDebounceCancelled_ (set_ccExitDebounceActive_ false d));
    cbn [negb]; [left; reflexivity | right].
  change (CCGlobalState_ (set_ccExitDebounceActive_ false d))
    with (CCGlobalState_ d).
  destruct (CCGlobalState_ d) eqn:Hd; cbn [CCGlobalState_eqb];
    [left; reflexivity | right].
  destruct (getSysCpuLoad env (set_ccExitDebounceActive_ false d))
    as [load d1] eqn:E. cbn [snd].
  destruct (Qltb _ _); [left | right; reflexivity].
  assert (Hst : CCGlobalState_ d1 = CoreContainment).
  { pose proof (getSysCpuLoad_hintSide env (set_ccExitDebounceActive_ false d)) as H.
    rewrite E in H. cbn [snd] in H. unfold hintSide in H. cbn in H. congruence. }
  rewrite Hst. cbn [negb CCGlobalState_eqb]. split; reflexivity.
Qed.

(** ** The CPU-load monitor follows the cached hint *)

Lemma sampledAfter_sampler :
  forall env d, samplerFollowsHint d -> samplerFollowsHint (sampledAfter env d).
Proof.
  intros env d H. unfold samplerFollowsHint in *.
  pose proof (getSysCpuLoad_hintSide env d) as Hf. unfold hintSide in Hf.
  fold (sampledAfter env d) in Hf.
  injection Hf as _ _ _ He _ _ Hp _ _. rewrite Hp, He. exact H.
Qed.

Lemma step_sampler :
  forall d e, samplerFollowsHint d -> samplerFollowsHint (step d e).
Proof.
  intros d e Hinv.
  destruct e as [name oldValue newValue env | | env | env]; cbn [step].
  - destruct (handleChangeAlert_cases name oldValue newValue env d)
      as [[-> H] | [[-> H] | [[-> H] | [[-> H] | (_ & _ & _ & _ & H)]]]];
      rewrite H.
    + destruct (String.eqb_spec (socHint_ d) "wlt") as [Hs | Hs].
      * pose proof (onWltMonitor_hintSide oldValue newValue env d Hs) as Hf.
        unfold hintSide in Hf. injection Hf as _ _ _ He _ _ Hp _ _.
        unfold samplerFollowsHint in *. rewrite Hp, He. exact Hinv.
      * unfold onWltMonitor. apply String.eqb_neq in Hs. rewrite Hs.
        destruct (socHint_ d =? "swlt")%string; [ | exact Hinv].
        destruct (Z.land newValue (Z.shiftl 1 4) =? 0);
          apply sendHintIfAllowed_sampler; exact Hinv.
    + unfold onHfiMonitor.
      destruct (newValue =? 255); apply sendHintIfAllowed_sampler; exact Hinv.
    + unfold onSysLoadMonitor.
      destruct (negb _); [apply sendHintIfAllowed_sampler | ]; exact Hinv.
    + unfold onGpuRc6Monitor.
      destruct (newValue =? 1);
        match goal with
        | |- samplerFollowsHint (sendGfxHintIfAllowed ?v ?r ?x) =>
            destruct (sendGfxHintIfAllowed_frame v r x)
              as (_ & _ & _ & He & Hp & _)
        end;
        unfold samplerFollowsHint, samplerPaused in *; rewrite Hp, He;
        exact Hinv.
    + exact Hinv.
  - exact Hinv.
  - destruct (entryDebounceOver_shape env d) as [H | [H | [[_ H] | [_ H]]]];
      rewrite H.
    + exact Hinv.
    + apply sampledAfter_sampler. exact Hinv.
    + apply (sampledAfter_sampler env (set_ccEntryDebounceActive_ false d)).
      exact Hinv.
    + apply sendHintIfAllowed_sampler.
      apply (sampledAfter_sampler env (set_ccEntryDebounceActive_ false d)).
      exact Hinv.
  - destruct (exitDebounceOver_shape env d) as [H | [H | [[_ H] | H]]];
      rewrite H.
    + exact Hinv.
    + exact Hinv.
    + apply sendHintIfAllowed_sampler.
      apply (sampledAfter_sampler env (set_ccExitDebounceActive_ false d)).
      exact Hinv.
    + apply (sampledAfter_sampler env (set_ccExitDebounceActive_ false d)).
      exact Hinv.
Qed.

(** X2: along every trace of events from the started daemon, whatever the
    configuration, the CPU-load monitor is paused exactly when the cached
    EFFICIENT_POWER value is false: it samples only while the hint is
    on. *)
Theorem sampler_paused_iff_hint_off :
  forall (sendHint sendGfxHint : bool) (socHint : string)
         (gfxMode0 gpuInitOk : bool) (es : list Event),
    samplerPaused (run (started sendHint sendGfxHint socHint gfxMode0 gpuInitOk) es)
    = Some (negb (efficientMode_
                    (run (started sendHint sendGfxHint socHint gfxMode0 gpuInitOk)
                         es))).
Proof.
  intros sendHint sendGfxHint socHint gfxMode0 gpuInitOk es.
  assert (Hinv : forall es d, samplerFollowsHint d -> samplerFollowsHint (run d es)).
  { clear. induction es as [| e es IH]; intros d H; [exact H | ].
    apply IH. apply step_sampler. exact H. }
  apply Hinv. unfold samplerFollowsHint, started, start.
  destruct gpuInitOk; reflexivity.
Qed.

(** ** The timers *)

Lemma sampledAfter_timers :
  forall env d, timers (sampledAfter env d) = timers d.
Proof.
  intros env d. unfold sampledAfter, getSysCpuLoad.
  destruct d; cbn. destruct sysLoadMonitorPtr_0; reflexivity.
Qed.

Lemma snapshotAndResumeGpu_timers :
  forall env d, timers (snapshotAndResumeGpu env d) = timers d.
Proof.
  intros env d.
  unfold snapshotAndResumeGpu, gpuThreadUp, gpuRc6Monitor_resume.
  destruct d; cbn.
  destruct gpuMonitorThreadRunning_0, gpuRc6MonitorPtr_0, (pthreadCreateOk env);
    reflexivity.
Qed.

Lemma containmentSwitch_timers :
  forall newWLT d, timers (containmentSwitch newWLT d) = timersAfterSwitch newWLT d.
Proof.
  intros newWLT d.
  unfold containmentSwitch, timersAfterSwitch, gpuThreadUp,
    gpuRc6Monitor_resume, gpuRc6Monitor_pause, isCCExitDebounceTimerRunning.
  destruct d; cbn.
  destruct newWLT, gpuMonitorThreadRunning_0, gpuRc6MonitorPtr_0,
    ccExitDebounceActive_0;
    reflexivity.
Qed.

Lemma wltOutsideContainment_timers :
  forall newWLT d,
    timers (wltOutsideContainment newWLT d) = timersAfterOutside newWLT d.
Proof.
  intros newWLT d.
  unfold wltOutsideContainment, timersAfterOutside, gpuThreadUp,
    gpuRc6Monitor_resume, gpuRc6Monitor_pause, isCCEntryDebounceTimerRunning.
  destruct d; cbn.
  destruct newWLT, CCGlobalState_0, gpuMonitorThreadRunning_0, gpuRc6MonitorPtr_0,
    ccEntryDebounceActive_0;
    reflexivity.
Qed.

Lemma timersAfterSwitch_frame :
  forall newWLT d d', timers d' = timers d ->
    timersAfterSwitch newWLT d' = timersAfterSwitch newWLT d.
Proof.
  intros newWLT d d' H. unfold timersAfterSwitch.
  pose proof H as H'. unfold timers in H'. injection H' as -> -> -> -> ->.
  rewrite H. reflexivity.
Qed.

(** The timers after a WLT alert in "wlt" mode. *)
Lemma onWltMonitor_timers :
  forall oldValue newValue env d,
    socHint_ d = "wlt" ->
    timers (onWltMonitor oldValue newValue env d)
    = match CCGlobalState_ d with
      | CoreContainment => timersAfterSwitch (wltOfInt newValue) d
      | Open => timersAfterOutside (wltOfInt newValue) d
      end.
Proof.
  intros oldValue newValue env d Hs. unfold onWltMonitor. rewrite Hs.
  cbn [String.eqb Ascii.eqb Bool.eqb andb].
  destruct (CCGlobalState_ d); cbn [CCGlobalState_eqb].
  - apply wltOutsideContainment_timers.
  - unfold wltInContainment. rewrite containmentSwitch_timers.
    apply timersAfterSwitch_frame.
    fold (sampledAfter env
            (if isIdleOrBtl (wltOfInt oldValue) && isSustainOrBursty (wltOfInt newValue)
             then snapshotAndResumeGpu env d else d)).
    rewrite sampledAfter_timers.
    destruct (isIdleOrBtl _ && isSustainOrBursty _);
      [apply snapshotAndResumeGpu_timers | reflexivity].
Qed.

(** X3: in "wlt" mode a WLT alert drives the two timers as follows.  In
    Open, Idle/Btl leaves the entry timer running, Sustain leaves it
    stopped, and Bursty touches nothing (it does not stop a running entry
    timer).  In containment, Idle/Btl leaves the exit timer stopped, and
    Sustain/Bursty leaves it running, a timer already running being left
    as it is (not restarted, its delay kept) and a fresh one getting
    1000 ms; the entry timer is not touched. *)
Theorem wlt_alert_drives_timers :
  forall (d : State) (oldValue newValue : Z) (env : Env),
    socHint_ d = "wlt" ->
    (CCGlobalState_ d = Open ->
       (isIdleOrBtl (wltOfInt newValue) = true ->
          ccEntryDebounceActive_
            (handleChangeAlert "WltMonitor" oldValue newValue env d) = true) /\
       (wltOfInt newValue = Sustain ->
          ccEntryDebounceActive_
            (handleChangeAlert "WltMonitor" oldValue newValue env d) = false) /\
       (wltOfInt newValue = Bursty ->
          timers (handleChangeAlert "WltMonitor" oldValue newValue env d)
          = timers d)) /\
    (CCGlobalState_ d = CoreContainment ->
       ccEntryDebounceActive_
         (handleChangeAlert "WltMonitor" oldValue newValue env d)
       = ccEntryDebounceActive_ d /\
       (isIdleOrBtl (wltOfInt newValue) = true ->
          ccExitDebounceActive_
            (handleChangeAlert "WltMonitor" oldValue newValue env d) = false) /\
       (isSustainOrBursty (wltOfInt newValue) = true ->
          ccExitDebounceActive_
            (handleChangeAlert "WltMonitor" oldValue newValue env d) = true /\
          (ccExitDebounceActive_ d = true ->
             timers (handleChangeAlert "WltMonitor" oldValue newValue env d)
             = timers d) /\
          (ccExitDebounceActive_ d = false ->
             ccExitDebounceMs_
               (handleChangeAlert "WltMonitor" oldValue newValue env d) = 1000))).
Proof.
  intros d oldValue newValue env Hs.
  rewrite handleChangeAlert_WltMonitor.
  pose proof (onWltMonitor_timers oldValue newValue env d Hs) as Ht.
  set (d' := onWltMonitor oldValue newValue env d) in *.
  unfold timers in Ht at 1.
  split; intro Hst; rewrite Hst in Ht.
  - unfold timersAfterOutside in Ht. rewrite Hst in Ht. cbn [CCGlobalState_eqb andb] in Ht.
    conjuncts.
    + intro Hw. destruct (wltOfInt newValue); try discriminate;
        destruct (ccEntryDebounceActive_ d) eqn:Ha; cbn in Ht;
        injection Ht as -> _ _ _ _; auto.
    + intro Hw. rewrite Hw in Ht.
      destruct (ccEntryDebounceActive_ d) eqn:Ha; cbn in Ht;
        injection Ht as -> _ _ _ _; auto.
    + intro Hw. rewrite Hw in Ht. unfold timers at 1. exact Ht.
  - unfold timersAfterSwitch in Ht.
    conjuncts.
    + destruct (wltOfInt newValue), (ccExitDebounceActive_ d); cbn in Ht;
        injection Ht as -> _ _ _ _; reflexivity.
    + intro Hw. destruct (wltOfInt newValue); try discriminate;
        injection Ht as _ _ -> _ _; reflexivity.
    + intro Hw. conjuncts.
      * destruct (wltOfInt newValue); try discriminate;
          destruct (ccExitDebounceActive_ d) eqn:Ha; cbn in Ht;
          injection Ht as _ _ -> _ _; auto.
      * intro Ha. destruct (wltOfInt newValue); try discriminate;
          rewrite Ha in Ht; unfold timers at 1; exact Ht.
      * intro Ha. destruct (wltOfInt newValue); try discriminate;
          rewrite Ha in Ht; injection Ht as _ _ _ _ ->; reflexivity.
Qed.

Lemma wlt_alert_drives_timers_witness :
  ccEntryDebounceActive_ (handleChangeAlert "WltMonitor" 2 0 calm wltDaemon) = true.
Proof.
  assert (Hs : socHint_ wltDaemon = "wlt") by reflexivity.
  assert (Ho : CCGlobalState_ wltDaemon = Open) by reflexivity.
  assert (Hw : isIdleOrBtl (wltOfInt 0) = true) by reflexivity.
  destruct (wlt_alert_drives_timers wltDaemon 2 0 calm Hs) as [Hopen _].
  destruct (Hopen Ho) as [Hidle _].
  exact (Hidle Hw).
Defined.

Lemma onSysLoadMonitor_timers :
  forall d, timers (onSysLoadMonitor d) = timers d.
Proof.
  intro d. unfold onSysLoadMonitor.
  destruct (negb _); [ | reflexivity].
  destruct (sendHintIfAllowed_frame 0 "HighSysLoadInCC" (set_CCGlobalState_ Open d))
    as (_ & Ht & _).
  rewrite Ht. reflexivity.
Qed.

Lemma onHfiMonitor_timers :
  forall newValue d, timers (onHfiMonitor newValue d) = timers d.
Proof.
  intros newValue d. unfold onHfiMonitor.
  destruct (newValue =? 255); apply sendHintIfAllowed_frame.
Qed.

Lemma onGpuRc6Monitor_timers :
  forall newValue d, timers (onGpuRc6Monitor newValue d) = timers d.
Proof.
  intros newValue d. unfold onGpuRc6Monitor.
  destruct (newValue =? 1); apply sendGfxHintIfAllowed_frame.
Qed.

Lemma onWltMonitor_timers_other_modes :
  forall oldValue newValue env d,
    socHint_ d <> "wlt" ->
    timers (onWltMonitor oldValue newValue env d) = timers d.
Proof.
  intros oldValue newValue env d Hs. unfold onWltMonitor.
  apply String.eqb_neq in Hs. rewrite Hs.
  destruct (socHint_ d =? "swlt")%string; [ | reflexivity].
  destruct (Z.land newValue (Z.shiftl 1 4) =? 0); apply sendHintIfAllowed_frame.
Qed.

Lemma handleChangeAlert_keeps_timers :
  forall name oldValue newValue env d,
    name <> "WltMonitor" \/ socHint_ d <> "wlt" ->
    timers (handleChangeAlert name oldValue newValue env d) = timers d.
Proof.
  intros name oldValue newValue env d Hor.
  destruct (handleChangeAlert_cases name oldValue newValue env d)
    as [[-> H] | [[-> H] | [[-> H] | [[-> H] | (_ & _ & _ & _ & H)]]]];
    rewrite H.
  - destruct Hor as [Hn | Hs]; [contradiction | ].
    apply onWltMonitor_timers_other_modes. exact Hs.
  - apply onHfiMonitor_timers.
  - apply onSysLoadMonitor_timers.
  - apply onGpuRc6Monitor_timers.
  - reflexivity.
Qed.

(** X4: the debounce timers are written by nothing but a WLT alert in
    "wlt" mode and the two waits of the debounce thread: every other
    alert (HFI, CPU load, GPU, an unknown name, WLT in another mode)
    leaves the five timer fields as they are. *)
Theorem timers_moved_only_by_wlt_alerts :
  forall (name : string) (oldValue newValue : Z) (env : Env) (d : State),
    timers (handleChangeAlert name oldValue newValue env d) <> timers d ->
    name = "WltMonitor" /\ socHint_ d = "wlt".
Proof.
  intros name oldValue newValue env d Hmove.
  destruct (String.eqb_spec name "WltMonitor") as [Hn | Hn];
    [ | exfalso; apply Hmove; apply handleChangeAlert_keeps_timers; left; exact Hn].
  destruct (String.eqb_spec (socHint_ d) "wlt") as [Hs | Hs];
    [ | exfalso; apply Hmove; apply handleChangeAlert_keeps_timers; right; exact Hs].
  split; assumption.
Qed.

Lemma timers_moved_only_by_wlt_alerts_witness :
  timers (handleChangeAlert "WltMonitor" 2 0 calm wltDaemon) <> timers wltDaemon /\
  "WltMonitor" = "WltMonitor" /\ socHint_ wltDaemon = "wlt".
Proof.
  assert (H : timers (handleChangeAlert "WltMonitor" 2 0 calm wltDaemon)
              <> timers wltDaemon) by (vm_compute; discriminate).
  split; [exact H | ].
  exact (timers_moved_only_by_wlt_alerts _ _ _ _ _ H).
Defined.

(** ** Well-formed timers *)

Lemma timersAfterSwitch_ok :
  forall newWLT d, timersWellFormed d -> timersOk (timersAfterSwitch newWLT d).
Proof.
  intros newWLT d. unfold timersWellFormed, timersAfterSwitch, timersOk, timers.
  intros (He & Hx & Hms).
  destruct newWLT, (ccExitDebounceActive_ d); cbn; auto.
Qed.

Lemma timersAfterOutside_ok :
  forall newWLT d, timersWellFormed d -> timersOk (timersAfterOutside newWLT d).
Proof.
  intros newWLT d. unfold timersWellFormed, timersAfterOutside, timersOk, timers.
  intros (He & Hx & Hms).
  destruct newWLT, (CCGlobalState_ d), (ccEntryDebounceActive_ d); cbn; auto.
Qed.

Lemma handleChangeAlert_timersWellFormed :
  forall name oldValue newValue env d,
    timersWellFormed d ->
    timersWellFormed (handleChangeAlert name oldValue newValue env d).
Proof.
  intros name oldValue newValue env d Hinv.
  destruct (String.eqb_spec name "WltMonitor") as [-> | Hn].
  - destruct (String.eqb_spec (socHint_ d) "wlt") as [Hs | Hs].
    + rewrite handleChangeAlert_WltMonitor. unfold timersWellFormed.
      rewrite (onWltMonitor_timers _ _ _ _ Hs).
      destruct (CCGlobalState_ d);
        [apply timersAfterOutside_ok | apply timersAfterSwitch_ok]; exact Hinv.
    + rewrite handleChangeAlert_WltMonitor. unfold timersWellFormed.
      rewrite (onWltMonitor_timers_other_modes _ _ _ _ Hs). exact Hinv.
  - unfold timersWellFormed.
    rewrite handleChangeAlert_keeps_timers; [exact Hinv | left; exact Hn].
Qed.


Lemma timersWellFormed_frame :
  forall d d', timers d' = timers d -> timersWellFormed d -> timersWellFormed d'.
Proof. intros d d' H. unfold timersWellFormed. rewrite H. exact (fun x => x). Qed.

Lemma entry_inactive_timersWellFormed :
  forall d, timersWellFormed d -> timersWellFormed (set_ccEntryDebounceActive_ false d).
Proof.
  intros d (He & Hx & Hms). unfold timersWellFormed, timersOk, timers. cbn.
  auto.
Qed.

Lemma exit_inactive_timersWellFormed :
  forall d, timersWellFormed d -> timersWellFormed (set_ccExitDebounceActive_ false d).
Proof.
  intros d (He & Hx & Hms). unfold timersWellFormed, timersOk, timers. cbn.
  auto.
Qed.

Lemma step_timersWellFormed :
  forall d e, timersWellFormed d -> timersWellFormed (step d e).
Proof.
  intros d e Hinv.
  destruct e as [name oldValue newValue env | | env | env]; cbn [step].
  - apply handleChangeAlert_timersWellFormed. exact Hinv.
  - exact Hinv.
  - apply entry_inactive_timersWellFormed in Hinv.
    destruct (entryDebounceOver_shape env d) as [H | [H | [[_ H] | [_ H]]]];
      rewrite H.
    + destruct Hinv as (He & Hx & Hms). unfold timersWellFormed, timersOk, timers.
      cbn. auto.
    + apply (timersWellFormed_frame _ _ (sampledAfter_timers _ _)). exact Hinv.
    + apply (timersWellFormed_frame (set_ccEntryDebounceActive_ false d));
        [ | exact Hinv].
      rewrite <- (sampledAfter_timers env (set_ccEntryDebounceActive_ false d)).
      reflexivity.
    + apply (timersWellFormed_frame (set_ccEntryDebounceActive_ false d));
        [ | exact Hinv].
      destruct (sendHintIfAllowed_frame 1 "EntryDebounceTimerExpired"
                  (set_CCGlobalState_ CoreContainment
                     (sampledAfter env (set_ccEntryDebounceActive_ false d))))
        as (_ & Ht & _).
      rewrite Ht.
      rewrite <- (sampledAfter_timers env (set_ccEntryDebounceActive_ false d)).
      reflexivity.
  - apply exit_inactive_timersWellFormed in Hinv.
    destruct (exitDebounceOver_shape env d) as [H | [H | [[_ H] | H]]];
      rewrite H.
    + destruct Hinv as (He & Hx & Hms). unfold timersWellFormed, timersOk, timers.
      cbn. auto.
    + exact Hinv.
    + apply (timersWellFormed_frame (set_ccExitDebounceActive_ false d));
        [ | exact Hinv].
      destruct (sendHintIfAllowed_frame 0 "ExitDebounceTimerExpired"
                  (set_CCGlobalState_ Open
                     (sampledAfter env (set_ccExitDebounceActive_ false d))))
        as (_ & Ht & _).
      rewrite Ht.
      rewrite <- (sampledAfter_timers env (set_ccExitDebounceActive_ false d)).
      reflexivity.
    + pose proof (sampledAfter_timers env (set_ccExitDebounceActive_ false d)) as Ht.
      destruct Hinv as (He & Hx & Hms).
      unfold timersWellFormed, timersOk, timers in *. cbn in *.
      injection Ht as -> -> _ _ _. auto.
Qed.

(** X5: along every trace from the started daemon, whatever the
    configuration, neither debounce timer is at once running and
    cancelled, and the delay of the exit timer is 1000 ms or 5000 ms. *)
Theorem timers_stay_well_formed :
  forall (sendHint sendGfxHint : bool) (socHint : string)
         (gfxMode0 gpuInitOk : bool) (es : list Event),
    let d := run (started sendHint sendGfxHint socHint gfxMode0 gpuInitOk) es in
    ccEntryDebounceActive_ d && ccEntryDebounceCancelled_ d = false /\
    ccExitDebounceActive_ d && ccExitDebounceCancelled_ d = false /\
    (ccExitDebounceMs_ d = 1000 \/ ccExitDebounceMs_ d = 5000).
Proof.
  intros sendHint sendGfxHint socHint gfxMode0 gpuInitOk es.
  assert (Hinv : forall es d, timersWellFormed d -> timersWellFormed (run d es)).
  { clear. induction es as [| e es IH]; intros d H; [exact H | ].
    apply IH. apply step_timersWellFormed. exact H. }
  apply (Hinv es (started sendHint sendGfxHint socHint gfxMode0 gpuInitOk)).
  unfold timersWellFormed, timersOk, timers, started, start.
  destruct gpuInitOk; cbn; auto.
Qed.

(** ** A cancelled wait *)

(** X6: when a debounce timer is stopped, the end of its wait does none
    of the expiry work: no load sample is taken, the containment state,
    the cached hints, the sink and the log stay as they are, and the
    timer is left neither running nor cancelled.  This holds for the
    entry and for the exit timer. *)
Theorem stopped_timer_expiry_does_nothing :
  forall (env : Env) (d : State),
    (let d' := entryDebounceOver env (stopCCEntryDebounceTimer d) in
     hintSide d' = hintSide d /\
     samplesTaken d' = samplesTaken d /\
     latestSysCpuLoadCC_ d' = latestSysCpuLoadCC_ d /\
     ccEntryDebounceActive_ d' = false /\
     ccEntryDebounceCancelled_ d' = false) /\
    (let d' := exitDebounceOver env (stopCCExitDebounceTimer d) in
     hintSide d' = hintSide d /\
     samplesTaken d' = samplesTaken d /\
     latestSysCpuLoadCC_ d' = latestSysCpuLoadCC_ d /\
     ccExitDebounceActive_ d' = false /\
     ccExitDebounceCancelled_ d' = false).
Proof.
  intros env d. destruct d. split; cbv zeta; conjuncts; reflexivity.
Qed.

(** ** What the HFI and GPU alerts do *)

Lemma i2b_of_test : forall b : bool, i2b (if b then 1 else 0) = b.
Proof. intros []; reflexivity. Qed.

(** X7: an HFI alert sets the cached EFFICIENT_POWER value to
    [newValue == 255], and a GPU alert sets the cached GFX_MODE value to
    [newValue == 1]; neither moves the containment state nor the timers,
    the HFI alert leaves the GFX_MODE value alone, and the GPU alert
    leaves the EFFICIENT_POWER value and the CPU-load monitor alone. *)
Theorem hfi_and_gpu_alerts_set_their_cache :
  forall (oldValue newValue : Z) (env : Env) (d : State),
    (let d' := handleChangeAlert "HfiMonitor" oldValue newValue env d in
     efficientMode_ d' = (newValue =? 255) /\
     gfxMode_ d' = gfxMode_ d /\
     CCGlobalState_ d' = CCGlobalState_ d /\
     timers d' = timers d) /\
    (let d' := handleChangeAlert "GpuRc6Monitor" oldValue newValue env d in
     gfxMode_ d' = (newValue =? 1) /\
     efficientMode_ d' = efficientMode_ d /\
     sysLoadMonitorPtr_ d' = sysLoadMonitorPtr_ d /\
     CCGlobalState_ d' = CCGlobalState_ d /\
     timers d' = timers d).
Proof.
  intros oldValue newValue env d. cbv zeta.
  rewrite handleChangeAlert_HfiMonitor, handleChangeAlert_GpuRc6Monitor.
  unfold onHfiMonitor, onGpuRc6Monitor. split.
  - destruct (newValue =? 255);
      [destruct (sendHintIfAllowed_frame 1 "HFI Efficient Power Mode is 255" d)
         as (Hs & Ht & _ & Hg & He)
      |destruct (sendHintIfAllowed_frame 0 "HFI Efficient Power Mode is not 255" d)
         as (Hs & Ht & _ & Hg & He)];
      conjuncts; assumption.
  - destruct (newValue =? 1);
      [destruct (sendGfxHintIfAllowed_frame 1 "High GPU load detected" d)
         as (Hs & Ht & _ & He & Hp & Hg)
      |destruct (sendGfxHintIfAllowed_frame 0 "Low GPU load detected" d)
         as (Hs & Ht & _ & He & Hp & Hg)];
      conjuncts; assumption.
Qed.

(** ** The sink *)

Lemma gateStep_sink :
  forall d d', gateStep d d' ->
    exists new : list (string * bool),
      sink d' = sink d ++ new /\
      (List.length new <= 1)%nat /\
      Forall knownHint new /\
      (sendHint_ d = false -> sendGfxHint_ d = false -> new = []) /\
      sendHint_ d' = sendHint_ d /\ sendGfxHint_ d' = sendGfxHint_ d.
Proof.
  intros d d' [Hv | Hv | Hv]; unfold gateView in Hv;
    injection Hv as Hs Hg He Hx Hk.
  - exists []. rewrite app_nil_r. conjuncts; auto.
  - destruct (sendHint_ d) eqn:Hflag.
    + eexists. split; [exact Hk | ].
      conjuncts; auto.
      * constructor; [left; reflexivity | constructor].
      * discriminate.
    + exists []. conjuncts; auto.
  - destruct (sendGfxHint_ d) eqn:Hflag.
    + eexists. split; [exact Hk | ].
      conjuncts; auto.
      * constructor; [right; reflexivity | constructor].
      * intros _ H. discriminate.
    + exists []. conjuncts; auto.
Qed.

(** X8: the sink only grows, by at most one call per event, and every
    call carries one of the two names EFFICIENT_POWER and GFX_MODE; for
    every trace the calls added are at most as many as the events, and
    with both send flags off the sink is never called. *)
Theorem sink_gets_at_most_one_known_hint_per_event :
  forall (d : State) (es : list Event),
    exists new : list (string * bool),
      sink (run d es) = sink d ++ new /\
      (List.length new <= List.length es)%nat /\
      Forall knownHint new /\
      (sendHint_ d = false -> sendGfxHint_ d = false -> new = []).
Proof.
  intros d es. revert d.
  induction es as [| e es IH]; intro d.
  - exists []. cbn. rewrite app_nil_r. conjuncts; auto.
  - unfold run in *. cbn [fold_left List.length].
    destruct (gateStep_sink d (step d e) (step_gateStep d e))
      as (n1 & Hk1 & Hl1 & Hf1 & Ho1 & Hs & Hg).
    destruct (IH (step d e)) as (n2 & Hk2 & Hl2 & Hf2 & Ho2).
    exists (n1 ++ n2). conjuncts.
    + rewrite Hk2, Hk1, app_assoc. reflexivity.
    + rewrite length_app. lia.
    + apply Forall_app. split; assumption.
    + intros H1 H2. rewrite (Ho1 H1 H2).
      rewrite Hs, Hg in Ho2. rewrite (Ho2 H1 H2). reflexivity.
Qed.

Lemma sentFor_app :
  forall key a b, sentFor key (a ++ b) = sentFor key a ++ sentFor key b.
Proof.
  intros key a b. unfold sentFor. rewrite filter_app, map_app. reflexivity.
Qed.

Lemma last_snoc : forall (A : Type) (l : list A) (x y : A), last (l ++ [x]) y = x.
Proof. intros A l x y. apply last_last. Qed.

Lemma gateStep_sinkAgrees :
  forall g d d', gateStep d d' -> sinkAgrees g d -> sinkAgrees g d'.
Proof.
  intros g d d' Hstep [He Hg]. unfold sinkAgrees.
  destruct Hstep as [Hv | Hv | Hv]; unfold gateView in Hv;
    injection Hv as -> -> -> -> ->.
  - split; assumption.
  - split.
    + intro Hs. rewrite Hs, sentFor_app. cbn. apply last_snoc.
    + intro Hs. rewrite sentFor_app.
      destruct (sendHint_ d); cbn; rewrite app_nil_r; auto.
  - split.
    + intro Hs. rewrite sentFor_app.
      destruct (sendGfxHint_ d); cbn; rewrite app_nil_r; auto.
    + intro Hs. rewrite Hs, sentFor_app. cbn. apply last_snoc.
Qed.

(** X9: what the sink has been told last is what the daemon has cached.
    Along every trace from the started daemon, when EFFICIENT_POWER
    hints are sent, the last EFFICIENT_POWER value the sink received
    (false when it received none) is the cached [efficientMode_]; and
    when GFX_MODE hints are sent, the last GFX_MODE value the sink
    received (the initial [gfxMode_] when it received none) is the cached
    [gfxMode_]. *)
Theorem sink_last_value_is_the_cache :
  forall (sendHint sendGfxHint : bool) (socHint : string)
         (gfxMode0 gpuInitOk : bool) (es : list Event),
    let d := run (started sendHint sendGfxHint socHint gfxMode0 gpuInitOk) es in
    (sendHint = true ->
     last (sentFor kEfficientPower (sink d)) false = efficientMode_ d) /\
    (sendGfxHint = true ->
     last (sentFor kGfxMode (sink d)) gfxMode0 = gfxMode_ d).
Proof.
  intros sendHint sendGfxHint socHint gfxMode0 gpuInitOk es.
  assert (Hinv : forall es d,
             sinkAgrees gfxMode0 d ->
             sinkAgrees gfxMode0 (run d es) /\
             sendHint_ (run d es) = sendHint_ d /\
             sendGfxHint_ (run d es) = sendGfxHint_ d).
  { clear. induction es as [| e es IH]; intros d H; [auto | ].
    unfold run in *. cbn [fold_left].
    destruct (IH (step d e) (gateStep_sinkAgrees _ _ _ (step_gateStep d e) H))
      as (Ha & Hs & Hg).
    destruct (gateStep_sink d (step d e) (step_gateStep d e))
      as (_ & _ & _ & _ & _ & Hs' & Hg').
    conjuncts; congruence. }
  destruct (Hinv es (started sendHint sendGfxHint socHint gfxMode0 gpuInitOk))
    as ([He Hg] & Hs & Hx).
  - unfold sinkAgrees, started, start. destruct gpuInitOk; cbn; auto.
  - cbv zeta. split; intro H.
    + apply He. rewrite Hs. unfold started, start. destruct gpuInitOk; exact H.
    + apply Hg. rewrite Hx. unfold started, start. destruct gpuInitOk; exact H.
Qed.

Lemma sink_last_value_is_the_cache_witness :
  last (sentFor kEfficientPower
          (sink (run (started true true "wlt" false true)
                     [ChangeAlert "WltMonitor" 2 0 calm; EntryDebounceOver calm])))
       false
  = true.
Proof.
  destruct (sink_last_value_is_the_cache true true "wlt" false true
              [ChangeAlert "WltMonitor" 2 0 calm; EntryDebounceOver calm])
    as [He _].
  rewrite (He eq_refl). vm_compute. reflexivity.
Defined.

(** ** The cached hint mirrors the containment state *)

Lemma sampledAfter_mirror :
  forall env d,
    efficientMode_ (sampledAfter env d) = efficientMode_ d /\
    CCGlobalState_ (sampledAfter env d) = CCGlobalState_ d /\
    socHint_ (sampledAfter env d) = socHint_ d.
Proof.
  intros env d.
  pose proof (getSysCpuLoad_hintSide env d) as Hf. unfold hintSide in Hf.
  fold (sampledAfter env d) in Hf.
  injection Hf as _ _ Hs He _ Hc _ _ _. auto.
Qed.

Lemma step_socHint : forall d e, socHint_ (step d e) = socHint_ d.
Proof.
  intros d e.
  assert (Hgate : forall v r x, socHint_ (sendHintIfAllowed v r x) = socHint_ x).
  { intros v r x. destruct (sendHintIfAllowed_frame v r x) as (_ & _ & Hc & _).
    unfold config in Hc. congruence. }
  assert (Hgfx : forall v r x, socHint_ (sendGfxHintIfAllowed v r x) = socHint_ x).
  { intros v r x. destruct (sendGfxHintIfAllowed_frame v r x) as (_ & _ & Hc & _).
    unfold config in Hc. congruence. }
  destruct e as [name oldValue newValue env | | env | env]; cbn [step].
  - destruct (handleChangeAlert_cases name oldValue newValue env d)
      as [[-> H] | [[-> H] | [[-> H] | [[-> H] | (_ & _ & _ & _ & H)]]]];
      rewrite H.
    + destruct (String.eqb_spec (socHint_ d) "wlt") as [Hs | Hs].
      * pose proof (onWltMonitor_hintSide oldValue newValue env d Hs) as Hf.
        unfold hintSide in Hf. congruence.
      * unfold onWltMonitor. apply String.eqb_neq in Hs. rewrite Hs.
        destruct (socHint_ d =? "swlt")%string; [ | reflexivity].
        destruct (Z.land newValue (Z.shiftl 1 4) =? 0); apply Hgate.
    + unfold onHfiMonitor. destruct (newValue =? 255); apply Hgate.
    + unfold onSysLoadMonitor. destruct (negb _); [ | reflexivity].
      rewrite Hgate. reflexivity.
    + unfold onGpuRc6Monitor. destruct (newValue =? 1); apply Hgfx.
    + reflexivity.
  - reflexivity.
  - assert (Hsam : forall x, socHint_ (sampledAfter env x) = socHint_ x)
      by (intro x; apply sampledAfter_mirror).
    destruct (entryDebounceOver_shape env d) as [H | [H | [[_ H] | [_ H]]]];
      rewrite H; rewrite ?Hgate; cbn [socHint_ set_CCGlobalState_];
      rewrite ?Hsam; reflexivity.
  - assert (Hsam : forall x, socHint_ (sampledAfter env x) = socHint_ x)
      by (intro x; apply sampledAfter_mirror).
    destruct (exitDebounceOver_shape env d) as [H | [H | [[_ H] | H]]];
      rewrite H; rewrite ?Hgate;
      cbn [socHint_ set_CCGlobalState_ startCCExitDebounceTimer
             set_ccExitDebounceMs_ set_debounceThreadStarted_
             set_ccExitDebounceCancelled_ set_ccExitDebounceActive_];
      rewrite ?Hsam; reflexivity.
Qed.

Lemma step_mirror :
  forall d e,
    socHint_ d = "wlt" -> spikeFree e = true ->
    hintMirrorsState d -> hintMirrorsState (step d e).
Proof.
  intros d e Hs Hfree Hinv. unfold hintMirrorsState in *.
  destruct e as [name oldValue newValue env | | env | env]; cbn [step].
  - cbn [spikeFree] in Hfree. apply andb_prop in Hfree as [Hn1 Hn2].
    apply negb_true_iff in Hn1, Hn2.
    destruct (handleChangeAlert_cases name oldValue newValue env d)
      as [[-> H] | [[-> H] | [[-> H] | [[-> H] | (_ & _ & _ & _ & H)]]]];
      try discriminate; rewrite H.
    + pose proof (onWltMonitor_hintSide oldValue newValue env d Hs) as Hf.
      unfold hintSide in Hf. injection Hf as _ _ _ He _ Hc _ _ _.
      rewrite He, Hc. exact Hinv.
    + unfold onGpuRc6Monitor.
      destruct (newValue =? 1);
        [destruct (sendGfxHintIfAllowed_frame 1 "High GPU load detected" d)
           as (Hc & _ & _ & He & _)
        |destruct (sendGfxHintIfAllowed_frame 0 "Low GPU load detected" d)
           as (Hc & _ & _ & He & _)];
        rewrite He, Hc; exact Hinv.
    + exact Hinv.
  - exact Hinv.
  - destruct (sampledAfter_mirror env (set_ccEntryDebounceActive_ false d))
      as (He & Hc & _).
    destruct (entryDebounceOver_shape env d) as [H | [H | [[Hst H] | [Hst H]]]];
      rewrite H.
    + exact Hinv.
    + rewrite He, Hc. exact Hinv.
    + cbn [efficientMode_ CCGlobalState_ set_CCGlobalState_]. rewrite He.
      cbn [efficientMode_ set_ccEntryDebounceActive_]. rewrite Hinv, Hst.
      reflexivity.
    + destruct (sendHintIfAllowed_frame 1 "EntryDebounceTimerExpired"
                  (set_CCGlobalState_ CoreContainment
                     (sampledAfter env (set_ccEntryDebounceActive_ false d))))
        as (Hc' & _ & _ & _ & He').
      rewrite He', Hc'. reflexivity.
  - destruct (sampledAfter_mirror env (set_ccExitDebounceActive_ false d))
      as (He & Hc & _).
    destruct (exitDebounceOver_shape env d) as [H | [H | [[Hst H] | H]]];
      rewrite H.
    + exact Hinv.
    + exact Hinv.
    + destruct (sendHintIfAllowed_frame 0 "ExitDebounceTimerExpired"
                  (set_CCGlobalState_ Open
                     (sampledAfter env (set_ccExitDebounceActive_ false d))))
        as (Hc' & _ & _ & _ & He').
      rewrite He', Hc'. reflexivity.
    + change (efficientMode_ (sampledAfter env (set_ccExitDebounceActive_ false d))
              = CCGlobalState_eqb
                  (CCGlobalState_ (sampledAfter env (set_ccExitDebounceActive_ false d)))
                  CoreContainment).
      rewrite He, Hc. exact Hinv.
Qed.

(** X10: in "wlt" mode, as long as neither the CPU-load monitor nor the
    HFI monitor alerts, the cached EFFICIENT_POWER value mirrors the
    containment state: along every such trace from the started daemon,
    [efficientMode_] is true exactly in CoreContainment (and so, by the
    hint gate, the CPU-load sampler runs exactly in containment). *)
Theorem efficient_mode_mirrors_containment :
  forall (sendHint sendGfxHint gfxMode0 gpuInitOk : bool) (es : list Event),
    forallb spikeFree es = true ->
    let d := run (started sendHint sendGfxHint "wlt" gfxMode0 gpuInitOk) es in
    efficientMode_ d = CCGlobalState_eqb (CCGlobalState_ d) CoreContainment.
Proof.
  intros sendHint sendGfxHint gfxMode0 gpuInitOk es Hfree.
  assert (Hinv : forall es d,
             forallb spikeFree es = true -> socHint_ d = "wlt" ->
             hintMirrorsState d -> hintMirrorsState (run d es)).
  { clear. induction es as [| e es IH]; intros d Hf Hs H; [exact H | ].
    cbn [forallb] in Hf. apply andb_prop in Hf as [Hf1 Hf2].
    unfold run in *. cbn [fold_left]. apply IH.
    - exact Hf2.
    - rewrite step_socHint. exact Hs.
    - apply step_mirror; assumption. }
  apply Hinv.
  - exact Hfree.
  - unfold started, start. destruct gpuInitOk; reflexivity.
  - unfold hintMirrorsState, started, start. destruct gpuInitOk; reflexivity.
Qed.

Lemma efficient_mode_mirrors_containment_witness :
  efficientMode_
    (run (started true true "wlt" false true)
         [ChangeAlert "WltMonitor" 2 0 calm; EntryDebounceOver calm])
  = CCGlobalState_eqb
      (CCGlobalState_
         (run (started true true "wlt" false true)
              [ChangeAlert "WltMonitor" 2 0 calm; EntryDebounceOver calm]))
      CoreContainment.
Proof.
  assert (H : forallb spikeFree
                [ChangeAlert "WltMonitor" 2 0 calm; EntryDebounceOver calm] = true)
    by reflexivity.
  exact (efficient_mode_mirrors_containment true true false true _ H).
Defined.

(** ** Modes other than "wlt" *)

Lemma handleChangeAlert_state :
  forall name oldValue newValue env d,
    CCGlobalState_ (handleChangeAlert name oldValue newValue env d) = CCGlobalState_ d \/
    CCGlobalState_ (handleChangeAlert name oldValue newValue env d) = Open.
Proof.
  intros name oldValue newValue env d.
  destruct (handleChangeAlert_cases name oldValue newValue env d)
    as [[-> H] | [[-> H] | [[-> H] | [[-> H] | (_ & _ & _ & _ & H)]]]];
    rewrite H.
  - left. apply onWltMonitor_keeps_state.
  - left. unfold onHfiMonitor. destruct (newValue =? 255); apply sendHintIfAllowed_frame.
  - right. unfold onSysLoadMonitor. destruct (negb _); [ | reflexivity].
    destruct (sendHintIfAllowed_frame 0 "HighSysLoadInCC" (set_CCGlobalState_ Open d))
      as (Hc & _). rewrite Hc. reflexivity.
  - left. unfold onGpuRc6Monitor. destruct (newValue =? 1);
      apply sendGfxHintIfAllowed_frame.
  - left. reflexivity.
Qed.

Lemma step_restingOpen :
  forall d e,
    socHint_ d <> "wlt" -> timerLive d e = true ->
    restingOpen d -> restingOpen (step d e).
Proof.
  intros d e Hs Hlive (Hc & Hea & Hec & Hxa & Hxc).
  destruct e as [name oldValue newValue env | | env | env]; cbn [step].
  - pose proof (handleChangeAlert_keeps_timers name oldValue newValue env d
                  (or_intror Hs)) as Ht.
    unfold timers in Ht. injection Ht as H1 H2 H3 H4 _.
    unfold restingOpen. rewrite H1, H2, H3, H4.
    destruct (handleChangeAlert_state name oldValue newValue env d) as [H | H];
      rewrite H; auto.
  - unfold restingOpen. auto.
  - cbn [timerLive] in Hlive. rewrite Hea, Hec in Hlive. discriminate.
  - cbn [timerLive] in Hlive. rewrite Hxa, Hxc in Hlive. discriminate.
Qed.

(** X11: outside "wlt" mode the containment machine never runs.  For
    every other value of [socHint_] ("swlt", "hfi", or anything else),
    along every trace from the started daemon in which a debounce wait
    ends only for a timer that is running or cancelled, the state stays
    Open and both timers stay idle: no alert of any monitor arms a timer,
    so no wait ever ends. *)
Theorem containment_never_entered_outside_wlt_mode :
  forall (sendHint sendGfxHint : bool) (socHint : string)
         (gfxMode0 gpuInitOk : bool) (es : list Event),
    socHint <> "wlt" ->
    timersLive (started sendHint sendGfxHint socHint gfxMode0 gpuInitOk) es = true ->
    let d := run (started sendHint sendGfxHint socHint gfxMode0 gpuInitOk) es in
    CCGlobalState_ d = Open /\
    ccEntryDebounceActive_ d = false /\ ccEntryDebounceCancelled_ d = false /\
    ccExitDebounceActive_ d = false /\ ccExitDebounceCancelled_ d = false.
Proof.
  intros sendHint sendGfxHint socHint gfxMode0 gpuInitOk es Hs Hlive.
  assert (Hinv : forall es d,
             socHint_ d <> "wlt" -> timersLive d es = true ->
             restingOpen d -> restingOpen (run d es)).
  { clear. induction es as [| e es IH]; intros d Hs Hl H; [exact H | ].
    cbn [timersLive] in Hl. apply andb_prop in Hl as [Hl1 Hl2].
    unfold run in *. cbn [fold_left]. apply IH.
    - rewrite step_socHint. exact Hs.
    - exact Hl2.
    - apply step_restingOpen; assumption. }
  apply Hinv.
  - unfold started, start. destruct gpuInitOk; exact Hs.
  - exact Hlive.
  - unfold restingOpen, started, start. destruct gpuInitOk; cbn; auto.
Qed.

Lemma containment_never_entered_outside_wlt_mode_witness :
  CCGlobalState_
    (run (started true true "swlt" false true)
         [ChangeAlert "WltMonitor" 0 18 calm; ChangeAlert "SysLoadMonitor" 20 30 calm])
  = Open.
Proof.
  assert (Hs : "swlt" <> "wlt") by discriminate.
  assert (Hl : timersLive (started true true "swlt" false true)
                 [ChangeAlert "WltMonitor" 0 18 calm;
                  ChangeAlert "SysLoadMonitor" 20 30 calm] = true)
    by reflexivity.
  destruct (containment_never_entered_outside_wlt_mode
              true true "swlt" false true _ Hs Hl) as [H _].
  exact H.
Defined.

End CoordinatorTraces.

(* ================================================================== *)
(** * The two expiries of the debounce thread (C6, C7) *)

Section DebounceExpiry.

Import SocDaemon.
Import SocDaemonInvariants.
Import Scenarios.

(** ** Expiry of the entry debounce timer (C6) *)

(** C6, as stated, fails: containment can be entered with sending enabled
    and no hint sent.  Containment is entered once (EFFICIENT_POWER=1 goes
    to the sink), WLT goes to Sustain, the CPU-load monitor alerts (the
    state becomes Open, and no hint is sent: the cached value stays
    true), WLT goes back to Idle and arms the entry timer.  The timer
    expires, not cancelled, in Open, under a load of 10%: the state becomes
    CoreContainment and the sink receives nothing, the gate finding the
    value unchanged. *)
Lemma C6_counterexample :
  CCGlobalState_ reopenedBySpike = Open /\
  ccEntryDebounceActive_ reopenedBySpike = true /\
  ccEntryDebounceCancelled_ reopenedBySpike = false /\
  sendHint_ reopenedBySpike = true /\
  (sampledLoad calm < 25)%Q /\
  CCGlobalState_ (entryDebounceOver calm reopenedBySpike) = CoreContainment /\
  sink reopenedBySpike = [("EFFICIENT_POWER", true)] /\
  sink (entryDebounceOver calm reopenedBySpike) = sink reopenedBySpike.
Proof. conjuncts; vm_compute; reflexivity. Qed.

(** What the tail of the entry wait does in Open, the timer not having
    been cancelled and a CPU-load monitor being there. *)
Lemma entryDebounceOver_in_open :
  forall (d : State) (env : Env) (m : SysLoadMonitor),
    CCGlobalState_ d = Open ->
    ccEntryDebounceCancelled_ d = false ->
    sysLoadMonitorPtr_ d = Some m ->
    samplesTaken (entryDebounceOver env d) = Some (S (sampleCount m)) /\
    ((sampledLoad env < 25)%Q ->
       CCGlobalState_ (entryDebounceOver env d) = CoreContainment /\
       efficientMode_ (entryDebounceOver env d) = true /\
       sink (entryDebounceOver env d)
       = sink d ++ (if sendHint_ d && negb (efficientMode_ d)
                    then [("EFFICIENT_POWER", true)] else []) /\
       log (entryDebounceOver env d)
       = log d ++ [mkLogLine "EFFICIENT_POWER" 1 "EntryDebounceTimerExpired"
                     (if efficientMode_ d then Unchanged
                      else if sendHint_ d then Sent else NotSending)]) /\
    (~ (sampledLoad env < 25)%Q ->
       CCGlobalState_ (entryDebounceOver env d) = Open /\
       efficientMode_ (entryDebounceOver env d) = efficientMode_ d /\
       log (entryDebounceOver env d) = log d /\
       sink (entryDebounceOver env d) = sink d).
Proof.
  intros d env m Hopen Hnc Hm.
  unfold entryDebounceOver, samplesTaken.
  destruct d; cbn in Hopen, Hnc, Hm |- *; subst.
  unfold getSysCpuLoad; cbn -[Qltb Qlt].
  destruct (Qltb_cases (sampledLoad env) 25) as [[E H] | [E H]]; rewrite E.
  all: unfold sendHintIfAllowed; cbn -[Qlt].
  all: destruct efficientMode_0, sendHint_0; cbn -[Qlt]; rewrite ?app_nil_r.
  all: (split; [reflexivity | split; [intro Hlt | intro Hnlt]]); try tauto.
  all: conjuncts; reflexivity.
Qed.

(** Without a CPU-load monitor the load is [-1.0], which is below 25.0:
    the expiry always enters containment, and no sample is taken. *)
Lemma entryDebounceOver_without_monitor :
  forall (d : State) (env : Env),
    CCGlobalState_ d = Open ->
    ccEntryDebounceCancelled_ d = false ->
    sysLoadMonitorPtr_ d = None ->
    CCGlobalState_ (entryDebounceOver env d) = CoreContainment /\
    samplesTaken (entryDebounceOver env d) = None.
Proof.
  intros d env Hopen Hnc Hm.
  unfold entryDebounceOver, samplesTaken.
  destruct d; cbn in Hopen, Hnc, Hm |- *; subst.
  unfold getSysCpuLoad; cbn -[Qltb].
  change (Qltb (-1) 25) with true. cbn.
  unfold sendHintIfAllowed; cbn.
  destruct efficientMode_0, sendHint_0; split; reflexivity.
Qed.

(** C6 (amended): when the entry wait is over without the timer having
    been cancelled and the state is Open, the coordinator samples the CPU
    load once (the value [SysLoadMonitor::getSysCpuLoad] returns); if the
    sampled load is below 25.0 the state becomes CoreContainment and
    EFFICIENT_POWER=1 is requested at the hint gate, which sends it to the
    sink exactly once when sending is enabled and the cached value is
    false, and sends nothing otherwise; otherwise the state remains Open
    and nothing is sent (log and sink unchanged).  In "wlt" mode with
    sending enabled, along every trace from the started daemon without an
    alert of the CPU-load or of the HFI monitor, the cached value is
    false in Open, so that the hint is sent exactly once and the CPU-load
    sampler is resumed.  (A daemon without a CPU-load monitor, which
    [start] does not produce, takes no sample and always enters
    containment: [getSysCpuLoad] then gives [-1.0].) *)
Theorem C6_entry_debounce_expiry :
  (forall (d : State) (env : Env) (m : SysLoadMonitor),
      CCGlobalState_ d = Open ->
      ccEntryDebounceCancelled_ d = false ->
      sysLoadMonitorPtr_ d = Some m ->
      samplesTaken (entryDebounceOver env d) = Some (S (sampleCount m)) /\
      ((sampledLoad env < 25)%Q ->
         CCGlobalState_ (entryDebounceOver env d) = CoreContainment /\
         efficientMode_ (entryDebounceOver env d) = true /\
         sink (entryDebounceOver env d)
         = sink d ++ (if sendHint_ d && negb (efficientMode_ d)
                      then [("EFFICIENT_POWER", true)] else []) /\
         log (entryDebounceOver env d)
         = log d ++ [mkLogLine "EFFICIENT_POWER" 1 "EntryDebounceTimerExpired"
                       (if efficientMode_ d then Unchanged
                        else if sendHint_ d then Sent else NotSending)]) /\
      (~ (sampledLoad env < 25)%Q ->
         CCGlobalState_ (entryDebounceOver env d) = Open /\
         efficientMode_ (entryDebounceOver env d) = efficientMode_ d /\
         log (entryDebounceOver env d) = log d /\
         sink (entryDebounceOver env d) = sink d)) /\
  (forall (sendGfxHint gfxMode0 gpuInitOk : bool) (es : list Event) (env : Env),
      forallb spikeFree es = true ->
      CCGlobalState_ (run (started true sendGfxHint "wlt" gfxMode0 gpuInitOk) es)
        = Open ->
      ccEntryDebounceCancelled_
        (run (started true sendGfxHint "wlt" gfxMode0 gpuInitOk) es) = false ->
      (sampledLoad env < 25)%Q ->
      CCGlobalState_
        (entryDebounceOver env
           (run (started true sendGfxHint "wlt" gfxMode0 gpuInitOk) es))
        = CoreContainment /\
      sink (entryDebounceOver env
              (run (started true sendGfxHint "wlt" gfxMode0 gpuInitOk) es))
        = sink (run (started true sendGfxHint "wlt" gfxMode0 gpuInitOk) es)
          ++ [("EFFICIENT_POWER", true)] /\
      samplerPaused
        (entryDebounceOver env
           (run (started true sendGfxHint "wlt" gfxMode0 gpuInitOk) es))
        = Some false) /\
  (forall (d : State) (env : Env),
      CCGlobalState_ d = Open ->
      ccEntryDebounceCancelled_ d = false ->
      sysLoadMonitorPtr_ d = None ->
      CCGlobalState_ (entryDebounceOver env d) = CoreContainment /\
      samplesTaken (entryDebounceOver env d) = None).
Proof.
  split; [exact entryDebounceOver_in_open | ].
  split; [ | exact entryDebounceOver_without_monitor].
  intros sendGfxHint gfxMode0 gpuInitOk es env Hfree.
  set (d0 := started true sendGfxHint "wlt" gfxMode0 gpuInitOk).
  assert (Hinv : forall es d,
             forallb spikeFree es = true ->
             socHint_ d = "wlt" /\ hintMirrorsState d /\ samplerFollowsHint d
             /\ sendHint_ d = true ->
             socHint_ (run d es) = "wlt" /\ hintMirrorsState (run d es)
             /\ samplerFollowsHint (run d es) /\ sendHint_ (run d es) = true).
  { clear. induction es as [| e es IH]; intros d Hf H; [exact H | ].
    cbn [forallb] in Hf. apply andb_prop in Hf as [Hf1 Hf2].
    destruct H as (Hs & Hm & Hp & Hsend).
    unfold run in *. cbn [fold_left]. apply IH; [exact Hf2 | ].
    conjuncts.
    - rewrite step_socHint. exact Hs.
    - apply step_mirror; assumption.
    - apply step_sampler. exact Hp.
    - destruct (gateStep_sink d (step d e) (step_gateStep d e))
        as (_ & _ & _ & _ & _ & Hk & _).
      rewrite Hk. exact Hsend. }
  destruct (Hinv es d0 Hfree) as (_ & Hm & Hp & Hsend).
  { unfold d0, started, start, hintMirrorsState, samplerFollowsHint.
    destruct gpuInitOk; conjuncts; reflexivity. }
  set (d := run d0 es) in *.
  intros Hopen Hnc Hlow.
  unfold hintMirrorsState in Hm. rewrite Hopen in Hm. cbn in Hm.
  unfold samplerFollowsHint, samplerPaused in Hp.
  destruct (sysLoadMonitorPtr_ d) as [m |] eqn:Hmon; [ | discriminate].
  destruct (entryDebounceOver_in_open d env m Hopen Hnc Hmon) as (_ & Hin & _).
  destruct (Hin Hlow) as (Hcc & Heff & Hsink & _).
  rewrite Hsend, Hm in Hsink. cbn in Hsink.
  conjuncts; [exact Hcc | exact Hsink | ].
  assert (Hafter : samplerFollowsHint (entryDebounceOver env d))
    by (apply (step_sampler d (EntryDebounceOver env)); unfold samplerFollowsHint,
          samplerPaused; rewrite Hmon; exact Hp).
  unfold samplerFollowsHint in Hafter. rewrite Hafter, Heff. reflexivity.
Qed.

(** The freshly armed daemon under a sampled load of 10% (the EMA read
    without sampling holding 90%): containment is entered, the hint is
    sent once, and one sample has been taken. *)
Lemma C6_entry_debounce_expiry_witness :
  (sampledLoad lightNow < 25)%Q /\
  ~ (latestLoad lightNow < 25)%Q /\
  CCGlobalState_ (entryDebounceOver lightNow idlingDaemon) = CoreContainment /\
  sink (entryDebounceOver lightNow idlingDaemon) = [("EFFICIENT_POWER", true)] /\
  samplesTaken (entryDebounceOver lightNow idlingDaemon) = Some 1%nat.
Proof.
  assert (H1 : CCGlobalState_ idlingDaemon = Open) by (vm_compute; reflexivity).
  assert (H2 : ccEntryDebounceCancelled_ idlingDaemon = false)
    by (vm_compute; reflexivity).
  assert (H3 : sysLoadMonitorPtr_ idlingDaemon = Some (mkSysLoadMonitor true 0))
    by (vm_compute; reflexivity).
  assert (H4 : (sampledLoad lightNow < 25)%Q) by (vm_compute; reflexivity).
  assert (H5 : ~ (latestLoad lightNow < 25)%Q) by (vm_compute; discriminate).
  destruct (proj1 C6_entry_debounce_expiry idlingDaemon lightNow _ H1 H2 H3)
    as (Hsamples & Hlow & _).
  destruct (Hlow H4) as (Hcc & _ & Hsink & _).
  conjuncts; assumption.
Defined.

(** ** Expiry of the exit debounce timer (C7) *)

(** What the tail of the exit wait does in containment, the timer not
    having been cancelled and a CPU-load monitor being there. *)
Lemma exitDebounceOver_in_containment :
  forall (d : State) (env : Env) (m : SysLoadMonitor),
    CCGlobalState_ d = CoreContainment ->
    ccExitDebounceCancelled_ d = false ->
    sysLoadMonitorPtr_ d = Some m ->
    samplesTaken (exitDebounceOver env d) = Some (S (sampleCount m)) /\
    ((kSysloadSlopeThreshold
        < CLib.fsub (sampledLoad env) (latestSysCpuLoadCC_ d))%Q ->
       CCGlobalState_ (exitDebounceOver env d) = Open /\
       efficientMode_ (exitDebounceOver env d) = false /\
       ccExitDebounceActive_ (exitDebounceOver env d) = false /\
       sink (exitDebounceOver env d)
       = sink d ++ (if sendHint_ d && efficientMode_ d
                    then [("EFFICIENT_POWER", false)] else []) /\
       log (exitDebounceOver env d)
       = log d ++ [mkLogLine "EFFICIENT_POWER" 0 "ExitDebounceTimerExpired"
                     (if efficientMode_ d
                      then if sendHint_ d then Sent else NotSending
                      else Unchanged)] /\
       (kSysloadSlopeThreshold < sampledLoad env - latestSysCpuLoadCC_ d)%Q) /\
    (~ (kSysloadSlopeThreshold
          < CLib.fsub (sampledLoad env) (latestSysCpuLoadCC_ d))%Q ->
       CCGlobalState_ (exitDebounceOver env d) = CoreContainment /\
       ccExitDebounceActive_ (exitDebounceOver env d) = true /\
       ccExitDebounceCancelled_ (exitDebounceOver env d) = false /\
       ccExitDebounceMs_ (exitDebounceOver env d) = 5000 /\
       efficientMode_ (exitDebounceOver env d) = efficientMode_ d /\
       log (exitDebounceOver env d) = log d /\
       sink (exitDebounceOver env d) = sink d).
Proof.
  intros d env m Hcc Hnc Hm.
  unfold exitDebounceOver, samplesTaken.
  destruct d; cbn in Hcc, Hnc, Hm |- *; subst.
  unfold getSysCpuLoad; cbn -[Qltb Qlt Qminus CLib.fsub].
  pose proof (fsub_above_threshold (sampledLoad env) latestSysCpuLoadCC_0)
    as Hexact.
  destruct (Qltb_cases kSysloadSlopeThreshold
              (CLib.fsub (sampledLoad env) latestSysCpuLoadCC_0))
    as [[E H] | [E H]]; rewrite E in Hexact |- *.
  all: unfold sendHintIfAllowed; cbn -[Qlt Qminus CLib.fsub].
  all: destruct efficientMode_0, sendHint_0; cbn -[Qlt Qminus CLib.fsub];
    rewrite ?app_nil_r.
  all: (split; [reflexivity | split; [intro Hlt | intro Hnlt]]); try tauto.
  all: conjuncts; try reflexivity; exact (Hexact eq_refl).
Qed.

(** Without a CPU-load monitor the load is [-1.0] and no sample is
    taken. *)
Lemma exitDebounceOver_without_monitor :
  forall (d : State) (env : Env),
    CCGlobalState_ d = CoreContainment ->
    ccExitDebounceCancelled_ d = false ->
    sysLoadMonitorPtr_ d = None ->
    samplesTaken (exitDebounceOver env d) = None /\
    ((kSysloadSlopeThreshold < CLib.fsub (-1) (latestSysCpuLoadCC_ d))%Q ->
       CCGlobalState_ (exitDebounceOver env d) = Open) /\
    (~ (kSysloadSlopeThreshold < CLib.fsub (-1) (latestSysCpuLoadCC_ d))%Q ->
       CCGlobalState_ (exitDebounceOver env d) = CoreContainment /\
       ccExitDebounceMs_ (exitDebounceOver env d) = 5000).
Proof.
  intros d env Hcc Hnc Hm.
  unfold exitDebounceOver, samplesTaken.
  destruct d; cbn in Hcc, Hnc, Hm |- *; subst.
  unfold getSysCpuLoad; cbn -[Qltb Qlt Qminus CLib.fsub].
  destruct (Qltb_cases kSysloadSlopeThreshold (CLib.fsub (-1) latestSysCpuLoadCC_0))
    as [[E H] | [E H]]; rewrite E.
  all: unfold sendHintIfAllowed; cbn -[Qlt Qminus CLib.fsub].
  all: destruct efficientMode_0, sendHint_0; cbn -[Qlt Qminus CLib.fsub].
  all: (split; [reflexivity | split; [intro Hlt | intro Hnlt]]); try tauto.
  all: try reflexivity; split; reflexivity.
Qed.

(** In "wlt" mode, without alerts of the HFI monitor, a daemon in
    containment holds the cached value true. *)
Lemma step_containedHasHint :
  forall d e,
    socHint_ d = "wlt" -> notHfi e = true ->
    containedHasHint d -> containedHasHint (step d e).
Proof.
  intros d e Hs Hfree Hinv. unfold containedHasHint in *.
  destruct e as [name oldValue newValue env | | env | env]; cbn [step].
  - cbn [notHfi] in Hfree. apply negb_true_iff in Hfree.
    destruct (handleChangeAlert_cases name oldValue newValue env d)
      as [[-> H] | [[-> H] | [[-> H] | [[-> H] | (_ & _ & _ & _ & H)]]]];
      try discriminate; rewrite H.
    + pose proof (onWltMonitor_hintSide oldValue newValue env d Hs) as Hf.
      unfold hintSide in Hf. injection Hf as _ _ _ He _ Hc _ _ _.
      rewrite He, Hc. exact Hinv.
    + unfold onSysLoadMonitor.
      destruct (negb (CCGlobalState_eqb (CCGlobalState_ d) CoreContainment)).
      * rewrite (proj1 (sendHintIfAllowed_frame _ _ _)). cbn. discriminate.
      * cbn. discriminate.
    + unfold onGpuRc6Monitor.
      destruct (newValue =? 1);
        [destruct (sendGfxHintIfAllowed_frame 1 "High GPU load detected" d)
           as (Hc & _ & _ & He & _)
        |destruct (sendGfxHintIfAllowed_frame 0 "Low GPU load detected" d)
           as (Hc & _ & _ & He & _)];
        rewrite He, Hc; exact Hinv.
    + exact Hinv.
  - exact Hinv.
  - destruct (sampledAfter_mirror env (set_ccEntryDebounceActive_ false d))
      as (He & Hc & _).
    destruct (entryDebounceOver_shape env d) as [H | [H | [[Hst H] | [Hst H]]]];
      rewrite H.
    + exact Hinv.
    + rewrite He, Hc. exact Hinv.
    + intros _. cbn [efficientMode_ set_CCGlobalState_]. rewrite He.
      apply Hinv. exact Hst.
    + intros _.
      destruct (sendHintIfAllowed_frame 1 "EntryDebounceTimerExpired"
                  (set_CCGlobalState_ CoreContainment
                     (sampledAfter env (set_ccEntryDebounceActive_ false d))))
        as (_ & _ & _ & _ & He').
      exact He'.
  - destruct (sampledAfter_mirror env (set_ccExitDebounceActive_ false d))
      as (He & Hc & _).
    destruct (exitDebounceOver_shape env d) as [H | [H | [[Hst H] | H]]];
      rewrite H.
    + exact Hinv.
    + exact Hinv.
    + rewrite (proj1 (sendHintIfAllowed_frame _ _ _)). cbn. discriminate.
    + change (CCGlobalState_ (sampledAfter env (set_ccExitDebounceActive_ false d))
              = CoreContainment ->
              efficientMode_ (sampledAfter env (set_ccExitDebounceActive_ false d))
              = true).
      rewrite He, Hc. exact Hinv.
Qed.

(** C7 (amended): when the exit wait is over without the timer having been
    cancelled and the state is CoreContainment, the coordinator takes one
    load sample and computes, in double arithmetic, slope = sampled load
    - latestSysCpuLoadCC_: the snapshot taken from the latest EMA when WLT
    changes from Idle/Btl to Sustain/Bursty in containment, 0.0 at
    start, which the expiry of the entry timer does not write.  If slope >
    5.0 (and then the exact difference is above 5.0 as well) the state
    becomes Open and EFFICIENT_POWER=0 is requested at the hint gate,
    which sends it to the sink exactly once when sending is enabled and
    the cached value is true; otherwise the exit timer is armed again with
    5000 ms, nothing is sent (log and sink unchanged) and the state stays
    CoreContainment.  In "wlt" mode with sending enabled, along every
    trace from the started daemon without an alert of the HFI monitor, the
    cached value is true in containment, so that EFFICIENT_POWER=0 is sent
    exactly once.  (A daemon without a CPU-load monitor, which [start]
    does not produce, takes no sample and computes the slope from
    [-1.0].) *)
Theorem C7_exit_debounce_expiry :
  (forall (d : State) (env : Env) (m : SysLoadMonitor),
      CCGlobalState_ d = CoreContainment ->
      ccExitDebounceCancelled_ d = false ->
      sysLoadMonitorPtr_ d = Some m ->
      samplesTaken (exitDebounceOver env d) = Some (S (sampleCount m)) /\
      ((kSysloadSlopeThreshold
          < CLib.fsub (sampledLoad env) (latestSysCpuLoadCC_ d))%Q ->
         CCGlobalState_ (exitDebounceOver env d) = Open /\
         efficientMode_ (exitDebounceOver env d) = false /\
         ccExitDebounceActive_ (exitDebounceOver env d) = false /\
         sink (exitDebounceOver env d)
         = sink d ++ (if sendHint_ d && efficientMode_ d
                      then [("EFFICIENT_POWER", false)] else []) /\
         log (exitDebounceOver env d)
         = log d ++ [mkLogLine "EFFICIENT_POWER" 0 "ExitDebounceTimerExpired"
                       (if efficientMode_ d
                        then if sendHint_ d then Sent else NotSending
                        else Unchanged)] /\
         (kSysloadSlopeThreshold < sampledLoad env - latestSysCpuLoadCC_ d)%Q) /\
      (~ (kSysloadSlopeThreshold
            < CLib.fsub (sampledLoad env) (latestSysCpuLoadCC_ d))%Q ->
         CCGlobalState_ (exitDebounceOver env d) = CoreContainment /\
         ccExitDebounceActive_ (exitDebounceOver env d) = true /\
         ccExitDebounceCancelled_ (exitDebounceOver env d) = false /\
         ccExitDebounceMs_ (exitDebounceOver env d) = 5000 /\
         efficientMode_ (exitDebounceOver env d) = efficientMode_ d /\
         log (exitDebounceOver env d) = log d /\
         sink (exitDebounceOver env d) = sink d)) /\
  (forall (sendGfxHint gfxMode0 gpuInitOk : bool) (es : list Event) (env : Env),
      forallb notHfi es = true ->
      CCGlobalState_ (run (started true sendGfxHint "wlt" gfxMode0 gpuInitOk) es)
        = CoreContainment ->
      ccExitDebounceCancelled_
        (run (started true sendGfxHint "wlt" gfxMode0 gpuInitOk) es) = false ->
      (kSysloadSlopeThreshold
         < CLib.fsub (sampledLoad env)
             (latestSysCpuLoadCC_
                (run (started true sendGfxHint "wlt" gfxMode0 gpuInitOk) es)))%Q ->
      CCGlobalState_
        (exitDebounceOver env
           (run (started true sendGfxHint "wlt" gfxMode0 gpuInitOk) es))
        = Open /\
      sink (exitDebounceOver env
              (run (started true sendGfxHint "wlt" gfxMode0 gpuInitOk) es))
        = sink (run (started true sendGfxHint "wlt" gfxMode0 gpuInitOk) es)
          ++ [("EFFICIENT_POWER", false)]) /\
  (forall (d : State) (oldValue newValue : Z) (env : Env),
      socHint_ d = "wlt" ->
      CCGlobalState_ d = CoreContainment ->
      isIdleOrBtl (wltOfInt oldValue) = true ->
      isSustainOrBursty (wltOfInt newValue) = true ->
      latestSysCpuLoadCC_ (handleChangeAlert "WltMonitor" oldValue newValue env d)
      = getLatestSysCpuLoad env d) /\
  (forall (d : State) (env : Env),
      latestSysCpuLoadCC_ (entryDebounceOver env d) = latestSysCpuLoadCC_ d) /\
  (forall (sendHint sendGfxHint : bool) (socHint : string)
          (gfxMode0 gpuInitOk : bool),
      latestSysCpuLoadCC_ (started sendHint sendGfxHint socHint gfxMode0 gpuInitOk)
      = 0%Q) /\
  (forall (d : State) (env : Env),
      CCGlobalState_ d = CoreContainment ->
      ccExitDebounceCancelled_ d = false ->
      sysLoadMonitorPtr_ d = None ->
      samplesTaken (exitDebounceOver env d) = None /\
      ((kSysloadSlopeThreshold < CLib.fsub (-1) (latestSysCpuLoadCC_ d))%Q ->
         CCGlobalState_ (exitDebounceOver env d) = Open) /\
      (~ (kSysloadSlopeThreshold < CLib.fsub (-1) (latestSysCpuLoadCC_ d))%Q ->
         CCGlobalState_ (exitDebounceOver env d) = CoreContainment /\
         ccExitDebounceMs_ (exitDebounceOver env d) = 5000)).
Proof.
  split; [exact exitDebounceOver_in_containment | ].
  split; [ | split; [exact latestSysCpuLoadCC_written_on_wlt_change | split;
             [exact latestSysCpuLoadCC_kept_by_entry_expiry | split;
               [ | exact exitDebounceOver_without_monitor]]]].
  - intros sendGfxHint gfxMode0 gpuInitOk es env Hfree.
    set (d0 := started true sendGfxHint "wlt" gfxMode0 gpuInitOk).
    assert (Hinv : forall es d,
               forallb notHfi es = true ->
               socHint_ d = "wlt" /\ containedHasHint d /\ samplerFollowsHint d
               /\ sendHint_ d = true ->
               socHint_ (run d es) = "wlt" /\ containedHasHint (run d es)
               /\ samplerFollowsHint (run d es) /\ sendHint_ (run d es) = true).
    { clear. induction es as [| e es IH]; intros d Hf H; [exact H | ].
      cbn [forallb] in Hf. apply andb_prop in Hf as [Hf1 Hf2].
      destruct H as (Hs & Hm & Hp & Hsend).
      unfold run in *. cbn [fold_left]. apply IH; [exact Hf2 | ].
      conjuncts.
      - rewrite step_socHint. exact Hs.
      - apply step_containedHasHint; assumption.
      - apply step_sampler. exact Hp.
      - destruct (gateStep_sink d (step d e) (step_gateStep d e))
          as (_ & _ & _ & _ & _ & Hk & _).
        rewrite Hk. exact Hsend. }
    destruct (Hinv es d0 Hfree) as (_ & Hm & Hp & Hsend).
    { unfold d0, started, start, containedHasHint, samplerFollowsHint.
      destruct gpuInitOk; conjuncts; try reflexivity; discriminate. }
    set (d := run d0 es) in *.
    intros Hcc Hnc Hslope.
    unfold samplerFollowsHint, samplerPaused in Hp.
    destruct (sysLoadMonitorPtr_ d) as [m |] eqn:Hmon; [ | discriminate].
    destruct (exitDebounceOver_in_containment d env m Hcc Hnc Hmon)
      as (_ & Hin & _).
    destruct (Hin Hslope) as (Hopen & _ & _ & Hsink & _).
    rewrite Hsend, (Hm Hcc) in Hsink. cbn in Hsink.
    split; assumption.
  - intros sendHint sendGfxHint socHint gfxMode0 gpuInitOk.
    unfold started, start. destruct gpuInitOk; reflexivity.
Qed.

(** In containment with the snapshot at the double 0.03: a sample at the
    double 5.03 gives the slope 5.0 in double arithmetic, although the
    exact difference is above 5, and the exit timer is armed again; a
    sample at 12 gives a slope above 5.0 and opens, sending
    EFFICIENT_POWER=0. *)
Lemma C7_exit_debounce_expiry_witness :
  latestSysCpuLoadCC_ containedAt0_03 = double_0_03 /\
  (kSysloadSlopeThreshold
     < sampledLoad sampledAt5_03 - latestSysCpuLoadCC_ containedAt0_03)%Q /\
  ~ (kSysloadSlopeThreshold
       < CLib.fsub (sampledLoad sampledAt5_03)
           (latestSysCpuLoadCC_ containedAt0_03))%Q /\
  CCGlobalState_ (exitDebounceOver sampledAt5_03 containedAt0_03)
    = CoreContainment /\
  ccExitDebounceMs_ (exitDebounceOver sampledAt5_03 containedAt0_03) = 5000 /\
  CCGlobalState_ (exitDebounceOver atTwelve containedAt0_03) = Open /\
  sink (exitDebounceOver atTwelve containedAt0_03)
    = [("EFFICIENT_POWER", true); ("EFFICIENT_POWER", false)].
Proof.
  assert (H0 : latestSysCpuLoadCC_ containedAt0_03 = double_0_03)
    by (vm_compute; reflexivity).
  assert (H1 : CCGlobalState_ containedAt0_03 = CoreContainment)
    by (vm_compute; reflexivity).
  assert (H2 : ccExitDebounceCancelled_ containedAt0_03 = false)
    by (vm_compute; reflexivity).
  assert (H3 : sysLoadMonitorPtr_ containedAt0_03
               = Some (mkSysLoadMonitor false 2))
    by (vm_compute; reflexivity).
  assert (H4 : (kSysloadSlopeThreshold
                  < sampledLoad sampledAt5_03
                    - latestSysCpuLoadCC_ containedAt0_03)%Q)
    by (vm_compute; reflexivity).
  assert (H5 : ~ (kSysloadSlopeThreshold
                    < CLib.fsub (sampledLoad sampledAt5_03)
                        (latestSysCpuLoadCC_ containedAt0_03))%Q)
    by (vm_compute; discriminate).
  assert (H6 : (kSysloadSlopeThreshold
                  < CLib.fsub (sampledLoad atTwelve)
                      (latestSysCpuLoadCC_ containedAt0_03))%Q)
    by (vm_compute; reflexivity).
  assert (H7 : sink containedAt0_03 = [("EFFICIENT_POWER", true)])
    by (vm_compute; reflexivity).
  destruct (proj1 C7_exit_debounce_expiry containedAt0_03 sampledAt5_03 _ H1 H2 H3)
    as (_ & _ & Hflat).
  destruct (Hflat H5) as (Hcc & _ & _ & Hms & _).
  destruct (proj1 C7_exit_debounce_expiry containedAt0_03 atTwelve _ H1 H2 H3)
    as (_ & Hsteep & _).
  destruct (Hsteep H6) as (Hopen & _ & _ & Hsink & _).
  rewrite H7 in Hsink.
  conjuncts; assumption.
Defined.

End DebounceExpiry.

(* ================================================================== *)
(** * Properties of the sysfs loops over several passes *)

Section MonitorLoopRuns.

Import MonitorLoops.

(** ** Cutting a reading at the newline *)

Lemma upToNewline_oneLine : forall s, oneLine (CLib.upToNewline s) = true.
Proof.
  induction s as [| c s IH]; [reflexivity | ].
  cbn [CLib.upToNewline].
  destruct (Ascii.eqb c "010" || Ascii.eqb c "000")%bool eqn:E; [reflexivity | ].
  cbn [oneLine]. unfold endsValue. rewrite E. exact IH.
Qed.

Lemma upToNewline_cut :
  forall s c t,
    oneLine s = true -> endsValue c = true ->
    CLib.upToNewline (String.append s (String c t)) = s.
Proof.
  induction s as [| a s IH]; intros c t Hs Hc.
  - cbn. unfold endsValue in Hc. rewrite Hc. reflexivity.
  - cbn [oneLine] in Hs. apply andb_prop in Hs as [Ha Hs].
    apply negb_true_iff in Ha. unfold endsValue in Ha.
    cbn [String.append CLib.upToNewline]. rewrite Ha.
    rewrite (IH c t Hs Hc). reflexivity.
Qed.

Lemma upToNewline_whole :
  forall s, oneLine s = true -> CLib.upToNewline s = s.
Proof.
  induction s as [| a s IH]; intro Hs; [reflexivity | ].
  cbn [oneLine] in Hs. apply andb_prop in Hs as [Ha Hs].
  apply negb_true_iff in Ha. unfold endsValue in Ha.
  cbn [CLib.upToNewline]. rewrite Ha, (IH Hs). reflexivity.
Qed.

(** X12: what [readValue] hands to the loops is the text before the first
    newline or NUL of the bytes read: it contains neither character; a
    reading [s ++ c ++ t], with [s] free of them and [c] one of them,
    gives [s]; a reading free of them is taken whole; and when [read]
    fails the caller's string is left as it was and the error is
    logged.  The GPU monitor's [readValue] does the same. *)
Theorem readValue_cuts_at_first_newline :
  (forall bytes value_out,
      oneLine (fst (WltMonitor.readValue (Some bytes) value_out)) = true) /\
  (forall s c t value_out,
      oneLine s = true -> endsValue c = true ->
      WltMonitor.readValue (Some (String.append s (String c t))) value_out
      = (s, [])) /\
  (forall s value_out,
      oneLine s = true -> WltMonitor.readValue (Some s) value_out = (s, [])) /\
  (forall value_out,
      WltMonitor.readValue None value_out = (value_out, [WltMonitor.LogReadError])) /\
  (forall bytes value_out,
      fst (GpuRc6Monitor.readValue bytes value_out)
      = fst (WltMonitor.readValue bytes value_out)).
Proof.
  conjuncts.
  - intros bytes value_out. apply upToNewline_oneLine.
  - intros s c t value_out Hs Hc. cbn [WltMonitor.readValue].
    rewrite (upToNewline_cut s c t Hs Hc). reflexivity.
  - intros s value_out Hs. cbn [WltMonitor.readValue].
    rewrite (upToNewline_whole s Hs). reflexivity.
  - reflexivity.
  - intros [b |] value_out; reflexivity.
Qed.

Lemma readValue_cuts_at_first_newline_witness :
  WltMonitor.readValue (Some (String.append "3" (String "010"%char "junk"))) "2"
  = ("3", []).
Proof.
  assert (H1 : oneLine "3" = true) by reflexivity.
  assert (H2 : endsValue "010"%char = true) by reflexivity.
  exact (proj1 (proj2 readValue_cuts_at_first_newline) "3" "010"%char "junk" "2" H1 H2).
Defined.

(** ** Passes of the WLT loop *)

Lemma WltMonitor_iteration_changed :
  forall (bytes : option string) (l : WltMonitor.Loop),
    fst (WltMonitor.readValue bytes (WltMonitor.current_value l))
      <> WltMonitor.previous_value l ->
    WltMonitor.alert (WltMonitor.iteration bytes l)
    = Some (CLib.strtolInt (WltMonitor.previous_value l),
            CLib.strtolInt
              (fst (WltMonitor.readValue bytes (WltMonitor.current_value l)))) /\
    WltMonitor.loop (WltMonitor.iteration bytes l)
    = WltMonitor.mkLoop
        (fst (WltMonitor.readValue bytes (WltMonitor.current_value l)))
        (fst (WltMonitor.readValue bytes (WltMonitor.current_value l))).
Proof.
  intros bytes l Hne. unfold WltMonitor.iteration.
  destruct (WltMonitor.readValue bytes (WltMonitor.current_value l))
    as [current rdlog].
  cbn [fst] in Hne |- *.
  apply String.eqb_neq in Hne. rewrite Hne. cbn [negb]. split; reflexivity.
Qed.

Lemma WltMonitor_iteration_unchanged :
  forall (bytes : option string) (l : WltMonitor.Loop),
    fst (WltMonitor.readValue bytes (WltMonitor.current_value l))
      = WltMonitor.previous_value l ->
    WltMonitor.alert (WltMonitor.iteration bytes l) = None /\
    WltMonitor.loop (WltMonitor.iteration bytes l)
    = WltMonitor.mkLoop (WltMonitor.previous_value l) (WltMonitor.previous_value l).
Proof.
  intros bytes l Heq. unfold WltMonitor.iteration.
  destruct (WltMonitor.readValue bytes (WltMonitor.current_value l))
    as [current rdlog].
  cbn [fst] in Heq. subst current. rewrite String.eqb_refl. split; reflexivity.
Qed.

(** After any pass the two strings of the loop are equal. *)
Lemma WltMonitor_iteration_settles :
  forall bytes l,
    WltMonitor.previous_value (WltMonitor.loop (WltMonitor.iteration bytes l))
    = WltMonitor.current_value (WltMonitor.loop (WltMonitor.iteration bytes l)).
Proof.
  intros bytes l.
  destruct (string_dec
              (fst (WltMonitor.readValue bytes (WltMonitor.current_value l)))
              (WltMonitor.previous_value l)) as [Heq | Hne].
  - destruct (WltMonitor_iteration_unchanged bytes l Heq) as [_ ->]. reflexivity.
  - destruct (WltMonitor_iteration_changed bytes l Hne) as [_ ->]. reflexivity.
Qed.

(** X13: after any pass of the WLT loop, only a reading whose text is new
    alerts.  Whatever the first pass read and from whatever locals, in
    the pass after it a failed [read] dispatches no alert (it only logs
    the read error), a reading with the same text as the one before
    dispatches none, and a reading with another text dispatches exactly
    the alert (old, new) of the two converted values, even when the two
    integers are equal. *)
Theorem wlt_loop_alerts_on_new_text_only :
  forall (first : option string) (l : WltMonitor.Loop),
    let l1 := WltMonitor.loop (WltMonitor.iteration first l) in
    WltMonitor.previous_value l1 = WltMonitor.current_value l1 /\
    WltMonitor.alert (WltMonitor.iteration None l1) = None /\
    WltMonitor.logged (WltMonitor.iteration None l1) = [WltMonitor.LogReadError] /\
    (forall bytes,
        CLib.upToNewline bytes = WltMonitor.current_value l1 ->
        WltMonitor.alert (WltMonitor.iteration (Some bytes) l1) = None) /\
    (forall bytes,
        CLib.upToNewline bytes <> WltMonitor.current_value l1 ->
        WltMonitor.alert (WltMonitor.iteration (Some bytes) l1)
        = Some (CLib.strtolInt (WltMonitor.current_value l1),
                CLib.strtolInt (CLib.upToNewline bytes))).
Proof.
  intros first l l1.
  pose proof (WltMonitor_iteration_settles first l) as Hset. fold l1 in Hset.
  conjuncts.
  - exact Hset.
  - apply WltMonitor_iteration_unchanged. cbn. symmetry. exact Hset.
  - unfold WltMonitor.iteration. cbn [WltMonitor.readValue].
    rewrite Hset, String.eqb_refl. reflexivity.
  - intros bytes Heq. apply WltMonitor_iteration_unchanged. cbn [WltMonitor.readValue fst].
    rewrite Hset. exact Heq.
  - intros bytes Hne.
    destruct (WltMonitor_iteration_changed (Some bytes) l1) as [Ha _].
    + cbn [WltMonitor.readValue fst]. rewrite Hset. exact Hne.
    + rewrite Ha, Hset. reflexivity.
Qed.

Lemma wlt_loop_alerts_on_new_text_only_witness :
  WltMonitor.alert
    (WltMonitor.iteration (Some (String.append " 2" CLib.lf))
       (WltMonitor.loop
          (WltMonitor.iteration (Some (String.append "2" CLib.lf))
             (WltMonitor.mkLoop "" ""))))
  = Some (2, 2).
Proof.
  assert (H : CLib.upToNewline (String.append " 2" CLib.lf)
              <> WltMonitor.current_value
                   (WltMonitor.loop
                      (WltMonitor.iteration (Some (String.append "2" CLib.lf))
                         (WltMonitor.mkLoop "" ""))))
    by (vm_compute; discriminate).
  destruct (wlt_loop_alerts_on_new_text_only (Some (String.append "2" CLib.lf))
              (WltMonitor.mkLoop "" "")) as (_ & _ & _ & _ & Hnew).
  rewrite (Hnew _ H). vm_compute. reflexivity.
Defined.

Lemma wltPasses_chained :
  forall reads l,
    chained (CLib.strtolInt (WltMonitor.previous_value l)) (fst (wltPasses reads l)).
Proof.
  induction reads as [| bytes rest IH]; intro l; [exact I | ].
  cbn [wltPasses].
  pose proof (IH (WltMonitor.loop (WltMonitor.iteration bytes l))) as Hrest.
  destruct (wltPasses rest (WltMonitor.loop (WltMonitor.iteration bytes l)))
    as [alerts l'].
  cbn [fst] in Hrest |- *.
  destruct (string_dec
              (fst (WltMonitor.readValue bytes (WltMonitor.current_value l)))
              (WltMonitor.previous_value l)) as [Heq | Hne].
  - destruct (WltMonitor_iteration_unchanged bytes l Heq) as [Ha Hl].
    rewrite Ha. rewrite Hl in Hrest. exact Hrest.
  - destruct (WltMonitor_iteration_changed bytes l Hne) as [Ha Hl].
    rewrite Ha. rewrite Hl in Hrest. cbn [chained]. split; [reflexivity | exact Hrest].
Qed.

(** X14: the alerts of the WLT loop form a chain.  Whatever the initial
    read and the reads of the passes give, the first alert carries 0 as
    its old value (the conversion of the empty [previous_value]), each
    later alert carries as its old value the new value of the alert
    before it, and there are at most as many alerts as passes. *)
Theorem wlt_alerts_are_chained_from_zero :
  forall (initial : option string) (reads : list (option string)),
    chained 0 (fst (wltMonitorLoop initial reads)) /\
    (List.length (fst (wltMonitorLoop initial reads)) <= List.length reads)%nat.
Proof.
  intros initial reads. split.
  - apply (wltPasses_chained reads
             (WltMonitor.mkLoop (fst (WltMonitor.readValue initial "")) "")).
  - unfold wltMonitorLoop.
    generalize (WltMonitor.mkLoop (fst (WltMonitor.readValue initial "")) "").
    induction reads as [| bytes rest IH]; intro l; [apply le_n | ].
    cbn [wltPasses].
    specialize (IH (WltMonitor.loop (WltMonitor.iteration bytes l))).
    destruct (wltPasses rest (WltMonitor.loop (WltMonitor.iteration bytes l)))
      as [alerts l'].
    cbn [fst List.length] in IH |- *.
    destruct (WltMonitor.alert (WltMonitor.iteration bytes l)); cbn [List.length]; lia.
Qed.

(** ** Decimal text and [strtol] *)

Lemma uintValue_of_uint_acc :
  forall d acc, uintValue d (Z.pos acc) = Z.pos (Pos.of_uint_acc d acc).
Proof.
  induction d; intro acc; cbn [uintValue Pos.of_uint_acc];
    try reflexivity;
    match goal with
    | |- uintValue _ ?a = Z.pos (Pos.of_uint_acc _ ?b) =>
        replace a with (Z.pos b) by lia
    end;
    apply IHd.
Qed.

Lemma uintValue_of_uint :
  forall d, uintValue d 0 = Z.of_N (Pos.of_uint d).
Proof.
  induction d; cbn [uintValue Pos.of_uint];
    try reflexivity;
    try (exact IHd);
    match goal with
    | |- uintValue _ ?a = _ =>
        let p := eval cbv in (Z.to_pos a) in
        change a with (Z.pos p)
    end;
    apply uintValue_of_uint_acc.
Qed.

Lemma readDigits_string_of_uint :
  forall d acc,
    CLib.readDigits (DecimalString.NilEmpty.string_of_uint d) acc
    = (uintValue d acc, String.length (DecimalString.NilEmpty.string_of_uint d)).
Proof.
  induction d; intro acc;
    cbn [DecimalString.NilEmpty.string_of_uint CLib.readDigits uintValue String.length];
    try reflexivity;
    change (CLib.isdigit _) with true; cbv iota;
    rewrite IHd; reflexivity.
Qed.
Lemma strtol_unsigned :
  forall c s,
    CLib.isdigit c = true ->
    CLib.strtol (String c s)
    = (Z.max CLib.LONG_MIN
         (Z.min CLib.LONG_MAX (fst (CLib.readDigits (String c s) 0))),
       snd (CLib.readDigits (String c s) 0)) /\
    CLib.strtol (String "-" (String c s))
    = (Z.max CLib.LONG_MIN
         (Z.min CLib.LONG_MAX (- fst (CLib.readDigits (String c s) 0))),
       S (snd (CLib.readDigits (String c s) 0))).
Proof.
  intros c s Hc.
  destruct c as [[] [] [] [] [] [] [] []]; try discriminate Hc;
    unfold CLib.strtol;
    cbn [CLib.dropSpaces];
    change (CLib.isspace _) with false; cbv iota;
    cbn [CLib.takeSign CLib.readDigits];
    change (CLib.isdigit _) with true; cbv iota;
    destruct (CLib.readDigits s _) as [v n]; split; reflexivity.
Qed.

Lemma string_of_uint_digit :
  forall d, d <> Decimal.Nil ->
    exists c s, DecimalString.NilEmpty.string_of_uint d = String c s /\
                CLib.isdigit c = true.
Proof.
  intros d Hd. destruct d; [contradiction | ..];
    cbn [DecimalString.NilEmpty.string_of_uint]; eexists; eexists;
    split; reflexivity.
Qed.

Lemma string_of_uint_oneLine :
  forall d, oneLine (DecimalString.NilEmpty.string_of_uint d) = true.
Proof.
  induction d; cbn [DecimalString.NilEmpty.string_of_uint oneLine];
    try reflexivity; rewrite IHd; reflexivity.
Qed.

Lemma to_string_digits :
  forall p,
    to_string (Z.pos p) = DecimalString.NilEmpty.string_of_uint (Pos.to_uint p) /\
    to_string (Z.neg p)
    = String "-" (DecimalString.NilEmpty.string_of_uint (Pos.to_uint p)).
Proof.
  intro p. unfold to_string. cbn [Z.to_int DecimalString.NilZero.string_of_int].
  pose proof (DecimalPos.Unsigned.to_uint_nonnil p) as Hn.
  unfold DecimalString.NilZero.string_of_uint.
  destruct (Pos.to_uint p); [contradiction | ..]; split; reflexivity.
Qed.

(** [strtol] reads back what [to_string] prints, and consumes it all. *)
Lemma strtol_to_string :
  forall n,
    CLib.LONG_MIN <= n <= CLib.LONG_MAX ->
    CLib.strtol (to_string n) = (n, String.length (to_string n)) /\
    (0 < String.length (to_string n))%nat.
Proof.
  intros n Hn. destruct n as [| p | p].
  - split; [reflexivity | cbn; lia].
  - destruct (to_string_digits p) as [-> _].
    pose proof (DecimalPos.Unsigned.to_uint_nonnil p) as Hnil.
    destruct (string_of_uint_digit _ Hnil) as (c & s & Hs & Hc).
    destruct (strtol_unsigned c s Hc) as [H _].
    rewrite <- Hs in H. rewrite H, readDigits_string_of_uint. cbn [fst snd].
    rewrite uintValue_of_uint, DecimalPos.Unsigned.of_to. cbn [Z.of_N].
    split; [f_equal; lia | rewrite Hs; cbn; lia].
  - destruct (to_string_digits p) as [_ ->].
    pose proof (DecimalPos.Unsigned.to_uint_nonnil p) as Hnil.
    destruct (string_of_uint_digit _ Hnil) as (c & s & Hs & Hc).
    destruct (strtol_unsigned c s Hc) as [_ H].
    rewrite <- Hs in H. rewrite H, readDigits_string_of_uint. cbn [fst snd].
    rewrite uintValue_of_uint, DecimalPos.Unsigned.of_to. cbn [Z.of_N String.length].
    split; [f_equal; lia | lia].
Qed.

Lemma to_string_oneLine : forall n, oneLine (to_string n) = true.
Proof.
  intros [| p | p].
  - reflexivity.
  - destruct (to_string_digits p) as [-> _]. apply string_of_uint_oneLine.
  - destruct (to_string_digits p) as [_ ->]. cbn [oneLine].
    rewrite string_of_uint_oneLine. reflexivity.
Qed.

Lemma round_trip_parts :
  forall n : Z,
    - 2 ^ 31 <= n < 2 ^ 31 ->
    CLib.upToNewline (delayStr n) = to_string n /\
    CLib.strtolInt (to_string n) = n /\
    (0 < String.length (to_string n))%nat.
Proof.
  intros n Hn.
  assert (Hlong : CLib.LONG_MIN <= n <= CLib.LONG_MAX)
    by (unfold CLib.LONG_MIN, CLib.LONG_MAX; lia).
  destruct (strtol_to_string n Hlong) as [Hs Hlen].
  conjuncts.
  - unfold delayStr, CLib.lf.
    apply upToNewline_cut; [apply to_string_oneLine | reflexivity].
  - unfold CLib.strtolInt, CLib.wrap32. rewrite Hs. cbn [fst].
    rewrite Z.mod_small by lia. lia.
  - exact Hlen.
Qed.

(** X15: decimal text round-trips through the loops' parsing.  For every
    [int] n, the text [std::to_string(n) + "\n"] (what [WltMonitor::init]
    writes as the notification delay, and the form in which sysfs shows
    an integer) is cut back to [std::to_string(n)] by [readValue], passes
    the conversion test, and converts to n; so a pass of the WLT loop
    that reads it over another previous text dispatches n as the new
    value and logs no failure for the current value. *)
Theorem decimal_text_round_trips :
  forall n : Z,
    - 2 ^ 31 <= n < 2 ^ 31 ->
    CLib.upToNewline (delayStr n) = to_string n /\
    CLib.conversionFailed (to_string n) = false /\
    CLib.strtolInt (to_string n) = n /\
    (forall l,
        WltMonitor.previous_value l <> to_string n ->
        WltMonitor.alert (WltMonitor.iteration (Some (delayStr n)) l)
        = Some (CLib.strtolInt (WltMonitor.previous_value l), n) /\
        ~ In (WltMonitor.LogConvertCurrent (to_string n))
             (WltMonitor.logged (WltMonitor.iteration (Some (delayStr n)) l))).
Proof.
  intros n Hn.
  assert (Hlong : CLib.LONG_MIN <= n <= CLib.LONG_MAX)
    by (unfold CLib.LONG_MIN, CLib.LONG_MAX; lia).
  destruct (strtol_to_string n Hlong) as [Hs Hlen].
  assert (Hcut : CLib.upToNewline (delayStr n) = to_string n).
  { unfold delayStr, CLib.lf.
    apply upToNewline_cut; [apply to_string_oneLine | reflexivity]. }
  assert (Hok : CLib.conversionFailed (to_string n) = false).
  { unfold CLib.conversionFailed. rewrite Hs. cbn [snd].
    rewrite Nat.eqb_refl. cbn [negb orb].
    destruct (String.length (to_string n)); [lia | reflexivity]. }
  assert (Hval : CLib.strtolInt (to_string n) = n).
  { unfold CLib.strtolInt, CLib.wrap32. rewrite Hs. cbn [fst].
    rewrite Z.mod_small by lia. lia. }
  conjuncts; try assumption.
  intros l Hne.
  destruct (WltMonitor_iteration_changed (Some (delayStr n)) l) as [Ha _].
  { cbn [WltMonitor.readValue fst]. rewrite Hcut. congruence. }
  split.
  - rewrite Ha. cbn [WltMonitor.readValue fst]. rewrite Hcut, Hval. reflexivity.
  - unfold WltMonitor.iteration. cbn [WltMonitor.readValue]. rewrite Hcut.
    apply not_eq_sym in Hne. apply String.eqb_neq in Hne.
    rewrite Hne, Hok. cbn [negb WltMonitor.logged app].
    rewrite app_nil_r.
    destruct (CLib.conversionFailed (WltMonitor.previous_value l));
      [intros [H | []]; discriminate H | intros []].
Qed.

Lemma decimal_text_round_trips_witness :
  CLib.upToNewline (delayStr 250) = "250" /\
  CLib.strtolInt (to_string (-17)) = -17.
Proof.
  assert (H1 : - 2 ^ 31 <= 250 < 2 ^ 31) by lia.
  assert (H2 : - 2 ^ 31 <= -17 < 2 ^ 31) by lia.
  destruct (decimal_text_round_trips 250 H1) as (Hcut & _).
  destruct (decimal_text_round_trips (-17) H2) as (_ & _ & Hval & _).
  split; [rewrite Hcut; reflexivity | exact Hval].
Defined.

(** ** What the GPU loop reports for a counter that advances *)

Lemma deltaIdle_advance :
  forall prev_val curr_val,
    0 <= curr_val - prev_val < 2 ^ 31 ->
    GpuRc6Monitor.deltaIdle prev_val curr_val = curr_val - prev_val.
Proof.
  intros prev_val curr_val H. unfold GpuRc6Monitor.deltaIdle.
  rewrite Z.geb_leb.
  destruct (Z.leb_spec prev_val curr_val) as [_ | Hlt]; [ | lia].
  unfold CLib.wrap32, CLib.wrapU64.
  rewrite (Z.mod_small (curr_val - prev_val + 2 ^ 31)) by lia.
  rewrite Z.mod_small by lia. lia.
Qed.

(** The report for an idle delta that is not negative. *)
Lemma gpu_report_of_delta :
  forall z : Z,
    0 <= z ->
    CLib.truncToInt (GpuRc6Monitor.idlePercent (GpuRc6Monitor.percentOf z))
    = Z.min 100 (z / 10) /\
    Qle_bool (GpuRc6Monitor.idlePercent (GpuRc6Monitor.percentOf z))
             (inject_Z GpuRc6Monitor.kGpuHighLoadPercent)
    = (z <=? 400).
Proof.
  intros z Hz.
  unfold GpuRc6Monitor.idlePercent, SocDaemon.Qltb, Qle_bool, CLib.truncToInt.
  assert (Hnum : Qnum (GpuRc6Monitor.percentOf z) = z * 100 * 1) by reflexivity.
  assert (Hden : Qden (GpuRc6Monitor.percentOf z) = 1000%positive) by reflexivity.
  rewrite Hnum, Hden.
  change (Qnum 100) with 100. change (Z.pos (Qden 100)) with 1.
  assert (Hdiv : z * 100 * 1 / 1000 = z / 10).
  { replace (z * 100 * 1) with (z * 100) by lia.
    change 1000 with (10 * 100). apply Z.div_mul_cancel_r; lia. }
  destruct (Z.leb_spec (z * 100 * 1 * 1) (100 * 1000)) as [Hle | Hgt]; cbn [negb].
  - rewrite Hnum, Hden. rewrite Z.quot_div_nonneg by lia. rewrite Hdiv.
    split.
    + assert (z / 10 <= 100) by (apply Z.div_le_upper_bound; lia). lia.
    + change (Qnum (inject_Z GpuRc6Monitor.kGpuHighLoadPercent)) with 40.
      change (Z.pos (Qden (inject_Z GpuRc6Monitor.kGpuHighLoadPercent))) with 1.
      destruct (Z.leb_spec (z * 100 * 1 * 1) (40 * 1000)),
               (Z.leb_spec z 400); try reflexivity; lia.
  - assert (100 <= z / 10) by (apply Z.div_le_lower_bound; lia).
    destruct (Z.leb_spec z 400); [lia | ].
    split; [cbn; lia | reflexivity].
Qed.

(** X16: for two successive readings of the idle counter that convert to
    ints with [0 <= curr_val - prev_val] (no overflow of the [int]
    subtraction), the GPU loop reports the idle percentage
    [min 100 ((curr_val - prev_val) / 10)], the milliseconds of idle time
    taken as a share of one second whatever the time between the two
    reads was, and gfx_mode 1 exactly when the counter advanced by at most
    400 ms. *)
Theorem gpu_alert_for_advancing_counter :
  forall prev_val curr_val : Z,
    0 <= curr_val - prev_val < 2 ^ 31 ->
    GpuRc6Monitor.gpuAlert prev_val curr_val
    = (Z.min 100 ((curr_val - prev_val) / 10),
       if curr_val - prev_val <=? 400 then 1 else 0).
Proof.
  intros prev_val curr_val H.
  unfold GpuRc6Monitor.gpuAlert, GpuRc6Monitor.gpuIdlePercent.
  rewrite (deltaIdle_advance _ _ H).
  destruct (gpu_report_of_delta (curr_val - prev_val)) as [Hidle Hgfx]; [lia | ].
  rewrite Hidle, Hgfx. reflexivity.
Qed.

Lemma gpu_alert_for_advancing_counter_witness :
  GpuRc6Monitor.gpuAlert 98000 98350 = (35, 1).
Proof.
  assert (H : 0 <= 98350 - 98000 < 2 ^ 31) by lia.
  rewrite (gpu_alert_for_advancing_counter 98000 98350 H). reflexivity.
Defined.

(** X17: the first alert of the GPU loop counts from zero.  Whatever the
    initial read gave, when the first pass reads the decimal text of a
    counter value c (an [int], not negative), the loop compares it with
    the empty [previous_value], which converts to 0: the alert carries
    the idle percentage [min 100 (c / 10)] and gfx_mode 1 exactly when
    c <= 400, so a counter above 1000 ms reports a GPU 100% idle. *)
Theorem gpu_first_alert_counts_from_zero :
  forall (c : Z) (initial : option string) (rest : list (option string)),
    0 <= c < 2 ^ 31 ->
    exists alerts : list (Z * Z),
      fst (gpuMonitorLoop initial (Some (delayStr c) :: rest))
      = (Z.min 100 (c / 10), if c <=? 400 then 1 else 0) :: alerts.
Proof.
  intros c initial rest Hc.
  assert (Hint : - 2 ^ 31 <= c < 2 ^ 31) by lia.
  destruct (round_trip_parts c Hint) as (Hcut & Hval & Hlen).
  unfold gpuMonitorLoop. cbn [gpuPasses].
  set (l0 := GpuRc6Monitor.mkLoop _ _).
  destruct (GpuRc6Monitor_iteration_changed (Some (delayStr c)) l0) as [Ha _].
  { cbn [GpuRc6Monitor.readValue fst GpuRc6Monitor.previous_value l0].
    rewrite Hcut. intro E. rewrite E in Hlen. cbn in Hlen. lia. }
  destruct (gpuPasses rest _) as [alerts l']. exists alerts.
  rewrite Ha. cbn [GpuRc6Monitor.readValue fst GpuRc6Monitor.previous_value l0].
  rewrite Hcut, Hval. change (CLib.strtolInt "") with 0.
  unfold GpuRc6Monitor.gpuAlert, GpuRc6Monitor.gpuIdlePercent.
  rewrite (deltaIdle_advance 0 c) by lia. rewrite Z.sub_0_r.
  destruct (gpu_report_of_delta c) as [Hidle Hgfx]; [lia | ].
  rewrite Hidle, Hgfx. reflexivity.
Qed.

Lemma gpu_first_alert_counts_from_zero_witness :
  exists alerts : list (Z * Z),
    fst (gpuMonitorLoop None [Some (delayStr 98000)]) = (100, 0) :: alerts.
Proof.
  assert (H : 0 <= 98000 < 2 ^ 31) by lia.
  exact (gpu_first_alert_counts_from_zero 98000 None [] H).
Defined.

End MonitorLoopRuns.

(* ================================================================== *)
(** * Properties of the CPU-load sampling *)

Section CpuLoadSampling.

Import SysLoadMonitor.
Import SysLoadSampler.
Local Open Scope R_scope.

(** ** The raw utilisation *)

Lemma rawUtil_no_advance :
  forall last cur,
    (totalTime cur <= totalTime last)%Z -> rawUtil last cur = (-1)%Q.
Proof.
  intros last cur H. unfold rawUtil, deltaTotal.
  rewrite Z.geb_leb.
  destruct (Z.leb_spec (totalTime last) (totalTime cur)) as [Hle | Hlt].
  - replace (totalTime cur - totalTime last)%Z with 0%Z by lia. reflexivity.
  - reflexivity.
Qed.

Lemma rawUtil_advance :
  forall last cur,
    (totalTime last < totalTime cur)%Z ->
    (0 <= rawUtil last cur <= 100)%Q.
Proof.
  intros last cur H. unfold rawUtil, deltaTotal.
  rewrite Z.geb_leb.
  destruct (Z.leb_spec (totalTime last) (totalTime cur)) as [Hle | Hlt]; [ | lia].
  set (dt := (totalTime cur - totalTime last)%Z).
  assert (Hdt : (0 < dt)%Z) by (unfold dt; lia).
  destruct (Z.gtb_spec dt 0) as [_ | Hn]; [ | lia].
  set (busy := if (dt >? deltaIdle last cur)%Z
               then (dt - deltaIdle last cur)%Z else 0%Z).
  assert (Hidle : (0 <= deltaIdle last cur)%Z).
  { unfold deltaIdle. rewrite Z.geb_leb.
    destruct (Z.leb_spec (idleTime last) (idleTime cur)); lia. }
  assert (Hbusy : (0 <= busy <= dt)%Z).
  { unfold busy. destruct (Z.gtb_spec dt (deltaIdle last cur)); lia. }
  assert (Hq : (0 < inject_Z dt)%Q) by (unfold Qlt; cbn; lia).
  clearbody busy dt.
  split.
  - apply Qle_shift_div_l; [exact Hq | ].
    unfold Qle; cbn -[Z.mul]. lia.
  - apply Qle_shift_div_r; [exact Hq | ].
    unfold Qle; cbn -[Z.mul]. lia.
Qed.



(** ** The EMA stays within its samples *)

Lemma applyEma_update :
  forall (now : Z) (raw : R) (g : Ema),
    0 <= raw -> 0 <= g_cpuEmaValue g ->
    applyEmaIrregularSample now raw g
    = (g_cpuEmaValue g * (1 - weight (elapsed now g))
       + raw * weight (elapsed now g),
       mkEma (g_cpuEmaValue g * (1 - weight (elapsed now g))
              + raw * weight (elapsed now g))
             (g_cpuEmaValue g) now) /\
    0 <= weight (elapsed now g) < 1.
Proof.
  intros now raw g Hraw Hv.
  assert (Hw : 0 <= weight (elapsed now g) < 1).
  { apply weight_range. unfold elapsed. apply Rmax_l. }
  split; [ | exact Hw].
  unfold applyEmaIrregularSample. cbv zeta.
  rewrite !clamp_is_Rmax. fold (elapsed now g). fold (weight (elapsed now g)).
  destruct (Rlt_dec raw 0) as [Hneg | _]; [lra | ].
  destruct (Rlt_dec (g_cpuEmaValue g) 0) as [Hneg | _]; [lra | ].
  rewrite (Rmax_right 0 (weight (elapsed now g))) by lra.
  destruct (Rgt_dec (weight (elapsed now g)) 1) as [Hbig | _]; [lra | ].
  reflexivity.
Qed.

Lemma applyEma_within :
  forall (B : R) (now : Z) (raw : R) (g : Ema),
    0 <= B -> raw <= B -> emaWithin B g ->
    emaWithin B (snd (applyEmaIrregularSample now raw g)) /\
    (fst (applyEmaIrregularSample now raw g) = -1
     \/ 0 <= fst (applyEmaIrregularSample now raw g) <= B).
Proof.
  intros B now raw g HB Hraw Hg. unfold emaWithin in *.
  destruct (Rlt_dec raw 0) as [Hneg | Hpos].
  - unfold applyEmaIrregularSample.
    destruct (Rlt_dec raw 0) as [_ | H]; [ | lra]. cbn [fst snd g_cpuEmaValue].
    split; [exact Hg | ].
    destruct (Rge_dec (g_cpuEmaValue g) 0) as [Hge | Hlt]; [ | left; reflexivity].
    destruct Hg as [Hg | Hg]; [lra | right; exact Hg].
  - destruct (Rlt_dec (g_cpuEmaValue g) 0) as [Hv | Hv].
    + unfold applyEmaIrregularSample.
      destruct (Rlt_dec raw 0) as [H | _]; [lra | ].
      destruct (Rlt_dec (g_cpuEmaValue g) 0) as [_ | H]; [ | lra].
      cbn [fst snd g_cpuEmaValue]. split; right; lra.
    + destruct Hg as [Hg | Hg]; [lra | ].
      destruct (applyEma_update now raw g) as [-> Hw]; try lra.
      cbn [fst snd g_cpuEmaValue].
      set (w := weight (elapsed now g)) in *.
      assert (0 <= g_cpuEmaValue g * (1 - w) + raw * w <= B) by nra.
      split; right; assumption.
Qed.

(** X19: the smoothed load never leaves the range of the raw samples.
    For every bound B (not negative) and every run of samples from the
    start, none above B: the EMA value is still [-1.0] or lies between 0
    and B.  With B = 25 this says that a sampler whose raw utilisation
    never exceeds 25% never reports a load above 25%. *)
Theorem ema_never_exceeds_its_samples :
  forall (B : R) (t0 : Z) (samples : list (Z * R)),
    0 <= B ->
    Forall (fun s => snd s <= B) samples ->
    g_cpuEmaValue (feed (emaAtStart t0) samples) = -1
    \/ 0 <= g_cpuEmaValue (feed (emaAtStart t0) samples) <= B.
Proof.
  intros B t0 samples HB Hall.
  assert (Hinv : forall samples g,
             Forall (fun s => snd s <= B) samples ->
             emaWithin B g -> emaWithin B (feed g samples)).
  { clear t0 samples Hall.
    induction samples as [| [now raw] samples IH]; intros g Hall Hg; [exact Hg | ].
    inversion Hall as [| x l Hraw Hrest]; subst. cbn [snd] in Hraw.
    unfold feed. cbn [fold_left fst snd].
    fold (feed (snd (applyEmaIrregularSample now raw g)) samples).
    apply IH; [exact Hrest | ].
    apply applyEma_within; assumption. }
  apply (Hinv samples (emaAtStart t0) Hall).
  left. reflexivity.
Qed.

Lemma ema_never_exceeds_its_samples_witness :
  g_cpuEmaValue (feed (emaAtStart 0) [(1000000000%Z, 20); (2000000000%Z, 10)]) = -1
  \/ 0 <= g_cpuEmaValue (feed (emaAtStart 0) [(1000000000%Z, 20); (2000000000%Z, 10)])
     <= 25.
Proof.
  assert (HB : 0 <= 25) by lra.
  assert (Hall : Forall (fun s : Z * R => snd s <= 25)
                   [(1000000000%Z, 20); (2000000000%Z, 10)]).
  { repeat constructor; cbn; lra. }
  exact (ema_never_exceeds_its_samples 25 0 _ HB Hall).
Defined.

(** ** What [getSysCpuLoad] returns *)

Lemma Q2R_rawUtil :
  forall last cur,
    Q2R (rawUtil last cur) = -1 \/ 0 <= Q2R (rawUtil last cur) <= 100.
Proof.
  intros last cur.
  destruct (Z.le_gt_cases (totalTime cur) (totalTime last)) as [Hle | Hlt].
  - left. rewrite (rawUtil_no_advance last cur Hle).
    unfold Q2R. cbn. lra.
  - right. destruct (rawUtil_advance last cur Hlt) as [H0 H100].
    apply Qle_Rle in H0, H100.
    replace (Q2R 0) with 0 in H0 by (unfold Q2R; cbn; lra).
    replace (Q2R 100) with 100 in H100 by (unfold Q2R; cbn; lra).
    split; assumption.
Qed.

Lemma getSysCpuLoad_within :
  forall now stat s,
    emaWithin 100 (ema s) ->
    percentOrNone (fst (getSysCpuLoad now stat s)) /\
    emaWithin 100 (ema (snd (getSysCpuLoad now stat s))).
Proof.
  intros now stat s Hs. unfold getSysCpuLoad, percentOrNone.
  destruct stat as [values |].
  - destruct (sumFields values 0 0 0) as [total idle].
    set (raw := Q2R (rawUtil (currentSample_ s) (mkSample total idle))).
    assert (Hraw : raw <= 100).
    { unfold raw.
      destruct (Q2R_rawUtil (currentSample_ s) (mkSample total idle)); lra. }
    destruct (applyEma_within 100 now raw (ema s)) as [Hg Hv]; try lra; try assumption.
    destruct (applyEmaIrregularSample now raw (ema s)) as [v g].
    cbn [fst snd ema] in *. split; assumption.
  - destruct (applyEma_within 100 now (-1) (ema s)) as [Hg Hv]; try lra; try assumption.
    destruct (applyEmaIrregularSample now (-1) (ema s)) as [v g].
    cbn [fst snd ema] in *. split; assumption.
Qed.

(** X20: every value [getSysCpuLoad] returns is a percentage or the
    [-1.0] that stands for no value.  Over every run of calls from the
    start, whatever the clock readings and whatever /proc/stat holds
    (unreadable, counters going back, wrapped sums), each returned value
    is [-1.0] or lies between 0 and 100. *)
Theorem sampled_load_is_a_percentage_or_none :
  forall (t0 : Z) (calls : list (Z * option (list Z))),
    Forall percentOrNone (loads calls (atStart t0)).
Proof.
  intros t0 calls.
  assert (Hinv : forall calls s,
             emaWithin 100 (ema s) -> Forall percentOrNone (loads calls s)).
  { clear. induction calls as [| [now stat] calls IH]; intros s Hs; [constructor | ].
    cbn [loads].
    destruct (getSysCpuLoad_within now stat s Hs) as [Hv Hg].
    destruct (getSysCpuLoad now stat s) as [v s']. cbn [fst snd] in *.
    constructor; [exact Hv | apply IH; exact Hg]. }
  apply Hinv. left. reflexivity.
Qed.

(** ** The EMA moves towards the sample *)

(** X21: over the real numbers (doubles are taken as reals: the rounding
    of the double expression, which can carry the result one rounding unit
    outside, is not modelled), with the EMA initialised and a defined raw
    sample, the new EMA value lies between the old value and the sample,
    and when the clock has not advanced since the last update the value
    stays as it is. *)
Theorem ema_moves_towards_the_sample :
  forall (now : Z) (raw : R) (g : Ema),
    0 <= raw -> 0 <= g_cpuEmaValue g ->
    Rmin (g_cpuEmaValue g) raw
      <= fst (applyEmaIrregularSample now raw g)
      <= Rmax (g_cpuEmaValue g) raw /\
    ((now <= g_cpuEmaLastTs g)%Z ->
     fst (applyEmaIrregularSample now raw g) = g_cpuEmaValue g).
Proof.
  intros now raw g Hraw Hv.
  destruct (applyEma_update now raw g Hraw Hv) as [-> Hw].
  cbn [fst]. set (w := weight (elapsed now g)) in *.
  split.
  - unfold Rmin, Rmax.
    destruct (Rle_dec (g_cpuEmaValue g) raw) as [Hle | Hgt]; split; nra.
  - intro Hnow.
    assert (He : elapsed now g = 0).
    { unfold elapsed, secondsOf. apply Rmax_left.
      assert (IZR (now - g_cpuEmaLastTs g) <= 0) by (apply IZR_le; lia).
      lra. }
    assert (Hw0 : w = 0).
    { unfold w. rewrite He. unfold weight.
      replace (- 0 / kCpuEmaTimeConstantSec) with 0
        by (unfold kCpuEmaTimeConstantSec; lra).
      rewrite exp_0. lra. }
    rewrite Hw0. lra.
Qed.

Lemma ema_moves_towards_the_sample_witness :
  Rmin 50 80
    <= fst (applyEmaIrregularSample 1500000000 80 Scenarios.emaAtFifty)
    <= Rmax 50 80.
Proof.
  assert (H1 : 0 <= 80) by lra.
  assert (H2 : 0 <= g_cpuEmaValue Scenarios.emaAtFifty) by (cbn; lra).
  exact (proj1 (ema_moves_towards_the_sample 1500000000%Z 80 Scenarios.emaAtFifty
                  H1 H2)).
Defined.

End CpuLoadSampling.

(* ================================================================== *)
(** * Properties of the HFI monitor *)

Section HfiMessages.

Import HfiMonitor.

Lemma readCaps_triples :
  forall cpus c,
    eff (readCaps (capabilityOf cpus) 0 c)
    = match rev cpus with
      | [] => eff c
      | (_, _, e) :: _ => Z.shiftr (u32 e) 2
      end.
Proof.
  induction cpus as [| [[c1 p1] e1] cpus IH]; intro c; [reflexivity | ].
  cbn [capabilityOf readCaps Z.eqb Z.add Pos.add Pos.succ Pos.eqb].
  rewrite IH. cbn [rev eff].
  destruct (rev cpus) as [| [[c2 p2] e2] l]; reflexivity.
Qed.

(** X22: in a capability message that lists several CPUs, only the last
    CPU decides.  For a message whose attributes are the triples (cpu,
    performance, efficiency) of a list of CPUs ending with the triple of
    efficiency e, [process_message] compares [efficient_power] with
    [e >> 2] ([e] taken as a u32): when they differ it dispatches the
    alert (efficient_power, e >> 2) and stores [e >> 2]; when they are
    equal it dispatches nothing.  A message without attributes stands for
    the efficiency 0, and a message of another command changes
    nothing. *)
Theorem hfi_last_cpu_decides :
  forall (cpus : list (Z * Z * Z)) (c p e : Z) (efficient_power : Z),
    (process_message
       (mkMessage THERMAL_GENL_EVENT_CPU_CAPABILITY_CHANGE
          (capabilityOf (cpus ++ [(c, p, e)])))
       efficient_power
     = if efficient_power =? Z.shiftr (u32 e) 2
       then (None, efficient_power)
       else (Some (efficient_power, Z.shiftr (u32 e) 2), Z.shiftr (u32 e) 2)) /\
    (process_message (mkMessage THERMAL_GENL_EVENT_CPU_CAPABILITY_CHANGE [])
       efficient_power
     = if efficient_power =? 0
       then (None, efficient_power)
       else (Some (efficient_power, 0), 0)) /\
    (forall other attrs,
        process_message (mkMessage (OtherCmd other) attrs) efficient_power
        = (None, efficient_power)).
Proof.
  intros cpus c p e efficient_power. conjuncts.
  - unfold process_message. cbn [cmd capability].
    rewrite readCaps_triples, rev_app_distr. cbn [rev app].
    destruct (efficient_power =? Z.shiftr (u32 e) 2); reflexivity.
  - unfold process_message. cbn.
    destruct (efficient_power =? 0); reflexivity.
  - reflexivity.
Qed.

(** ** The monitor and the coordinator together *)

Lemma deliver_mirror :
  forall env d efficient_power m,
    SocDaemon.efficientMode_ d = (efficient_power =? 255) ->
    SocDaemon.efficientMode_ (fst (deliver env (d, efficient_power) m))
    = (snd (deliver env (d, efficient_power) m) =? 255).
Proof.
  intros env d efficient_power m Hinv. unfold deliver, process_message.
  destruct (cmd m); [ | exact Hinv].
  destruct (negb (efficient_power =? eff (readCaps (capability m) 0 (mkCaps 0 0 0))));
    [ | exact Hinv].
  cbn [fst snd].
  rewrite handleChangeAlert_HfiMonitor. unfold SocDaemon.onHfiMonitor.
  destruct (eff (readCaps (capability m) 0 (mkCaps 0 0 0)) =? 255);
    apply sendHintIfAllowed_frame.
Qed.

(** X23: the HFI monitor and the coordinator together keep the cached
    EFFICIENT_POWER value equal to [efficient_power == 255].  From the
    started daemon and the monitor's initial [efficient_power = 0], after
    every run of netlink messages delivered through [process_message]
    and [handleChangeAlert] (no alert of another monitor coming in
    between), the coordinator's [efficientMode_] is true exactly when the
    efficiency the monitor stored last is 255, although the monitor
    alerts only when the efficiency changes. *)
Theorem hfi_cache_follows_last_efficiency :
  forall (sendHint sendGfxHint : bool) (socHint : string)
         (gfxMode0 gpuInitOk : bool) (env : SocDaemon.Env) (ms : list Message),
    let st := fold_left (deliver env) ms
                (SocDaemonInvariants.started sendHint sendGfxHint socHint
                   gfxMode0 gpuInitOk,
                 efficient_power_at_start) in
    SocDaemon.efficientMode_ (fst st) = (snd st =? 255).
Proof.
  intros sendHint sendGfxHint socHint gfxMode0 gpuInitOk env ms.
  assert (Hinv : forall ms st,
             SocDaemon.efficientMode_ (fst st) = (snd st =? 255) ->
             SocDaemon.efficientMode_ (fst (fold_left (deliver env) ms st))
             = (snd (fold_left (deliver env) ms st) =? 255)).
  { clear. induction ms as [| m ms IH]; intros [d ep] H; [exact H | ].
    cbn [fold_left]. apply IH. apply deliver_mirror. exact H. }
  apply Hinv. unfold SocDaemonInvariants.started, SocDaemon.start.
  destruct gpuInitOk; reflexivity.
Qed.

End HfiMessages.

(* ================================================================== *)
(** * Properties of the command line *)

Section CommandLine.

Import Main.

Lemma readDigits_nonneg :
  forall s acc, 0 <= acc -> 0 <= fst (CLib.readDigits s acc).
Proof.
  induction s as [| c s IH]; intros acc Hacc; [exact Hacc | ].
  cbn [CLib.readDigits].
  destruct (CLib.isdigit c) eqn:Hc; [ | exact Hacc].
  specialize (IH (10 * acc + CLib.digitValue c)).
  destruct (CLib.readDigits s (10 * acc + CLib.digitValue c)) as [v n].
  cbn [fst] in *. apply IH.
  unfold CLib.isdigit in Hc. unfold CLib.digitValue.
  apply andb_prop in Hc as [H1 _]. apply Z.leb_le in H1. lia.
Qed.

Lemma finish_ok :
  forall sendHint socHint notificationDelay sh soc nd,
    localsOk socHint notificationDelay ->
    finish sendHint socHint notificationDelay = Run sh soc nd ->
    knownMode soc /\
    (nd = -1 \/ (0 <= nd <= INT_MAX /\ (soc = "wlt" \/ soc = "swlt"))) /\
    (socHint = "" -> soc = "wlt" /\ nd = -1).
Proof.
  intros sendHint socHint notificationDelay sh soc nd [Hs Hd] Hrun.
  unfold finish in Hrun.
  destruct (Z.geb_spec notificationDelay 0) as [Hge | Hlt]; cbn [andb] in Hrun.
  - assert (Hnd : 0 <= notificationDelay <= INT_MAX) by lia.
    destruct (String.eqb_spec socHint "wlt") as [-> | Hw].
    { cbn in Hrun. injection Hrun as <- <- <-.
      split; [left; reflexivity | ].
      split; [right; split; [exact Hnd | left; reflexivity] | discriminate]. }
    destruct (String.eqb_spec socHint "swlt") as [-> | Hsw].
    { cbn in Hrun. injection Hrun as <- <- <-.
      split; [right; left; reflexivity | ].
      split; [right; split; [exact Hnd | right; reflexivity] | discriminate]. }
    discriminate Hrun.
  - assert (Hnd : notificationDelay = -1) by lia.
    destruct (String.eqb_spec socHint "") as [-> | Hne];
      injection Hrun as <- <- <-.
    + split; [left; reflexivity | ].
      split; [left; exact Hnd | intros _; split; [reflexivity | exact Hnd]].
    + split; [destruct Hs as [Hs | Hs]; [contradiction | exact Hs] | ].
      split; [left; exact Hnd | contradiction].
Qed.

(** The loop over the arguments, whatever the locals it starts from. *)
Lemma parseArgs_ok :
  forall (n : nat) (args : list string) sendHint socHint notificationDelay sh soc nd,
    (List.length args <= n)%nat ->
    localsOk socHint notificationDelay ->
    parseArgs args sendHint socHint notificationDelay = Run sh soc nd ->
    knownMode soc /\
    (nd = -1 \/ (0 <= nd <= INT_MAX /\ (soc = "wlt" \/ soc = "swlt"))) /\
    (socHint = "" -> ~ In "--socHint" args -> soc = "wlt" /\ nd = -1).
Proof.
  induction n as [| n IH];
    intros args sendHint socHint notificationDelay sh soc nd Hlen Hok Hrun.
  - destruct args; [ | cbn in Hlen; lia].
    destruct (finish_ok _ _ _ _ _ _ Hok Hrun) as (H1 & H2 & H3). auto.
  - destruct args as [| arg rest].
    { destruct (finish_ok _ _ _ _ _ _ Hok Hrun) as (H1 & H2 & H3). auto. }
    cbn [parseArgs] in Hrun. cbn [List.length] in Hlen.
    destruct (String.eqb_spec arg "--sendHint") as [-> | Ha1].
    { destruct rest as [| value rest']; [discriminate | ].
      cbn [List.length] in Hlen.
      assert (Hl : (List.length rest' <= n)%nat) by lia.
      assert (Hnext : exists b, parseArgs rest' b socHint notificationDelay
                                = Run sh soc nd).
      { destruct (value =? "true")%string; [eexists; exact Hrun | ].
        destruct (value =? "false")%string; [eexists; exact Hrun | discriminate]. }
      destruct Hnext as [b Hnext].
      destruct (IH rest' _ _ _ _ _ _ Hl Hok Hnext) as (H1 & H2 & H3).
      split; [exact H1 | split; [exact H2 | ]].
      intros He Hnot. apply (H3 He).
      intro Hin. apply Hnot. right. right. exact Hin. }
    destruct (String.eqb_spec arg "--socHint") as [-> | Ha2].
    { destruct rest as [| value rest']; [discriminate | ].
      cbn [List.length] in Hlen.
      assert (Hl : (List.length rest' <= n)%nat) by lia.
      destruct ((value =? "wlt")%string || (value =? "swlt")%string
                || (value =? "hfi")%string) eqn:Hv; [ | discriminate].
      assert (Hok' : localsOk value notificationDelay).
      { split; [right | apply Hok].
        apply orb_prop in Hv as [Hv | Hv];
          [apply orb_prop in Hv as [Hv | Hv] | ];
          apply String.eqb_eq in Hv; unfold knownMode; auto. }
      destruct (IH rest' _ _ _ _ _ _ Hl Hok' Hrun) as (H1 & H2 & _).
      split; [exact H1 | split; [exact H2 | ]].
      intros _ Hnot. exfalso. apply Hnot. left. reflexivity. }
    destruct (String.eqb_spec arg "--notification-delay") as [-> | Ha3];
      [ | discriminate].
    destruct rest as [| delayStr rest']; [discriminate | ].
    cbn [List.length] in Hlen.
    assert (Hl : (List.length rest' <= n)%nat) by lia.
    destruct (negb (delayStr =? "")%string && allDigits delayStr); [ | discriminate].
    unfold stoi in Hrun.
    destruct (Z.leb_spec (fst (CLib.readDigits delayStr 0)) INT_MAX) as [Hle | Hgt];
      [ | discriminate].
    pose proof (readDigits_nonneg delayStr 0 (Z.le_refl 0)) as Hnn.
    destruct (Z.ltb_spec (fst (CLib.readDigits delayStr 0)) 0) as [Hneg | _];
      [discriminate | ].
    assert (Hok' : localsOk socHint (fst (CLib.readDigits delayStr 0))).
    { split; [apply Hok | right; lia]. }
    destruct (IH rest' _ _ _ _ _ _ Hl Hok' Hrun) as (H1 & H2 & H3).
    split; [exact H1 | split; [exact H2 | ]].
    intros He Hnot. apply (H3 He).
    intro Hin. apply Hnot. right. right. exact Hin.
Qed.

(** X24: every command line that [main] accepts gives the daemon a
    well-formed configuration.  When [main] goes on to construct the
    daemon, the mode is "wlt", "swlt" or "hfi", and the notification
    delay is either -1 (not set) or an [int] that is not negative
    together with the mode "wlt" or "swlt". *)
Theorem accepted_command_line_is_well_formed :
  forall (args : list string) (sendHint : bool) (socHint : string)
         (notificationDelay : Z),
    main args = Run sendHint socHint notificationDelay ->
    (socHint = "wlt" \/ socHint = "swlt" \/ socHint = "hfi") /\
    (notificationDelay = -1 \/
     (0 <= notificationDelay <= INT_MAX /\ (socHint = "wlt" \/ socHint = "swlt"))).
Proof.
  intros args sendHint socHint notificationDelay Hrun. unfold main in Hrun.
  assert (Hok : localsOk "" (-1)) by (split; left; reflexivity).
  destruct (parseArgs_ok (List.length args) args _ _ _ _ _ _ (le_n _) Hok Hrun)
    as (H1 & H2 & _).
  split; assumption.
Qed.

Lemma accepted_command_line_is_well_formed_witness :
  ("swlt" = "wlt" \/ "swlt" = "swlt" \/ "swlt" = "hfi") /\
  (250 = -1 \/ (0 <= 250 <= INT_MAX /\ ("swlt" = "wlt" \/ "swlt" = "swlt"))).
Proof.
  assert (H : main ["--sendHint"; "true"; "--socHint"; "swlt";
                    "--notification-delay"; "250"]
              = Run true "swlt" 250) by (vm_compute; reflexivity).
  exact (accepted_command_line_is_well_formed _ _ _ _ H).
Defined.

(** X25: without [--socHint] the mode defaults to "wlt", and yet a
    notification delay is then refused: the validation of
    [--notification-delay] runs before the default is applied.  So every
    accepted command line in which "--socHint" does not occur runs the
    daemon in "wlt" mode with the delay not set. *)
Theorem delay_needs_an_explicit_mode :
  forall (args : list string) (sendHint : bool) (socHint : string)
         (notificationDelay : Z),
    ~ In "--socHint" args ->
    main args = Run sendHint socHint notificationDelay ->
    socHint = "wlt" /\ notificationDelay = -1.
Proof.
  intros args sendHint socHint notificationDelay Hnot Hrun. unfold main in Hrun.
  assert (Hok : localsOk "" (-1)) by (split; left; reflexivity).
  destruct (parseArgs_ok (List.length args) args _ _ _ _ _ _ (le_n _) Hok Hrun)
    as (_ & _ & H3).
  apply H3; [reflexivity | exact Hnot].
Qed.

Lemma delay_needs_an_explicit_mode_witness :
  main ["--notification-delay"; "250"] = Exit1 /\
  ("wlt" = "wlt" /\ -1 = -1).
Proof.
  assert (Hnot : ~ In "--socHint" ["--sendHint"; "true"]).
  { intros [H | [H | []]]; discriminate H. }
  assert (H : main ["--sendHint"; "true"] = Run true "wlt" (-1))
    by (vm_compute; reflexivity).
  split; [vm_compute; reflexivity | ].
  exact (delay_needs_an_explicit_mode _ _ _ _ Hnot H).
Defined.

End CommandLine.

(* ================================================================== *)
(** * Properties of the GPU load sampler *)

Section GpuLoadSampling.

Import GpuLoadMonitor.

(** X26: [getGpuLoad] returns 100 for every successful read, whatever the
    counter holds and held before: [lastSample_ = currentSample_] runs
    before the two are compared, so the idle delta is always 0; a failed
    read returns [-1.0].  Hence a pass of [monitorLoop] calls
    [onValueChanged] exactly when the read succeeds. *)
Theorem gpu_load_is_100_on_every_read :
  forall (s : Sampler),
    (forall idleResidencyMs,
        (fst (getGpuLoad (Some idleResidencyMs) s) == 100)%Q /\
        fst (monitorPass (Some idleResidencyMs) s) = true /\
        currentSample_ (snd (getGpuLoad (Some idleResidencyMs) s))
        = CLib.wrapU64 idleResidencyMs) /\
    fst (getGpuLoad None s) = (-1)%Q /\
    fst (monitorPass None s) = false.
Proof.
  intro s. unfold monitorPass, getGpuLoad. cbn [currentSample_ lastSample_].
  assert (Hgt : (currentSample_ s >? currentSample_ s) = false)
    by (rewrite Z.gtb_ltb; apply Z.ltb_irrefl).
  rewrite Hgt. split; [intro idleResidencyMs | ]; conjuncts; reflexivity.
Qed.

End GpuLoadSampling.
